(** * The prompt-refinement pipeline of codex-mcp

    A shallow embedding of [templates.ts] (the heuristic template engine, in
    its two copies), of [codex.ts] (subprocess invocation, output
    reconciliation, enrichment) and of [ai-providers.ts] (the orchestrator
    without fallback), followed by the properties of the pipeline.

    JavaScript strings are sequences of UTF-16 code units; they are modelled
    as [list N], so that [length] is [String.prototype.length] and substring
    search works on code units, as in the engine.  The callbacks of a child
    process are modelled as a handler run over the events the host
    delivers. *)

From Stdlib Require Import NArith ZArith Ascii String List Bool Lia.
From Stdlib Require Import DecimalString PrimFloat Uint63.
From stdpp Require Import base list gmap.
Import ListNotations.

Local Open Scope N_scope.

(** ** JavaScript strings *)

Abbreviation jsstring := (list N).

Module JsString.

(** The bytes of a literal of this file (the file is UTF-8). *)
Fixpoint bytes (s : string) : list N :=
  match s with
  | EmptyString => []
  | String c s' => N_of_ascii c :: bytes s'
  end.

(** UTF-8 to UTF-16: one code unit per code point of the basic plane, a
    surrogate pair above it.  Only used on the literals of the source. *)
Fixpoint utf16 (bs : list N) : jsstring :=
  match bs with
  | [] => []
  | b0 :: r0 =>
    if b0 <? 128 then b0 :: utf16 r0
    else
      match r0 with
      | [] => [65533]
      | b1 :: r1 =>
        if b0 <? 224 then ((b0 - 192) * 64 + (b1 - 128)) :: utf16 r1
        else
          match r1 with
          | [] => [65533]
          | b2 :: r2 =>
            if b0 <? 240
            then ((b0 - 224) * 4096 + (b1 - 128) * 64 + (b2 - 128)) :: utf16 r2
            else
              match r2 with
              | [] => [65533]
              | b3 :: r3 =>
                let cp := (b0 - 240) * 262144 + (b1 - 128) * 4096
                          + (b2 - 128) * 64 + (b3 - 128) in
                let v := cp - 65536 in
                (55296 + v / 1024) :: (56320 + v mod 1024) :: utf16 r3
              end
          end
      end
  end.

(** A string literal of the source. *)
Definition js (s : string) : jsstring := utf16 (bytes s).

(** The same, for literals of the source that contain double quotes: they are
    written here with single quotes. *)
Definition jsq (s : string) : jsstring :=
  map (fun c => if c =? 39 then 34 else c) (js s).

(** [s.startsWith(pat)] *)
Fixpoint startsWith (s pat : jsstring) : bool :=
  match pat, s with
  | [], _ => true
  | _ :: _, [] => false
  | p :: pat', c :: s' => (p =? c) && startsWith s' pat'
  end.

(** [s.includes(pat)] *)
Fixpoint includes (s pat : jsstring) : bool :=
  startsWith s pat ||
  match s with
  | [] => false
  | _ :: s' => includes s' pat
  end.

(** [s.replace(search, repl)] with a string pattern: the first occurrence
    only. *)
Fixpoint replace (s search repl : jsstring) : jsstring :=
  if startsWith s search then repl ++ skipn (length search) s
  else
    match s with
    | [] => []
    | c :: s' => c :: replace s' search repl
    end.

(** WhiteSpace and LineTerminator code points of ECMAScript, the ones
    [trim] strips. *)
Definition isWhiteSpace (c : N) : bool :=
  ((9 <=? c) && (c <=? 13)) || (c =? 32) || (c =? 160) || (c =? 5760)
  || ((8192 <=? c) && (c <=? 8202)) || (c =? 8232) || (c =? 8233)
  || (c =? 8239) || (c =? 8287) || (c =? 12288) || (c =? 65279).

Fixpoint trimStart (s : jsstring) : jsstring :=
  match s with
  | [] => []
  | c :: s' => if isWhiteSpace c then trimStart s' else s
  end.

Definition trimEnd (s : jsstring) : jsstring := rev (trimStart (rev s)).

(** [s.trim()] *)
Definition trim (s : jsstring) : jsstring := trimEnd (trimStart s).

(** [s.split(sep)] for a separator of one code unit. *)
Fixpoint split (sep : N) (s : jsstring) : list jsstring :=
  match s with
  | [] => [[]]
  | c :: s' =>
    if c =? sep then [] :: split sep s'
    else
      match split sep s' with
      | [] => [[c]]
      | l :: ls => (c :: l) :: ls
      end
  end.

(** A string in a boolean position: the empty string is the only falsy
    one. *)
Definition truthy (s : jsstring) : bool :=
  match s with [] => false | _ :: _ => true end.

Definition eqb (a b : jsstring) : bool := bool_decide (a = b).

(** [String(n)] for an integer. *)
Definition ofZ (z : Z) : jsstring :=
  bytes (NilZero.string_of_int (Z.to_int z)).

(** [s.toLowerCase()] restricted to Basic Latin and Latin-1: it agrees with
    the ECMAScript function on every string whose code units are below 256
    and leaves the other code units as they are. *)
Definition lowerUnit (c : N) : N :=
  if ((65 <=? c) && (c <=? 90))
     || ((192 <=? c) && (c <=? 222) && negb (c =? 215))
  then c + 32 else c.

Definition toLowerCaseLatin1 (s : jsstring) : jsstring := map lowerUnit s.

End JsString.

Import JsString.

Arguments js : simpl never.
Arguments jsq : simpl never.

(** ** The heuristic template engine ([templates.ts])

    The repository holds two copies of [templates.ts].  They share the rule
    document, [detectTemplate], [getTemplateMetadata] and
    [formatSystemPrompt] and differ in [suggestTags] and [identifyRisks]:
    the second copy has more keyword rules, six risk categories instead of
    four and a generic advisory.  [codex.ts] imports the [templateManager]
    object of either. *)

Record Template := {
  prompt_prefix : jsstring;
  (** [template.sections] is guarded by [||] in [getTemplateMetadata]: a
      rule document may leave it out. *)
  template_sections : option (list jsstring)
}.

Record PromptRules := {
  main_refiner : jsstring;
  templates : gmap jsstring Template;
  risk_categories : list jsstring;
  common_tags : list jsstring
}.

Record PromptMetadata := {
  sections : list jsstring;
  acceptanceCriteria : list jsstring;
  checklist : list jsstring
}.

Record RefinedPromptOutput := {
  improvedPrompt : jsstring;
  rationale : jsstring;
  risks : list jsstring;
  tags : list jsstring;
  metadata : PromptMetadata
}.

(** The public methods of [class TemplateManager]. *)
Record TemplateManager := {
  getSystemPrompt : jsstring;
  detectTemplate : jsstring -> jsstring;
  getTemplateMetadata : jsstring -> PromptMetadata;
  suggestTags : jsstring -> list jsstring;
  identifyRisks : jsstring -> list jsstring;
  formatSystemPrompt : option jsstring -> jsstring
}.

(** [new Set(iterable)] keeps its elements in insertion order; adding a
    member again changes nothing. *)
Definition Set_add (s : list jsstring) (x : jsstring) : list jsstring :=
  if existsb (eqb x) s then s else s ++ [x].

Definition Set_from (l : list jsstring) : list jsstring :=
  fold_left Set_add l [].

(** [if (cond) { list.push(x) }] *)
Definition pushIf (cond : bool) (x : jsstring) (l : list jsstring) : list jsstring :=
  if cond then l ++ [x] else l.

Definition getDefaultRules : PromptRules := {|
  main_refiner :=
    js "You are an expert prompt engineer. Analyze and improve the given prompt with structured output in JSON format.";
  templates :=
    {[ js "software_development" :=
         {| prompt_prefix := js "Como um desenvolvedor sênior experiente, ";
            template_sections :=
              Some [js "Análise de Requisitos"; js "Arquitetura Proposta";
                    js "Implementação"; js "Testes"; js "Documentação"] |} ]};
  risk_categories := [js "Segurança"; js "Performance"; js "Escalabilidade"];
  common_tags := [js "desenvolvimento"; js "automação"; js "dados"]
|}.

(** *** The first copy, [src/templates.ts] *)

Module Templates.
Section Methods.

(** [String.prototype.toLowerCase], the Unicode case mapping of the host. *)
Variable toLowerCase : jsstring -> jsstring.

(** [this.rules], the rule document loaded when the manager is built. *)
Variable rules : PromptRules.

Definition getSystemPrompt : jsstring := main_refiner rules.

Definition detectTemplate (prompt : jsstring) : jsstring :=
  let lowerPrompt := toLowerCase prompt in
  if includes lowerPrompt (js "script") || includes lowerPrompt (js "código")
     || includes lowerPrompt (js "desenvolv") || includes lowerPrompt (js "program")
  then js "software_development"
  else if includes lowerPrompt (js "dados") || includes lowerPrompt (js "csv")
     || includes lowerPrompt (js "database") || includes lowerPrompt (js "postgres")
  then js "data_processing"
  else js "software_development".

Definition defaultSections : list jsstring :=
  [js "Plan"; js "Risks"; js "Next actions"; js "Tests"].

Definition getTemplateMetadata (templateName : jsstring) : PromptMetadata :=
  match templates rules !! templateName with
  | None =>
    {| sections := defaultSections;
       acceptanceCriteria :=
         [js "Funcionalidade implementada corretamente"; js "Testes passando";
          js "Documentação atualizada"];
       checklist :=
         [js "Revisar código"; js "Executar testes"; js "Validar requisitos"] |}
  | Some template =>
    {| sections :=
         match template_sections template with
         | Some s => s
         | None => defaultSections
         end;
       acceptanceCriteria :=
         [js "Solução atende aos requisitos especificados";
          js "Código segue padrões de qualidade";
          js "Testes validam funcionalidade"];
       checklist :=
         [js "Implementar solução proposta"; js "Criar testes unitários";
          js "Validar com dados de teste"; js "Documentar implementação"] |}
  end.

(** The test of the loop of [suggestTags] over [this.rules.common_tags]. *)
Definition matchesCommonTag (lowerPrompt tag : jsstring) : bool :=
  includes lowerPrompt (toLowerCase tag)
  || includes lowerPrompt (replace (toLowerCase tag) (js "ã") (js "a")).

Definition suggestTags (prompt : jsstring) : list jsstring :=
  let lowerPrompt := toLowerCase prompt in
  let suggestedTags := List.filter (matchesCommonTag lowerPrompt) (common_tags rules) in
  let suggestedTags :=
    pushIf (includes lowerPrompt (js "api") || includes lowerPrompt (js "rest")
            || includes lowerPrompt (js "endpoint"))
           (js "api") suggestedTags in
  let suggestedTags :=
    pushIf (includes lowerPrompt (js "test") || includes lowerPrompt (js "unit")
            || includes lowerPrompt (js "integration"))
           (js "testes") suggestedTags in
  let suggestedTags :=
    pushIf (includes lowerPrompt (js "performance") || includes lowerPrompt (js "otimiz")
            || includes lowerPrompt (js "speed"))
           (js "performance") suggestedTags in
  Set_from suggestedTags.

Definition identifyRisks (prompt : jsstring) : list jsstring :=
  let lowerPrompt := toLowerCase prompt in
  let risks : list jsstring := [] in
  let risks :=
    pushIf (includes lowerPrompt (js "password") || includes lowerPrompt (js "secret")
            || includes lowerPrompt (js "token") || includes lowerPrompt (js "auth"))
           (js "Dados sensíveis podem estar expostos") risks in
  let risks :=
    pushIf (includes lowerPrompt (js "loop") || includes lowerPrompt (js "recursão")
            || includes lowerPrompt (js "grande volume"))
           (js "Possível impacto na performance com grandes volumes") risks in
  let risks :=
    pushIf (includes lowerPrompt (js "database") || includes lowerPrompt (js "sql")
            || includes lowerPrompt (js "dados"))
           (js "Validação de dados de entrada necessária") risks in
  let risks :=
    pushIf (includes lowerPrompt (js "api") || includes lowerPrompt (js "external")
            || includes lowerPrompt (js "terceiro"))
           (js "Dependência de serviços externos pode falhar") risks in
  risks.

Definition formatSystemPrompt (context : option jsstring) : jsstring :=
  let systemPrompt := getSystemPrompt in
  match context with
  | Some c => if truthy c then systemPrompt ++ js "

CONTEXT:
" ++ c else systemPrompt
  | None => systemPrompt
  end.

Definition templateManager : TemplateManager :=
  Build_TemplateManager getSystemPrompt detectTemplate getTemplateMetadata
    suggestTags identifyRisks formatSystemPrompt.

End Methods.
End Templates.

(** *** The second copy of [templates.ts]

    [getSystemPrompt], [detectTemplate], [getTemplateMetadata] and
    [formatSystemPrompt] are those of the first copy, character for
    character. *)

Module TemplatesV2.
Section Methods.

Variable toLowerCase : jsstring -> jsstring.
Variable rules : PromptRules.

Definition matchesCommonTag (lowerPrompt tag : jsstring) : bool :=
  let tagLower := toLowerCase tag in
  includes lowerPrompt tagLower
  || includes lowerPrompt (replace tagLower (js "ã") (js "a"))
  || includes lowerPrompt (replace tagLower (js "ç") (js "c")).

Definition suggestTags (prompt : jsstring) : list jsstring :=
  let lowerPrompt := toLowerCase prompt in
  let suggestedTags := List.filter (matchesCommonTag lowerPrompt) (common_tags rules) in
  let suggestedTags :=
    pushIf (includes lowerPrompt (js "api") || includes lowerPrompt (js "rest")
            || includes lowerPrompt (js "endpoint"))
           (js "api") suggestedTags in
  let suggestedTags :=
    pushIf (includes lowerPrompt (js "test") || includes lowerPrompt (js "unit")
            || includes lowerPrompt (js "integration"))
           (js "testes") suggestedTags in
  let suggestedTags :=
    pushIf (includes lowerPrompt (js "performance") || includes lowerPrompt (js "otimiz")
            || includes lowerPrompt (js "speed"))
           (js "performance") suggestedTags in
  let suggestedTags :=
    pushIf (includes lowerPrompt (js "script") || includes lowerPrompt (js "automat"))
           (js "automação") suggestedTags in
  let suggestedTags :=
    pushIf (includes lowerPrompt (js "csv") || includes lowerPrompt (js "postgres")
            || includes lowerPrompt (js "database"))
           (js "dados") suggestedTags in
  let suggestedTags :=
    pushIf (includes lowerPrompt (js "desenvolv") || includes lowerPrompt (js "criar")
            || includes lowerPrompt (js "implement"))
           (js "desenvolvimento") suggestedTags in
  Set_from suggestedTags.

Definition genericRisk : jsstring := js "Verificar implementação cuidadosamente".

Definition identifyRisks (prompt : jsstring) : list jsstring :=
  let lowerPrompt := toLowerCase prompt in
  let risks : list jsstring := [] in
  let risks :=
    pushIf (includes lowerPrompt (js "password") || includes lowerPrompt (js "secret")
            || includes lowerPrompt (js "token") || includes lowerPrompt (js "auth")
            || includes lowerPrompt (js "login") || includes lowerPrompt (js "senha"))
           (js "Dados sensíveis podem estar expostos") risks in
  let risks :=
    pushIf (includes lowerPrompt (js "loop") || includes lowerPrompt (js "recursão")
            || includes lowerPrompt (js "grande volume") || includes lowerPrompt (js "many")
            || includes lowerPrompt (js "milhões") || includes lowerPrompt (js "lote"))
           (js "Possível impacto na performance com grandes volumes") risks in
  let risks :=
    pushIf (includes lowerPrompt (js "database") || includes lowerPrompt (js "sql")
            || includes lowerPrompt (js "dados") || includes lowerPrompt (js "csv")
            || includes lowerPrompt (js "postgres") || includes lowerPrompt (js "validação"))
           (js "Validação de dados de entrada necessária") risks in
  let risks :=
    pushIf (includes lowerPrompt (js "api") || includes lowerPrompt (js "external")
            || includes lowerPrompt (js "terceiro") || includes lowerPrompt (js "http")
            || includes lowerPrompt (js "rest") || includes lowerPrompt (js "endpoint"))
           (js "Dependência de serviços externos pode falhar") risks in
  let risks :=
    pushIf (includes lowerPrompt (js "arquivo") || includes lowerPrompt (js "file")
            || includes lowerPrompt (js "salvar") || includes lowerPrompt (js "gravar"))
           (js "Verificar permissões de acesso a arquivos") risks in
  let risks :=
    pushIf (includes lowerPrompt (js "backup") || includes lowerPrompt (js "recovery")
            || includes lowerPrompt (js "restore") || includes lowerPrompt (js "recuper"))
           (js "Implementar estratégia de recuperação em caso de falha") risks in
  if (0 <? length risks)%nat then risks else [genericRisk].

Definition templateManager : TemplateManager :=
  Build_TemplateManager (Templates.getSystemPrompt rules)
    (Templates.detectTemplate toLowerCase) (Templates.getTemplateMetadata rules)
    suggestTags identifyRisks (Templates.formatSystemPrompt rules).

End Methods.
End TemplatesV2.

(** ** JSON values and [JSON.parse] *)

#[local] Set Warnings "-register-all".

Inductive json :=
| JNull
| JBool (b : bool)
| JNumber (lexeme : jsstring)
| JString (s : jsstring)
| JArray (items : list json)
| JObject (members : list (jsstring * json)).

Module JSON.

Definition isSpace (c : N) : bool :=
  (c =? 32) || (c =? 9) || (c =? 10) || (c =? 13).

Fixpoint skipSpace (s : jsstring) : jsstring :=
  match s with
  | [] => []
  | c :: s' => if isSpace c then skipSpace s' else s
  end.

Definition isDigit (c : N) : bool := (48 <=? c) && (c <=? 57).

Definition hexDigit (c : N) : option N :=
  if isDigit c then Some (c - 48)
  else if (97 <=? c) && (c <=? 102) then Some (c - 87)
  else if (65 <=? c) && (c <=? 70) then Some (c - 55)
  else None.

(** The character an escape [\c] stands for, [\u] apart. *)
Definition escape (c : N) : option N :=
  if (c =? 34) || (c =? 92) || (c =? 47) then Some c
  else if c =? 98 then Some 8
  else if c =? 102 then Some 12
  else if c =? 110 then Some 10
  else if c =? 114 then Some 13
  else if c =? 116 then Some 9
  else None.

(** The characters of a string after its opening quote, and what follows the
    closing quote. *)
Fixpoint parseChars (s : jsstring) : option (jsstring * jsstring) :=
  match s with
  | [] => None
  | c :: s1 =>
    if c =? 34 then Some ([], s1)
    else if c =? 92 then
      match s1 with
      | [] => None
      | e :: s2 =>
        if e =? 117 then
          match s2 with
          | h1 :: h2 :: h3 :: h4 :: s3 =>
            match hexDigit h1, hexDigit h2, hexDigit h3, hexDigit h4 with
            | Some d1, Some d2, Some d3, Some d4 =>
              match parseChars s3 with
              | Some (cs, rest) =>
                Some ((d1 * 4096 + d2 * 256 + d3 * 16 + d4) :: cs, rest)
              | None => None
              end
            | _, _, _, _ => None
            end
          | _ => None
          end
        else
          match escape e with
          | Some x =>
            match parseChars s2 with
            | Some (cs, rest) => Some (x :: cs, rest)
            | None => None
            end
          | None => None
          end
      end
    else if c <? 32 then None
    else
      match parseChars s1 with
      | Some (cs, rest) => Some (c :: cs, rest)
      | None => None
      end
  end.

Fixpoint digits (s : jsstring) : jsstring * jsstring :=
  match s with
  | [] => ([], [])
  | c :: s' =>
    if isDigit c then let '(ds, rest) := digits s' in (c :: ds, rest)
    else ([], s)
  end.

(** At least one digit. *)
Definition digits1 (s : jsstring) : option (jsstring * jsstring) :=
  match digits s with
  | ([], _) => None
  | (ds, rest) => Some (ds, rest)
  end.

(** A number: an optional minus sign, an integer part without leading
    zeros, an optional fraction, an optional exponent.  The lexeme is kept;
    no schema of the pipeline accepts a number. *)
Definition parseNumber (s : jsstring) : option (jsstring * jsstring) :=
  let '(sign, s1) :=
    match s with
    | c :: r => if c =? 45 then ([c], r) else ([], s)
    | [] => ([], s)
    end in
  match s1 with
  | [] => None
  | d :: r =>
    let int :=
      if d =? 48 then Some ([d], r)
      else if isDigit d then let '(ds, r') := digits r in Some (d :: ds, r')
      else None in
    match int with
    | None => None
    | Some (ip, s2) =>
      let frac :=
        match s2 with
        | c :: r2 =>
          if c =? 46 then
            match digits1 r2 with
            | Some (fs, r3) => Some (c :: fs, r3)
            | None => None
            end
          else Some ([], s2)
        | [] => Some ([], s2)
        end in
      match frac with
      | None => None
      | Some (fp, s3) =>
        let exp :=
          match s3 with
          | c :: r3 =>
            if (c =? 101) || (c =? 69) then
              let '(sg, r4) :=
                match r3 with
                | g :: r4 => if (g =? 43) || (g =? 45) then ([g], r4) else ([], r3)
                | [] => ([], r3)
                end in
              match digits1 r4 with
              | Some (es, r5) => Some (c :: sg ++ es, r5)
              | None => None
              end
            else Some ([], s3)
          | [] => Some ([], s3)
          end in
        match exp with
        | None => None
        | Some (ep, s4) => Some (sign ++ ip ++ fp ++ ep, s4)
        end
      end
    end
  end.

(** Recursive descent; every call spends one unit of [fuel]. *)
Fixpoint parseValue (fuel : nat) (s : jsstring) : option (json * jsstring) :=
  match fuel with
  | O => None
  | S fuel =>
    match skipSpace s with
    | [] => None
    | c :: r =>
      if c =? 123 then
        match skipSpace r with
        | [] => None
        | c' :: r' =>
          if c' =? 125 then Some (JObject [], r')
          else
            match parseMembers fuel r with
            | Some (ms, rest) => Some (JObject ms, rest)
            | None => None
            end
        end
      else if c =? 91 then
        match skipSpace r with
        | [] => None
        | c' :: r' =>
          if c' =? 93 then Some (JArray [], r')
          else
            match parseElements fuel r with
            | Some (vs, rest) => Some (JArray vs, rest)
            | None => None
            end
        end
      else if c =? 34 then
        match parseChars r with
        | Some (cs, rest) => Some (JString cs, rest)
        | None => None
        end
      else if startsWith (c :: r) (js "true") then Some (JBool true, skipn 4 (c :: r))
      else if startsWith (c :: r) (js "false") then Some (JBool false, skipn 5 (c :: r))
      else if startsWith (c :: r) (js "null") then Some (JNull, skipn 4 (c :: r))
      else
        match parseNumber (c :: r) with
        | Some (lexeme, rest) => Some (JNumber lexeme, rest)
        | None => None
        end
    end
  end

with parseElements (fuel : nat) (s : jsstring) : option (list json * jsstring) :=
  match fuel with
  | O => None
  | S fuel =>
    match parseValue fuel s with
    | None => None
    | Some (v, r) =>
      match skipSpace r with
      | [] => None
      | c :: r' =>
        if c =? 93 then Some ([v], r')
        else if c =? 44 then
          match parseElements fuel r' with
          | Some (vs, rest) => Some (v :: vs, rest)
          | None => None
          end
        else None
      end
    end
  end

with parseMembers (fuel : nat) (s : jsstring)
  : option (list (jsstring * json) * jsstring) :=
  match fuel with
  | O => None
  | S fuel =>
    match skipSpace s with
    | [] => None
    | q :: r0 =>
      if q =? 34 then
        match parseChars r0 with
        | None => None
        | Some (key, r1) =>
          match skipSpace r1 with
          | [] => None
          | colon :: r2 =>
            if colon =? 58 then
              match parseValue fuel r2 with
              | None => None
              | Some (v, r3) =>
                match skipSpace r3 with
                | [] => None
                | c :: r4 =>
                  if c =? 125 then Some ([(key, v)], r4)
                  else if c =? 44 then
                    match parseMembers fuel r4 with
                    | Some (ms, rest) => Some ((key, v) :: ms, rest)
                    | None => None
                    end
                  else None
                end
              end
            else None
          end
        end
      else None
    end
  end.

(** [JSON.parse(text)]: [None] stands for the [SyntaxError] it throws.  A
    call spends at most two units of fuel for each character it reads. *)
Definition parse (text : jsstring) : option json :=
  match parseValue (2 * length text + 2) text with
  | Some (v, rest) =>
    match skipSpace rest with
    | [] => Some v
    | _ :: _ => None
    end
  | None => None
  end.

(** [obj[key]] on a parsed object: of two members with one key the later
    one is the property. *)
Fixpoint getProperty (members : list (jsstring * json)) (key : jsstring)
  : option json :=
  match members with
  | [] => None
  | (k, v) :: ms =>
    match getProperty ms key with
    | Some v' => Some v'
    | None => if eqb key k then Some v else None
    end
  end.

End JSON.

(** ** The zod schemas the pipeline uses

    [z.string()], [z.array(item)] and [z.object(shape)] in zod's default
    mode: [parse] rebuilds the value from the keys of the shape, in the order
    of the shape, and leaves unknown keys out; [None] stands for the
    [ZodError] it throws. *)

Module Zod.

Inductive schema :=
| z_string
| z_array (item : schema)
| z_object (shape : list (jsstring * schema)).

Fixpoint parse (sc : schema) (data : json) {struct sc} : option json :=
  match sc with
  | z_string =>
    match data with
    | JString s => Some (JString s)
    | _ => None
    end
  | z_array item =>
    match data with
    | JArray items =>
      option_map JArray
        ((fix each (l : list json) : option (list json) :=
            match l with
            | [] => Some []
            | x :: l' =>
              match parse item x, each l' with
              | Some y, Some ys => Some (y :: ys)
              | _, _ => None
              end
            end) items)
    | _ => None
    end
  | z_object shape =>
    match data with
    | JObject members =>
      option_map JObject
        ((fix props (sh : list (jsstring * schema)) : option (list (jsstring * json)) :=
            match sh with
            | [] => Some []
            | (key, s) :: sh' =>
              match JSON.getProperty members key with
              | None => None
              | Some v =>
                match parse s v, props sh' with
                | Some y, Some ys => Some ((key, y) :: ys)
                | _, _ => None
                end
              end
            end) shape)
    | _ => None
    end
  end.

End Zod.

(** ** The Codex CLI integration ([codex.ts]) *)

Definition CodexOutputSchema : Zod.schema :=
  Zod.z_object
    [(js "improvedPrompt", Zod.z_string);
     (js "rationale", Zod.z_string);
     (js "risks", Zod.z_array Zod.z_string);
     (js "tags", Zod.z_array Zod.z_string);
     (js "metadata",
      Zod.z_object
        [(js "sections", Zod.z_array Zod.z_string);
         (js "acceptanceCriteria", Zod.z_array Zod.z_string);
         (js "checklist", Zod.z_array Zod.z_string)])].

Module CodexRequest.
Record t := {
  prompt : jsstring;
  context : option jsstring;
  tags : option (list jsstring);
  model : option jsstring
}.
End CodexRequest.

Record CodexCLIError := {
  message : jsstring;
  code : option Z
}.

(** *** [executeCodexCommand]: the child process and its callbacks

    The promise the function returns is settled by the callbacks it
    registers; the environment decides which of them run and in which
    order.  An [Event] is one event of the host: a chunk on a stream, the
    [close] or [error] event of the process, the expiry of the 30 second
    timer, or the [error] event of the input stream of the child, which is
    emitted when the write of the prompt fails (EPIPE, when the child has
    exited without reading its input).  The function registers no listener
    for that last event, so it is thrown as an uncaught exception and ends
    the node process: no callback runs after it. *)

Inductive Signal := SIGTERM.

Inductive Promise (A E : Type) :=
| Pending
| Resolved (value : A)
| Rejected (error : E).

Arguments Pending {A E}.
Arguments Resolved {A E} value.
Arguments Rejected {A E} error.

Inductive Timer := Armed | Cleared | Fired.

Inductive Event :=
| StdoutData (data : jsstring)
| StderrData (data : jsstring)
| Close (exitCode : option Z)
| ProcessError (errorMessage : jsstring)
| TimeoutElapsed
| StdinError (errorMessage : jsstring).

Record Invocation := {
  spawnCommand : jsstring;
  spawnArgs : list jsstring;
  stdinWritten : jsstring;
  stdout : jsstring;
  stderr : jsstring;
  promise : Promise jsstring CodexCLIError;
  timeout : Timer;
  killSignals : list Signal;
  (* the message of the exception that ended the node process, if any *)
  uncaughtException : option jsstring
}.

(** A promise is settled once: later calls of [resolve] and [reject] do
    nothing. *)
Definition resolve {A E : Type} (value : A) (p : Promise A E) : Promise A E :=
  match p with
  | Pending => Resolved value
  | _ => p
  end.

Definition reject {A E : Type} (error : E) (p : Promise A E) : Promise A E :=
  match p with
  | Pending => Rejected error
  | _ => p
  end.

Definition clearTimeout (t : Timer) : Timer :=
  match t with
  | Armed => Cleared
  | _ => t
  end.

(** [`${code}`] for the [number | null] of the [close] event. *)
Definition showCode (exitCode : option Z) : jsstring :=
  match exitCode with
  | Some n => ofZ n
  | None => js "null"
  end.

Definition exitError (exitCode : option Z) (stderrText : jsstring) : CodexCLIError :=
  {| message := js "Codex CLI failed with exit code " ++ showCode exitCode
                ++ js ": " ++ stderrText;
     code := match exitCode with
             | Some 0%Z => None
             | c => c
             end |}.

Definition spawnError (errorMessage : jsstring) : CodexCLIError :=
  {| message := js "Failed to spawn Codex CLI: " ++ errorMessage; code := None |}.

Definition timeoutError : CodexCLIError :=
  {| message := js "Codex CLI operation timed out"; code := None |}.

Definition with_promise (st : Invocation) (p : Promise jsstring CodexCLIError)
  : Invocation :=
  {| spawnCommand := spawnCommand st; spawnArgs := spawnArgs st;
     stdinWritten := stdinWritten st; stdout := stdout st; stderr := stderr st;
     promise := p; timeout := timeout st; killSignals := killSignals st;
     uncaughtException := uncaughtException st |}.

Definition with_timeout (st : Invocation) (t : Timer) : Invocation :=
  {| spawnCommand := spawnCommand st; spawnArgs := spawnArgs st;
     stdinWritten := stdinWritten st; stdout := stdout st; stderr := stderr st;
     promise := promise st; timeout := t; killSignals := killSignals st;
     uncaughtException := uncaughtException st |}.

(** The state when the executor of the promise returns: the process is
    spawned, the input is written and the timer is set. *)
Definition spawned (model systemPrompt userPrompt : jsstring) : Invocation :=
  {| spawnCommand := js "codex";
     spawnArgs := [js "chat"; js "-m"; model];
     stdinWritten := systemPrompt ++ js "

User: " ++ userPrompt;
     stdout := []; stderr := [];
     promise := Pending; timeout := Armed; killSignals := [];
     uncaughtException := None |}.

(** One event of the host.  After an uncaught exception the node process is
    gone and nothing runs. *)
Definition handle (st : Invocation) (ev : Event) : Invocation :=
  match uncaughtException st with
  | Some _ => st
  | None =>
    match ev with
    | StdoutData data =>
      {| spawnCommand := spawnCommand st; spawnArgs := spawnArgs st;
         stdinWritten := stdinWritten st; stdout := stdout st ++ data;
         stderr := stderr st; promise := promise st; timeout := timeout st;
         killSignals := killSignals st;
         uncaughtException := uncaughtException st |}
    | StderrData data =>
      {| spawnCommand := spawnCommand st; spawnArgs := spawnArgs st;
         stdinWritten := stdinWritten st; stdout := stdout st;
         stderr := stderr st ++ data; promise := promise st; timeout := timeout st;
         killSignals := killSignals st;
         uncaughtException := uncaughtException st |}
    | Close exitCode =>
      (* the first [close] listener settles the promise, the second clears
         the timer *)
      let st :=
        match exitCode with
        | Some 0%Z => with_promise st (resolve (trim (stdout st)) (promise st))
        | _ => with_promise st (reject (exitError exitCode (stderr st)) (promise st))
        end in
      with_timeout st (clearTimeout (timeout st))
    | ProcessError errorMessage =>
      with_promise st (reject (spawnError errorMessage) (promise st))
    | TimeoutElapsed =>
      (* the callback of [setTimeout] runs only while the timer is set *)
      match timeout st with
      | Armed =>
        {| spawnCommand := spawnCommand st; spawnArgs := spawnArgs st;
           stdinWritten := stdinWritten st; stdout := stdout st; stderr := stderr st;
           promise := reject timeoutError (promise st);
           timeout := Fired;
           killSignals := killSignals st ++ [SIGTERM];
           uncaughtException := uncaughtException st |}
      | _ => st
      end
    | StdinError errorMessage =>
      (* [codexProcess.stdin] has no [error] listener *)
      {| spawnCommand := spawnCommand st; spawnArgs := spawnArgs st;
         stdinWritten := stdinWritten st; stdout := stdout st; stderr := stderr st;
         promise := promise st; timeout := timeout st;
         killSignals := killSignals st;
         uncaughtException := Some errorMessage |}
    end
  end.

Definition runEvents (st : Invocation) (events : list Event) : Invocation :=
  fold_left handle events st.

Definition executeCodexCommand (model systemPrompt userPrompt : jsstring)
  (events : list Event) : Invocation :=
  runEvents (spawned model systemPrompt userPrompt) events.

(** *** Reconciliation and enrichment *)

(** [output.match(/\{[\s\S]*\}/)]: from the first opening brace to the last
    closing brace after it. *)
Fixpoint throughLast (c : N) (s : jsstring) : option jsstring :=
  match s with
  | [] => None
  | x :: s' =>
    match throughLast c s' with
    | Some body => Some (x :: body)
    | None => if x =? c then Some [x] else None
    end
  end.

Fixpoint jsonMatch (output : jsstring) : option jsstring :=
  match output with
  | [] => None
  | c :: rest =>
    if c =? 123 then
      match throughLast 125 rest with
      | Some body => Some (c :: body)
      | None => None
      end
    else jsonMatch rest
  end.

Definition getString (v : json) (key : jsstring) : option jsstring :=
  match v with
  | JObject members =>
    match JSON.getProperty members key with
    | Some (JString s) => Some s
    | _ => None
    end
  | _ => None
  end.

Fixpoint strings (items : list json) : option (list jsstring) :=
  match items with
  | [] => Some []
  | JString s :: items' =>
    match strings items' with
    | Some l => Some (s :: l)
    | None => None
    end
  | _ :: _ => None
  end.

Definition getStrings (v : json) (key : jsstring) : option (list jsstring) :=
  match v with
  | JObject members =>
    match JSON.getProperty members key with
    | Some (JArray items) => strings items
    | _ => None
    end
  | _ => None
  end.

Definition getObject (v : json) (key : jsstring) : option json :=
  match v with
  | JObject members =>
    match JSON.getProperty members key with
    | Some (JObject ms) => Some (JObject ms)
    | _ => None
    end
  | _ => None
  end.

(** [validated as RefinedPromptOutput]: the validated value read as the
    record the rest of the pipeline works on. *)
Definition asRefinedPromptOutput (validated : json) : option RefinedPromptOutput :=
  match getString validated (js "improvedPrompt"),
        getString validated (js "rationale"),
        getStrings validated (js "risks"),
        getStrings validated (js "tags"),
        getObject validated (js "metadata") with
  | Some ip, Some ra, Some ri, Some ta, Some md =>
    match getStrings md (js "sections"),
          getStrings md (js "acceptanceCriteria"),
          getStrings md (js "checklist") with
    | Some se, Some ac, Some ch =>
      Some {| improvedPrompt := ip; rationale := ra; risks := ri; tags := ta;
              metadata := {| sections := se; acceptanceCriteria := ac;
                             checklist := ch |} |}
    | _, _, _ => None
    end
  | _, _, _, _, _ => None
  end.

(** The value [CodexOutputSchema.parse] returns inside [tryParseJSONOutput],
    [None] when one of the three steps fails. *)
Definition validatedOutput (output : jsstring) : option json :=
  match jsonMatch output with
  | None => None
  | Some matched =>
    match JSON.parse matched with
    | None => None
    | Some parsedOutput => Zod.parse CodexOutputSchema parsedOutput
    end
  end.

Definition tryParseJSONOutput (output : jsstring) : option RefinedPromptOutput :=
  match validatedOutput output with
  | None => None
  | Some validated => asRefinedPromptOutput validated
  end.

(** [a || b] on strings, [a] possibly [undefined]. *)
Definition orElse (a : option jsstring) (b : jsstring) : jsstring :=
  match a with
  | Some s => if truthy s then s else b
  | None => b
  end.

(** [line.length > originalPrompt.length * 0.8].  The product is a double;
    for lengths a string can have it is within half a unit in the last place
    of four fifths of the length and equal to it when that is an integer, so
    the comparison with the integer on the left is the exact one. *)
Definition substantial (originalPrompt line : jsstring) : bool :=
  (4 * length originalPrompt <? 5 * length line)%nat.

Definition fallbackRationale : jsstring :=
  js "Prompt refinado utilizando template padrão devido a limitações na saída do Codex CLI.".

Definition offlineRisk : jsstring :=
  js "Codex CLI indisponível - usando análise offline".

Section Codex.

(** The [templateManager] that [codex.ts] imports. *)
Variable templateManager : TemplateManager.

Definition buildPromptForCodex (prompt : jsstring) (context : option jsstring)
  (tags : option (list jsstring)) : jsstring :=
  let fullPrompt := jsq "PROMPT TO REFINE:
'" ++ prompt ++ jsq "'

" in
  let fullPrompt :=
    match context with
    | Some c =>
      if truthy c then fullPrompt ++ js "ADDITIONAL CONTEXT:
" ++ c ++ js "

" else fullPrompt
    | None => fullPrompt
    end in
  let fullPrompt :=
    match tags with
    | Some (t :: ts) =>
      fullPrompt ++ js "SUGGESTED TAGS: "
      ++ fold_left (fun acc x => acc ++ js ", " ++ x) ts t ++ js "

"
    | _ => fullPrompt
    end in
  fullPrompt ++ jsq "Please refine this prompt and respond with ONLY a valid JSON object matching this exact structure:
{
  'improvedPrompt': 'Your refined version of the prompt',
  'rationale': 'Explanation of changes made and reasoning',
  'risks': ['Array of potential risks or issues'],
  'tags': ['Array of relevant tags'],
  'metadata': {
    'sections': ['Plan', 'Risks', 'Next actions', 'Tests'],
    'acceptanceCriteria': ['Specific measurable outcomes'],
    'checklist': ['Actionable verification steps']
  }
}".

Definition createFallbackOutput (originalPrompt codexOutput : jsstring)
  (_context : option jsstring) (tags : option (list jsstring))
  : RefinedPromptOutput :=
  let template := detectTemplate templateManager originalPrompt in
  let suggestedTags := suggestTags templateManager originalPrompt in
  let identifiedRisks := identifyRisks templateManager originalPrompt in
  let lines := List.filter (fun line => truthy (trim line)) (split 10 codexOutput) in
  let improvedPrompt :=
    if (0 <? length lines)%nat
    then orElse (List.find (substantial originalPrompt) lines)
                (orElse (head lines) originalPrompt)
    else originalPrompt in
  {| improvedPrompt := improvedPrompt;
     rationale := fallbackRationale;
     risks := if (0 <? length identifiedRisks)%nat then identifiedRisks
              else [js "Verificar implementação cuidadosamente"];
     tags := take 8 (suggestedTags ++ default [] tags);
     metadata := getTemplateMetadata templateManager template |}.

Definition createErrorFallbackOutput (originalPrompt : jsstring)
  (error : CodexCLIError) (_context : option jsstring)
  (tags : option (list jsstring)) : RefinedPromptOutput :=
  let template := detectTemplate templateManager originalPrompt in
  let suggestedTags := suggestTags templateManager originalPrompt in
  let identifiedRisks := identifyRisks templateManager originalPrompt in
  {| improvedPrompt :=
       originalPrompt ++ js "

[NOTA: Prompt processado em modo offline devido a erro no Codex CLI]";
     rationale :=
       js "Não foi possível conectar com o Codex CLI (" ++ message error
       ++ js "). Utilizando análise local baseada em templates.";
     risks := offlineRisk :: identifiedRisks;
     tags := take 8 (js "fallback" :: js "offline" :: suggestedTags ++ default [] tags);
     metadata := getTemplateMetadata templateManager template |}.

Definition enrichOutput (result : RefinedPromptOutput) (originalPrompt : jsstring)
  : RefinedPromptOutput :=
  let improvedPrompt' :=
    if negb (truthy (improvedPrompt result)) || eqb (trim (improvedPrompt result)) []
    then originalPrompt else improvedPrompt result in
  let rationale' :=
    if negb (truthy (rationale result)) || eqb (trim (rationale result)) []
    then js "Prompt processado com refinamento automático." else rationale result in
  let risks' :=
    if (length (risks result) =? 0)%nat
    then [js "Validar implementação cuidadosamente"] else risks result in
  let tags' :=
    if (length (tags result) =? 0)%nat
    then suggestTags templateManager originalPrompt else tags result in
  let sections' :=
    if (length (sections (metadata result)) =? 0)%nat
    then [js "Plan"; js "Risks"; js "Next actions"; js "Tests"]
    else sections (metadata result) in
  let acceptanceCriteria' :=
    if (length (acceptanceCriteria (metadata result)) =? 0)%nat
    then [js "Solução implementada corretamente"; js "Testes executados com sucesso";
          js "Documentação atualizada"]
    else acceptanceCriteria (metadata result) in
  let checklist' :=
    if (length (checklist (metadata result)) =? 0)%nat
    then [js "Revisar requisitos"; js "Implementar solução"; js "Executar testes";
          js "Validar resultado"]
    else checklist (metadata result) in
  {| improvedPrompt := improvedPrompt'; rationale := rationale';
     risks := risks'; tags := tags';
     metadata := {| sections := sections';
                    acceptanceCriteria := acceptanceCriteria';
                    checklist := checklist' |} |}.

(** The part of [runCodexCLI] after the [await], on the settled promise. *)
Definition afterCodex (request : CodexRequest.t)
  (settled : Promise jsstring CodexCLIError) : option RefinedPromptOutput :=
  let prompt := CodexRequest.prompt request in
  let context := CodexRequest.context request in
  let tags := CodexRequest.tags request in
  match settled with
  | Pending => None
  | Resolved codexOutput =>
    let result :=
      match tryParseJSONOutput codexOutput with
      | Some r => r
      | None => createFallbackOutput prompt codexOutput context tags
      end in
    Some (enrichOutput result prompt)
  | Rejected error =>
    Some (createErrorFallbackOutput prompt error context tags)
  end.

(** The invocation [runCodexCLI] awaits, when the host delivers [events] to
    the callbacks of the child process. *)
Definition awaited (request : CodexRequest.t) (events : list Event) : Invocation :=
  let model := default (js "gpt-5") (CodexRequest.model request) in
  let systemPrompt := formatSystemPrompt templateManager (CodexRequest.context request) in
  let fullPrompt :=
    buildPromptForCodex (CodexRequest.prompt request)
      (CodexRequest.context request) (CodexRequest.tags request) in
  executeCodexCommand model systemPrompt fullPrompt events.

(** [runCodexCLI(request)]; [None] while the promise is pending: the call
    has not returned, and it never returns when the node process has ended
    before. *)
Definition runCodexCLI (request : CodexRequest.t) (events : list Event)
  : option RefinedPromptOutput :=
  afterCodex request (promise (awaited request events)).

End Codex.

(** [testCodexAvailability()]: whether the probe invocation resolves;
    [None] while its promise is pending. *)
Definition testCodexAvailability (events : list Event) : option bool :=
  match promise (executeCodexCommand (js "gpt-5") (js "Test system availability.")
                   (js "Hello") events) with
  | Pending => None
  | Resolved _ => Some true
  | Rejected _ => Some false
  end.

(** ** The other orchestrator ([ai-providers.ts] and its tool in [server.ts])

    [refineWithAI] calls [getAIMasterPrompt], spawns the command of the
    selected provider and settles its promise in the [close] and [error]
    callbacks.  It sets no timer, and a failure rejects the promise: there is
    no fallback result. *)

Module AiProviders.

Definition RefinedPromptSchema : Zod.schema :=
  Zod.z_object
    [(js "improvedPrompt", Zod.z_string);
     (js "rationale", Zod.z_string);
     (js "risks", Zod.z_array Zod.z_string);
     (js "tags", Zod.z_array Zod.z_string);
     (js "metadata",
      Zod.z_object
        [(js "sections", Zod.z_array Zod.z_string);
         (js "acceptanceCriteria", Zod.z_array Zod.z_string);
         (js "checklist", Zod.z_array Zod.z_string)])].

Inductive AIProvider := codex | gemini.

Definition mockResponse : RefinedPromptOutput := {|
  improvedPrompt :=
    js "Create a robust Node.js script that reads data from a CSV file named 'input.csv'. The script must validate each row against a predefined schema (e.g., 'id' is a number, 'email' is a valid email format). Valid rows should be inserted into a PostgreSQL table named 'customers'. Invalid rows should be logged to a file named 'error.log' with clear error messages. The database connection details should be configurable via environment variables (PG_HOST, PG_USER, PG_PASSWORD, PG_DATABASE).";
  rationale :=
    js "The original prompt was vague. This version specifies file names, validation rules, error handling, and configuration methods, making it an actionable and complete task for an AI or developer.";
  risks :=
    [js "The CSV file might be very large, potentially causing memory issues. Consider stream processing.";
     js "Database credentials will be used; ensure they are handled securely and not hard-coded.";
     js "The script assumes the PostgreSQL table `customers` already exists with the correct schema."];
  tags := [js "nodejs"; js "csv"; js "postgres"; js "validation"; js "etl"];
  metadata := {|
    sections :=
      [js "CSV Parsing"; js "Data Validation"; js "Database Insertion";
       js "Error Logging"; js "Configuration"];
    acceptanceCriteria :=
      [js "The script runs without errors given a valid `input.csv` and database connection.";
       js "All valid rows from `input.csv` are present in the `customers` table.";
       js "All invalid rows are logged with specific reasons in `error.log`.";
       js "No database credentials are visible in the source code."];
    checklist :=
      [js "1. Implement a function to read and parse `input.csv` row by row.";
       js "2. Define a validation schema for the CSV data.";
       js "3. Create a function to validate a single row against the schema.";
       js "4. Set up a connection to the PostgreSQL database using environment variables.";
       js "5. Write a function to insert a valid data row into the `customers` table.";
       js "6. Implement a logging mechanism to write errors to `error.log`.";
       js "7. Combine all parts in a main function that orchestrates the ETL process."]
  |}
|}.

(** The errors of [refineWithAI] and of the tool.  The text of the second
    and third quotes the report of zod and the message of the engine's
    [SyntaxError]; it is left out.  [NotAFunction] is the [TypeError] of a
    call of [getAIMasterPrompt] when the templates module exports no such
    function; [FailedToRefine cause] is the error of [execute], whose message
    is "Failed to refine prompt: " followed by the message of [cause]. *)
Inductive AIError :=
| ExitedWithCode (message : jsstring)
| FailedValidation (command : jsstring)
| FailedToParse (command rawOutput : jsstring)
| FailedToStart (message : jsstring)
| NotAFunction
| FailedToRefine (cause : AIError).

Record Child := {
  command : jsstring;
  args : list jsstring;
  stdinWritten : jsstring;
  stdout : jsstring;
  stderr : jsstring;
  promise : Promise RefinedPromptOutput AIError;
  (* the message of the exception that ended the node process, if any *)
  uncaughtException : option jsstring
}.

(** The text of a fenced block up to the first closing fence, a line break
    and three backquotes. *)
Fixpoint untilClosingFence (s : jsstring) : option jsstring :=
  if startsWith s (js "
```") then Some []
  else
    match s with
    | [] => None
    | c :: s' =>
      match untilClosingFence s' with
      | Some body => Some (c :: body)
      | None => None
      end
    end.

(** The two groups of the regular expression of [refineWithAI], a fenced
    [json] block or the text from a brace to the last closing brace, at the
    leftmost position where one of them matches: [inl] is group 1, [inr]
    group 2. *)
Fixpoint jsonMatch (s : jsstring) : option (jsstring + jsstring) :=
  match s with
  | [] => None
  | c :: rest =>
    let here :=
      if startsWith s (js "```json
")
      then option_map inl (untilClosingFence (skipn 8 s))
      else if c =? 123
      then option_map (fun body => inr (c :: body)) (throughLast 125 rest)
      else None in
    match here with
    | Some groups => Some groups
    | None => jsonMatch rest
    end
  end.

(** The body of the [close] callback when the exit code is 0. *)
Definition parseOutput (command stdout : jsstring)
  : RefinedPromptOutput + AIError :=
  match jsonMatch stdout with
  | None => inr (FailedToParse command stdout)
  | Some groups =>
    (* [jsonMatch[1] || jsonMatch[2]]: after an empty fenced block the
       second group is [undefined], which [JSON.parse] refuses *)
    let jsonString :=
      match groups with
      | inl fenced => if truthy fenced then Some fenced else None
      | inr braces => Some braces
      end in
    match jsonString with
    | None => inr (FailedToParse command stdout)
    | Some text =>
      match JSON.parse text with
      | None => inr (FailedToParse command stdout)
      | Some parsedJson =>
        match Zod.parse RefinedPromptSchema parsedJson with
        | None => inr (FailedValidation command)
        | Some data =>
          match asRefinedPromptOutput data with
          | Some r => inl r
          | None => inr (FailedValidation command)
          end
        end
      end
    end
  end.

Definition with_promise (st : Child) (p : Promise RefinedPromptOutput AIError)
  : Child :=
  {| command := command st; args := args st; stdinWritten := stdinWritten st;
     stdout := stdout st; stderr := stderr st; promise := p;
     uncaughtException := uncaughtException st |}.

(** One event of the host.  No timer is set, so the passing of time runs no
    callback; [child.stdin] has no [error] listener either. *)
Definition handle (st : Child) (ev : Event) : Child :=
  match uncaughtException st with
  | Some _ => st
  | None =>
    match ev with
    | StdoutData data =>
      {| command := command st; args := args st; stdinWritten := stdinWritten st;
         stdout := stdout st ++ data; stderr := stderr st; promise := promise st;
         uncaughtException := uncaughtException st |}
    | StderrData data =>
      {| command := command st; args := args st; stdinWritten := stdinWritten st;
         stdout := stdout st; stderr := stderr st ++ data; promise := promise st;
         uncaughtException := uncaughtException st |}
    | Close exitCode =>
      match exitCode with
      | Some 0%Z =>
        match parseOutput (command st) (stdout st) with
        | inl data => with_promise st (resolve data (promise st))
        | inr error => with_promise st (reject error (promise st))
        end
      | _ =>
        with_promise st
          (reject (ExitedWithCode
                     (command st ++ js " CLI exited with code " ++ showCode exitCode
                      ++ js ": " ++ stderr st))
                  (promise st))
      end
    | ProcessError errorMessage =>
      with_promise st
        (reject (FailedToStart
                   (js "Failed to start " ++ command st
                    ++ js " CLI. Is it installed and in your PATH? Error: "
                    ++ errorMessage))
                (promise st))
    | TimeoutElapsed => st
    | StdinError errorMessage =>
      {| command := command st; args := args st; stdinWritten := stdinWritten st;
         stdout := stdout st; stderr := stderr st; promise := promise st;
         uncaughtException := Some errorMessage |}
    end
  end.

(** [a || b] for an optional string and a default. *)
Definition orDefault (a : option jsstring) (b : jsstring) : jsstring :=
  match a with
  | Some s => if truthy s then s else b
  | None => b
  end.

(** The state when the executor of the promise returns: the command of the
    provider is spawned and the master prompt is written to its input. *)
Definition spawned (provider : AIProvider) (model : option jsstring)
  (masterPrompt : jsstring) : Child :=
  match provider with
  | gemini =>
    {| command := js "gemini";
       args := [js "chat"; js "-m"; orDefault model (js "gemini-pro");
                js "--format"; js "json"];
       stdinWritten := masterPrompt; stdout := []; stderr := [];
       promise := Pending; uncaughtException := None |}
  | codex =>
    {| command := js "codex";
       args := [js "chat"; js "-m"; orDefault model (js "gpt-5");
                js "--format"; js "json"];
       stdinWritten := masterPrompt; stdout := []; stderr := [];
       promise := Pending; uncaughtException := None |}
  end.

Section RefineWithAI.

(** [process.env.USE_MOCK_AI === 'true'] *)
Variable useMockAI : bool.

(** What the templates module exports under the name [getAIMasterPrompt]:
    [None] when it exports nothing under that name, and the call throws a
    [TypeError].  Neither copy of [templates.ts] has such an export
    ([importedGetAIMasterPrompt] below). *)
Variable getAIMasterPrompt : option (jsstring -> option jsstring -> jsstring).

Definition refineWithAI (provider : AIProvider) (model : option jsstring)
  (rawPrompt : jsstring) (context : option jsstring) (events : list Event)
  : Promise RefinedPromptOutput AIError :=
  if useMockAI then Resolved mockResponse
  else
    match getAIMasterPrompt with
    | None => Rejected NotAFunction
    | Some masterPromptOf =>
      let masterPrompt := masterPromptOf rawPrompt context in
      promise (fold_left handle events (spawned provider model masterPrompt))
    end.

(** [RefinePromptTool.execute]: the result of [refineWithAI], or a new error
    whose message is that of its error under the prefix "Failed to refine
    prompt: ". *)
Definition execute (provider : AIProvider) (model : option jsstring)
  (prompt : jsstring) (context : option jsstring) (events : list Event)
  : Promise RefinedPromptOutput AIError :=
  match refineWithAI provider model prompt context events with
  | Rejected error => Rejected (FailedToRefine error)
  | settled => settled
  end.

End RefineWithAI.

(** [getAIMasterPrompt] as this repository imports it: [templates.ts]
    exports [templateManager] and its types, in both copies, and nothing
    else. *)
Definition importedGetAIMasterPrompt : option (jsstring -> option jsstring -> jsstring) :=
  None.

End AiProviders.

(** ** [JSON.stringify(value, null, 2)]

    The text [server.ts] answers with.  A member list is printed in its own
    order, which is the order of the properties of the object when the keys
    are distinct and none is an array index, as in every object built here.
    How a number is printed is left to [Number_toString]. *)

Module Stringify.

Definition hexChar (d : N) : N := if d <? 10 then 48 + d else 87 + d.

(** [\uXXXX] with lower-case digits. *)
Definition unicodeEscape (c : N) : jsstring :=
  [92; 117; hexChar (c / 4096 mod 16); hexChar (c / 256 mod 16);
   hexChar (c / 16 mod 16); hexChar (c mod 16)].

Definition isHighSurrogate (c : N) : bool := (55296 <=? c) && (c <=? 56319).
Definition isLowSurrogate (c : N) : bool := (56320 <=? c) && (c <=? 57343).

(** One code unit that is not the first half of a pair. *)
Definition escapeUnit (c : N) : jsstring :=
  if c =? 8 then [92; 98]
  else if c =? 9 then [92; 116]
  else if c =? 10 then [92; 110]
  else if c =? 12 then [92; 102]
  else if c =? 13 then [92; 114]
  else if c =? 34 then [92; 34]
  else if c =? 92 then [92; 92]
  else if (c <? 32) || isLowSurrogate c || isHighSurrogate c then unicodeEscape c
  else [c].

(** The characters of a quoted string: a surrogate pair is kept, a lone
    surrogate is escaped. *)
Fixpoint quoteBody (s : jsstring) : jsstring :=
  match s with
  | [] => []
  | c :: s' =>
    if isHighSurrogate c then
      match s' with
      | d :: s'' =>
        if isLowSurrogate d then c :: d :: quoteBody s''
        else escapeUnit c ++ quoteBody s'
      | [] => escapeUnit c
      end
    else escapeUnit c ++ quoteBody s'
  end.

Definition quote (s : jsstring) : jsstring := 34 :: quoteBody s ++ [34].

Definition spaces (n : nat) : jsstring := repeat 32 n.

(** [parts.join(sep)] *)
Fixpoint join (sep : jsstring) (parts : list jsstring) : jsstring :=
  match parts with
  | [] => []
  | x :: rest =>
    match rest with
    | [] => x
    | _ :: _ => x ++ sep ++ join sep rest
    end
  end.

Section Values.

(** [Number.prototype.toString] on the number a lexeme denotes. *)
Variable Number_toString : jsstring -> jsstring.

(** [SerializeJSONProperty] with a gap of two spaces, at an indentation of
    [indent] spaces. *)
Fixpoint stringify (indent : nat) (v : json) {struct v} : jsstring :=
  match v with
  | JNull => js "null"
  | JBool true => js "true"
  | JBool false => js "false"
  | JNumber lexeme => Number_toString lexeme
  | JString s => quote s
  | JArray [] => js "[]"
  | JArray items =>
    [91; 10] ++ spaces (indent + 2)
    ++ join ([44; 10] ++ spaces (indent + 2)) (map (stringify (indent + 2)) items)
    ++ [10] ++ spaces indent ++ [93]
  | JObject [] => js "{}"
  | JObject members =>
    [123; 10] ++ spaces (indent + 2)
    ++ join ([44; 10] ++ spaces (indent + 2))
         (map (fun '(key, x) => quote key ++ [58; 32] ++ stringify (indent + 2) x)
              members)
    ++ [10] ++ spaces indent ++ [125]
  end.

End Values.

(** The values whose text is determined here: no number, and strings of
    16-bit code units. *)
Fixpoint plain (v : json) : bool :=
  match v with
  | JNull | JBool _ => true
  | JNumber _ => false
  | JString s => forallb (fun c => c <? 65536) s
  | JArray items => forallb plain items
  | JObject members =>
    forallb (fun '(key, x) => forallb (fun c => c <? 65536) key && plain x) members
  end.

End Stringify.

(** ** server.ts: the [refine_prompt] handler

    The first [server.ts], which answers through [runCodexCLI]. *)

Module RefinePromptInput.
Record t := {
  prompt : jsstring;
  context : option jsstring;
  tags : option (list jsstring);
}.
End RefinePromptInput.

Module Server.

(** What a statement of the handler throws outside [RefinePromptInputSchema]:
    a property read on [undefined] or [null], a method that is missing, a
    spread of a value that is not iterable. *)
Inductive Exception := TypeError.

(** [z.string().optional()] on [input[key]]; the outer [None] is a failure. *)
Definition optionalString (members : list (jsstring * json)) (key : jsstring)
  : option (option jsstring) :=
  match JSON.getProperty members key with
  | None => Some None
  | Some (JString s) => Some (Some s)
  | Some _ => None
  end.

(** [z.array(z.string()).optional()] on [input[key]]. *)
Definition optionalStrings (members : list (jsstring * json)) (key : jsstring)
  : option (option (list jsstring)) :=
  match JSON.getProperty members key with
  | None => Some None
  | Some (JArray items) => option_map Some (strings items)
  | Some _ => None
  end.

(** [RefinePromptInputSchema.parse(input)]: [None] stands for the [ZodError]
    it throws; the input [None] is [undefined], the arguments of a request
    that carries none. *)
Definition RefinePromptInputSchema_parse (input : option json)
  : option RefinePromptInput.t :=
  match input with
  | Some (JObject members) =>
    match JSON.getProperty members (js "prompt"),
          optionalString members (js "context"),
          optionalStrings members (js "tags") with
    | Some (JString prompt), Some context, Some tags =>
      if (1 <=? length prompt)%nat
      then Some {| RefinePromptInput.prompt := prompt;
                   RefinePromptInput.context := context;
                   RefinePromptInput.tags := tags |}
      else None
    | _, _, _ => None
    end
  | _ => None
  end.

(** [input.prompt] when it is a string: on anything else
    [templateManager.suggestTags(input.prompt)] throws, at [input.prompt]
    when [input] is [undefined] or [null], at [prompt.toLowerCase()]
    otherwise. *)
Definition inputPrompt (input : option json) : option jsstring :=
  match input with
  | Some (JObject members) =>
    match JSON.getProperty members (js "prompt") with
    | Some (JString prompt) => Some prompt
    | _ => None
    end
  | _ => None
  end.

(** [input.tags] of an object. *)
Definition inputTags (input : option json) : option json :=
  match input with
  | Some (JObject members) => JSON.getProperty members (js "tags")
  | _ => None
  end.

(** The elements the iterator of a string yields: its code points. *)
Fixpoint codePoints (s : jsstring) : list jsstring :=
  match s with
  | [] => []
  | c :: s' =>
    if Stringify.isHighSurrogate c then
      match s' with
      | d :: s'' =>
        if Stringify.isLowSurrogate d then [c; d] :: codePoints s''
        else [c] :: codePoints s'
      | [] => [[c]]
      end
    else [c] :: codePoints s'
  end.

Section Handler.

Variable templateManager : TemplateManager.

(** The field the availability probe sets. *)
Variable isCodexAvailable : bool.

(** [new Date().toISOString()] *)
Variable timestamp : jsstring.

(** The message of the [ZodError] for an input the schema refuses. *)
Variable zodMessage : option json -> jsstring.

(** Whether a lexeme denotes [0] or [-0], the numbers that are falsy. *)
Variable Number_isZero : jsstring -> bool.

Variable Number_toString : jsstring -> jsstring.

(** [...(tags || [])] in an array literal; [None] when the spread throws. *)
Definition spreadTags (tags : option json) : option (list json) :=
  match tags with
  | None => Some []
  | Some JNull => Some []
  | Some (JBool false) => Some []
  | Some (JBool true) => None
  | Some (JNumber lexeme) => if Number_isZero lexeme then Some [] else None
  | Some (JString s) => Some (map JString (codePoints s))
  | Some (JArray items) => Some items
  | Some (JObject _) => None
  end.

Definition formatMCPResponse (refinedOutput : RefinedPromptOutput)
  (originalInput : RefinePromptInput.t) : json :=
  JObject
    [(js "success", JBool true);
     (js "original_prompt", JString (RefinePromptInput.prompt originalInput));
     (js "improved_prompt", JString (improvedPrompt refinedOutput));
     (js "rationale", JString (rationale refinedOutput));
     (js "risks", JArray (map JString (risks refinedOutput)));
     (js "tags", JArray (map JString (tags refinedOutput)));
     (js "metadata",
      JObject
        [(js "sections", JArray (map JString (sections (metadata refinedOutput))));
         (js "acceptance_criteria",
          JArray (map JString (acceptanceCriteria (metadata refinedOutput))));
         (js "checklist", JArray (map JString (checklist (metadata refinedOutput))));
         (js "processing_info",
          JObject
            [(js "codex_available", JBool isCodexAvailable);
             (js "timestamp", JString timestamp);
             (js "version", JString (js "1.0.0"))])])].

Definition createErrorFallback (input : option json) : Exception + json :=
  match inputPrompt input with
  | None => inl TypeError
  | Some prompt =>
    let suggestedTags := suggestTags templateManager prompt in
    let identifiedRisks := identifyRisks templateManager prompt in
    match spreadTags (inputTags input) with
    | None => inl TypeError
    | Some callerTags =>
      inr (JObject
        [(js "original_prompt", JString prompt);
         (js "improved_prompt",
          JString (prompt ++ js "

[NOTA: Prompt processado em modo offline]"));
         (js "rationale",
          JString (js "Processamento realizado localmente devido a erro no sistema principal."));
         (js "risks",
          JArray (map JString (js "Sistema de refinamento offline" :: identifiedRisks)));
         (js "tags",
          JArray (JString (js "fallback") :: map JString suggestedTags ++ callerTags));
         (js "metadata",
          JObject
            [(js "sections",
              JArray (map JString [js "Plan"; js "Risks"; js "Next actions"; js "Tests"]));
             (js "acceptance_criteria",
              JArray (map JString [js "Validar funcionamento"; js "Testar implementação"]));
             (js "checklist",
              JArray (map JString [js "Revisar erro"; js "Tentar novamente";
                                   js "Usar alternativa"]));
             (js "processing_info",
              JObject
                [(js "codex_available", JBool false);
                 (js "fallback_mode", JBool true);
                 (js "timestamp", JString timestamp)])])])
    end
  end.

(** The request [handleRefinePrompt] builds: [context] and [tags] are
    copied when they are truthy, so an empty context is dropped and an empty
    array is kept. *)
Definition codexRequest (validatedInput : RefinePromptInput.t) : CodexRequest.t :=
  {| CodexRequest.prompt := RefinePromptInput.prompt validatedInput;
     CodexRequest.context :=
       match RefinePromptInput.context validatedInput with
       | Some context => if truthy context then Some context else None
       | None => None
       end;
     CodexRequest.tags := RefinePromptInput.tags validatedInput;
     CodexRequest.model := Some (js "gpt-5") |}.

(** [handleRefinePrompt(input)], as the text of the one content item it
    answers with, when the host delivers [events] to the child process of
    [runCodexCLI].  [Rejected]: the [catch] block threw. *)
Definition handleRefinePrompt (input : option json) (events : list Event)
  : Promise jsstring Exception :=
  match RefinePromptInputSchema_parse input with
  | Some validatedInput =>
    match runCodexCLI templateManager (codexRequest validatedInput) events with
    | None => Pending
    | Some refinedOutput =>
      Resolved (Stringify.stringify Number_toString 0
                  (formatMCPResponse refinedOutput validatedInput))
    end
  | None =>
    match createErrorFallback input with
    | inl thrown => Rejected thrown
    | inr fallback =>
      Resolved (Stringify.stringify Number_toString 0
                  (JObject
                     [(js "error", JString (js "Erro ao processar solicitação de refinamento"));
                      (js "message", JString (zodMessage input));
                      (js "fallback", fallback)]))
    end
  end.

End Handler.

End Server.

(** ** Managers, requests and outputs used in the examples *)

(** The manager built when no rule file is found, for Latin-1 text: first
    and second copy of [templates.ts]. *)
Definition managerV1 : TemplateManager :=
  Templates.templateManager toLowerCaseLatin1 getDefaultRules.

Definition managerV2 : TemplateManager :=
  TemplatesV2.templateManager toLowerCaseLatin1 getDefaultRules.

Definition request (prompt : jsstring) (tags : option (list jsstring))
  : CodexRequest.t :=
  {| CodexRequest.prompt := prompt; CodexRequest.context := None;
     CodexRequest.tags := tags; CodexRequest.model := None |}.

(** A rule document whose development template lists no sections. *)
Definition rulesWithoutSections : PromptRules := {|
  main_refiner := main_refiner getDefaultRules;
  templates :=
    {[ js "software_development" :=
         {| prompt_prefix := js "Como um desenvolvedor sênior experiente, ";
            template_sections := Some [] |} ]};
  risk_categories := risk_categories getDefaultRules;
  common_tags := common_tags getDefaultRules
|}.

(** The prompt of the manual tests and of the README. *)
Definition promptA : jsstring :=
  js "Quero um script que leia CSV e grave no Postgres com validação".

(** The request of [testCodexIntegration]. *)
Definition requestApi : CodexRequest.t :=
  {| CodexRequest.prompt := js "Desenvolver API REST para gerenciar usuários";
     CodexRequest.context := Some (js "Sistema web corporativo");
     CodexRequest.tags := Some [js "api"; js "rest"];
     CodexRequest.model := None |}.

(** The six keyword sets of the second [identifyRisks] with their
    advisories, in the order of the source. *)
Definition riskCategories : list (list jsstring * jsstring) :=
  [([js "password"; js "secret"; js "token"; js "auth"; js "login"; js "senha"],
    js "Dados sensíveis podem estar expostos");
   ([js "loop"; js "recursão"; js "grande volume"; js "many"; js "milhões"; js "lote"],
    js "Possível impacto na performance com grandes volumes");
   ([js "database"; js "sql"; js "dados"; js "csv"; js "postgres"; js "validação"],
    js "Validação de dados de entrada necessária");
   ([js "api"; js "external"; js "terceiro"; js "http"; js "rest"; js "endpoint"],
    js "Dependência de serviços externos pode falhar");
   ([js "arquivo"; js "file"; js "salvar"; js "gravar"],
    js "Verificar permissões de acesso a arquivos");
   ([js "backup"; js "recovery"; js "restore"; js "recuper"],
    js "Implementar estratégia de recuperação em caso de falha")].

(** The advisories of the categories one of whose keywords occurs in the
    lower-cased prompt. *)
Definition triggeredAdvisories (lowerPrompt : jsstring) : list jsstring :=
  map snd
    (List.filter (fun cat => existsb (includes lowerPrompt) (fst cat)) riskCategories).

(** The four keyword sets of the first [identifyRisks] with their
    advisories, in the order of the source. *)
Definition riskCategoriesV1 : list (list jsstring * jsstring) :=
  [([js "password"; js "secret"; js "token"; js "auth"],
    js "Dados sensíveis podem estar expostos");
   ([js "loop"; js "recursão"; js "grande volume"],
    js "Possível impacto na performance com grandes volumes");
   ([js "database"; js "sql"; js "dados"],
    js "Validação de dados de entrada necessária");
   ([js "api"; js "external"; js "terceiro"],
    js "Dependência de serviços externos pode falhar")].

Definition triggeredAdvisoriesV1 (lowerPrompt : jsstring) : list jsstring :=
  map snd
    (List.filter (fun cat => existsb (includes lowerPrompt) (fst cat)) riskCategoriesV1).

(** The non-blank lines of the output, as [createFallbackOutput] computes
    them. *)
Definition nonBlankLines (codexOutput : jsstring) : list jsstring :=
  List.filter (fun line => truthy (trim line)) (split 10 codexOutput).

(** A sequence without its repetitions: every element stays where it is
    first seen. *)
Fixpoint firstOccurrences (l : list jsstring) : list jsstring :=
  match l with
  | [] => []
  | x :: l' => x :: List.filter (fun y => negb (eqb y x)) (firstOccurrences l')
  end.

(** Chunks of the two output streams, the events of a running process. *)
Definition isOutput (ev : Event) : bool :=
  match ev with
  | StdoutData _ | StderrData _ => true
  | _ => false
  end.

(** The text the [StdoutData] events of a trace carry. *)
Fixpoint stdoutOf (events : list Event) : jsstring :=
  match events with
  | [] => []
  | StdoutData data :: events' => data ++ stdoutOf events'
  | _ :: events' => stdoutOf events'
  end.

(** The text the [StderrData] events of a trace carry. *)
Fixpoint stderrOf (events : list Event) : jsstring :=
  match events with
  | [] => []
  | StderrData data :: events' => data ++ stderrOf events'
  | _ :: events' => stderrOf events'
  end.

(** The events whose callbacks settle a pending promise. *)
Definition settles (ev : Event) : bool :=
  match ev with
  | Close _ | ProcessError _ | TimeoutElapsed => true
  | _ => false
  end.

(** The three ways [executeCodexCommand] rejects: the error of the event
    that ends a running process which has written [stderrText] to its
    standard error, [None] for an event that is no failure. *)
Definition failureOf (ev : Event) (stderrText : jsstring) : option CodexCLIError :=
  match ev with
  | ProcessError errorMessage => Some (spawnError errorMessage)
  | Close (Some 0%Z) => None
  | Close exitCode => Some (exitError exitCode stderrText)
  | TimeoutElapsed => Some timeoutError
  | _ => None
  end.

(** The test of [substantial] in binary64 arithmetic, as the engine
    evaluates it, on the two lengths. *)
Definition substantialDouble (promptLength lineLength : nat) : bool :=
  PrimFloat.ltb
    (PrimFloat.mul (PrimFloat.of_uint63 (Uint63.of_Z (Z.of_nat promptLength)))
                   0x1.999999999999ap-1%float)
    (PrimFloat.of_uint63 (Uint63.of_Z (Z.of_nat lineLength))).

(** The improved prompt of the fallback path as the specification words it:
    the first line at least 80% as long as the original prompt, else the
    original prompt. *)
Definition atLeast80Percent (originalPrompt line : jsstring) : bool :=
  (4 * length originalPrompt <=? 5 * length line)%nat.

Definition specImprovedPrompt (originalPrompt rawOutput : jsstring) : jsstring :=
  match List.find (atLeast80Percent originalPrompt) (nonBlankLines rawOutput) with
  | Some line => line
  | None => originalPrompt
  end.

(** The stdout of scenario B of the specification and the object it
    denotes. *)
Definition scenarioB : jsstring :=
  jsq "{'improvedPrompt':'x','rationale':'y','risks':['r1'],'tags':['t1'],'metadata':{'sections':['s1'],'acceptanceCriteria':['a1'],'checklist':['c1']}}".

Definition resultB : RefinedPromptOutput :=
  {| improvedPrompt := js "x"; rationale := js "y"; risks := [js "r1"];
     tags := [js "t1"];
     metadata := {| sections := [js "s1"]; acceptanceCriteria := [js "a1"];
                    checklist := [js "c1"] |} |}.

(** A JSON object with the five keys of [CodexOutputSchema], three keys in
    its metadata, and nothing else. *)
Definition refinedJson (r : RefinedPromptOutput) : json :=
  JObject
    [(js "improvedPrompt", JString (improvedPrompt r));
     (js "rationale", JString (rationale r));
     (js "risks", JArray (map JString (risks r)));
     (js "tags", JArray (map JString (tags r)));
     (js "metadata",
      JObject
        [(js "sections", JArray (map JString (sections (metadata r))));
         (js "acceptanceCriteria",
          JArray (map JString (acceptanceCriteria (metadata r))));
         (js "checklist", JArray (map JString (checklist (metadata r))))])].

(** An answer wrapped in narrative text, with keys the schema does not
    know, at both levels. *)
Definition chattyOutput : jsstring :=
  jsq "Here is the refined prompt:
{'confidence': 0.9, 'improvedPrompt': 'x', 'rationale': 'y', 'risks': ['r1'],
 'tags': ['t1'], 'notes': {'by': 'model'},
 'metadata': {'sections': ['s1'], 'priority': 1, 'acceptanceCriteria': ['a1'],
              'checklist': ['c1']}}
Done.".

(** The text of [v], after blanks and before anything, is read as [v]
    whenever the fuel is above some bound. *)
Definition readsBack (Number_toString : jsstring -> jsstring) (v : json) : Prop :=
  forall indent ws rest,
    Forall (fun c => JSON.isSpace c = true) ws ->
    exists b, forall f, (b <= f)%nat ->
      JSON.parseValue f (ws ++ Stringify.stringify Number_toString indent v ++ rest)
      = Some (v, rest).

(** ** The string and JSON models on examples *)

Example js_codigo : js "código" = [99; 243; 100; 105; 103; 111].
Proof. reflexivity. Qed.

Example string_methods :
  trim (js "  a b 	") = js "a b"
  /\ split 10 (js "a

b") = [js "a"; []; js "b"]
  /\ split 10 [] = [[]]
  /\ replace (js "automação") (js "ã") (js "a") = js "automaçao"
  /\ includes (js "postgres") (js "sql") = false
  /\ toLowerCaseLatin1 (js "VALIDAÇÃO de CSV") = js "validação de csv"
  /\ ofZ (-2) = js "-2" /\ ofZ 0 = js "0" /\ ofZ 137 = js "137".
Proof. vm_compute. repeat split; reflexivity. Qed.

Example JSON_parse_values :
  JSON.parse (jsq " {'a': [1, -2.5e+3, true, null], 'b\n': {'c': 'ã\'x'}} ")
  = Some (JObject
            [(js "a", JArray [JNumber (js "1"); JNumber (js "-2.5e+3");
                              JBool true; JNull]);
             ([98; 10], JObject [(js "c", JString (js "ã" ++ [34] ++ js "x"))])]).
Proof. vm_compute. reflexivity. Qed.

Example JSON_parse_errors :
  JSON.parse (jsq "{'a': 01}") = None /\ JSON.parse (jsq "{'a': 1,}") = None
  /\ JSON.parse (jsq "[1] x") = None /\ JSON.parse (jsq "{a: 1}") = None
  /\ JSON.parse (js "{'a': 1}") = None /\ JSON.parse [] = None.
Proof. vm_compute. repeat split; reflexivity. Qed.

Example JSON_duplicate_key :
  option_map (fun v => match v with
                       | JObject ms => JSON.getProperty ms (js "a")
                       | _ => None
                       end)
    (JSON.parse (jsq "{'a': 'first', 'a': 'last'}"))
  = Some (Some (JString (js "last"))).
Proof. vm_compute. reflexivity. Qed.

Example jsonMatch_braces :
  jsonMatch (js "note {a} and {b} end") = Some (js "{a} and {b}")
  /\ jsonMatch (js "} {") = None
  /\ jsonMatch (js "no object") = None.
Proof. vm_compute. repeat split; reflexivity. Qed.

(** ** Properties of the template engine *)

Example scenarioA_engine :
  detectTemplate managerV2 promptA = js "software_development"
  /\ suggestTags managerV2 promptA = [js "automação"; js "dados"]
  /\ identifyRisks managerV2 promptA = [js "Validação de dados de entrada necessária"].
Proof. vm_compute. repeat split; reflexivity. Qed.

Lemma pushIf_nil c x : pushIf c x [] = if c then [x] else [].
Proof. destruct c; reflexivity. Qed.

Lemma map_filter_nil {A B} (f : A -> B) (p : A -> bool) (l : list A) :
  map f (List.filter p l) = [] <-> existsb p l = false.
Proof.
  induction l as [|x l IH]; cbn [List.filter map existsb]; [tauto|].
  destruct (p x); cbn [map orb]; [|exact IH].
  split; intros H; discriminate H.
Qed.

(** C4 (as amended). The [identifyRisks] of the second copy of
    [templates.ts] never returns an empty sequence: its result is the
    advisories of the triggered categories, one each and in the order of the
    source, and the single generic advisory when no category is triggered.
    The [identifyRisks] of the first copy has four categories and no generic
    advisory: its result is the advisories of its triggered categories, and
    it is empty exactly when no keyword of the four occurs in the lower-cased
    prompt. *)
Theorem identifyRisks_never_empty (toLowerCase : jsstring -> jsstring)
  (prompt : jsstring) :
  ((0 < length (TemplatesV2.identifyRisks toLowerCase prompt))%nat
   /\ TemplatesV2.identifyRisks toLowerCase prompt
      = match triggeredAdvisories (toLowerCase prompt) with
        | [] => [TemplatesV2.genericRisk]
        | advisories => advisories
        end)
  /\ Templates.identifyRisks toLowerCase prompt
     = triggeredAdvisoriesV1 (toLowerCase prompt)
  /\ (Templates.identifyRisks toLowerCase prompt = []
      <-> existsb (fun category =>
                     existsb (includes (toLowerCase prompt)) (fst category))
                  riskCategoriesV1
          = false).
Proof.
  split.
  { unfold TemplatesV2.identifyRisks, triggeredAdvisories, riskCategories.
    cbn [List.filter map fst snd existsb].
    rewrite !orb_false_r, !orb_assoc.
    set (lp := toLowerCase prompt).
    generalize (includes lp (js "password") || includes lp (js "secret")
                || includes lp (js "token") || includes lp (js "auth")
                || includes lp (js "login") || includes lp (js "senha")).
    generalize (includes lp (js "loop") || includes lp (js "recursão")
                || includes lp (js "grande volume") || includes lp (js "many")
                || includes lp (js "milhões") || includes lp (js "lote")).
    generalize (includes lp (js "database") || includes lp (js "sql")
                || includes lp (js "dados") || includes lp (js "csv")
                || includes lp (js "postgres") || includes lp (js "validação")).
    generalize (includes lp (js "api") || includes lp (js "external")
                || includes lp (js "terceiro") || includes lp (js "http")
                || includes lp (js "rest") || includes lp (js "endpoint")).
    generalize (includes lp (js "arquivo") || includes lp (js "file")
                || includes lp (js "salvar") || includes lp (js "gravar")).
    generalize (includes lp (js "backup") || includes lp (js "recovery")
                || includes lp (js "restore") || includes lp (js "recuper")).
    intros c6 c5 c4 c3 c2 c1. clearbody lp.
    generalize TemplatesV2.genericRisk; intros g.
    repeat match goal with
           | |- context [js ?lit] => generalize (js lit); intro
           end.
    destruct c1, c2, c3, c4, c5, c6; cbn; split; (lia || reflexivity). }
  assert (Hfirst : Templates.identifyRisks toLowerCase prompt
                   = triggeredAdvisoriesV1 (toLowerCase prompt)).
  { unfold Templates.identifyRisks, triggeredAdvisoriesV1, riskCategoriesV1.
    cbn [List.filter map fst snd existsb].
    rewrite !orb_false_r, !orb_assoc.
    set (lp := toLowerCase prompt).
    generalize (includes lp (js "password") || includes lp (js "secret")
                || includes lp (js "token") || includes lp (js "auth")).
    generalize (includes lp (js "loop") || includes lp (js "recursão")
                || includes lp (js "grande volume")).
    generalize (includes lp (js "database") || includes lp (js "sql")
                || includes lp (js "dados")).
    generalize (includes lp (js "api") || includes lp (js "external")
                || includes lp (js "terceiro")).
    intros c4 c3 c2 c1. clearbody lp.
    repeat match goal with
           | |- context [js ?lit] => generalize (js lit); intro
           end.
    destruct c1, c2, c3, c4; reflexivity. }
  split; [exact Hfirst|].
  rewrite Hfirst. unfold triggeredAdvisoriesV1. apply map_filter_nil.
Qed.

(** C4, the claim as worded, fails on the first copy, the [templates.ts] of
    the sources: on the empty string, and on any prompt without one of its
    keywords, its [identifyRisks] returns the empty sequence, where the
    second copy returns the generic advisory. *)
Example identifyRisks_V1_empty :
  identifyRisks managerV1 [] = []
  /\ identifyRisks managerV1 (js "Hello, world") = []
  /\ identifyRisks managerV2 [] = [TemplatesV2.genericRisk].
Proof. vm_compute. repeat split; reflexivity. Qed.

(** C9. A prompt whose lower-cased text contains both "script" and
    "postgres" is classified as software development: the development
    keywords are tested first. *)
Theorem detectTemplate_script_before_postgres (toLowerCase : jsstring -> jsstring)
  (prompt : jsstring)
  (Hscript : includes (toLowerCase prompt) (js "script") = true)
  (Hpostgres : includes (toLowerCase prompt) (js "postgres") = true) :
  Templates.detectTemplate toLowerCase prompt = js "software_development".
Proof.
  unfold Templates.detectTemplate. rewrite Hscript. reflexivity.
Qed.

Lemma detectTemplate_script_before_postgres_witness :
  detectTemplate managerV2 promptA = js "software_development"
  /\ detectTemplate managerV1 promptA = js "software_development".
Proof.
  split;
    apply (detectTemplate_script_before_postgres toLowerCaseLatin1 promptA);
    vm_compute; reflexivity.
Defined.

(** Without the development keyword the same prompt is a data prompt, so
    the order of the two tests is what decides. *)
Example detectTemplate_postgres_alone :
  detectTemplate managerV2 (js "leia CSV e grave no Postgres") = js "data_processing".
Proof. vm_compute. reflexivity. Qed.

(** ** Properties of [executeCodexCommand] *)

Lemma runEvents_app st evs1 evs2 :
  runEvents st (evs1 ++ evs2) = runEvents (runEvents st evs1) evs2.
Proof. apply fold_left_app. Qed.

Lemma runEvents_cons st ev evs :
  runEvents st (ev :: evs) = runEvents (handle st ev) evs.
Proof. reflexivity. Qed.

(** After an uncaught exception nothing runs. *)
Lemma handle_dead st ev errorMessage :
  uncaughtException st = Some errorMessage -> handle st ev = st.
Proof. intros H. unfold handle. rewrite H. reflexivity. Qed.

Lemma runEvents_dead evs : forall st errorMessage,
  uncaughtException st = Some errorMessage -> runEvents st evs = st.
Proof.
  induction evs as [|ev evs IH]; intros st m H; [reflexivity|].
  rewrite runEvents_cons, (handle_dead st ev m H). apply (IH st m H).
Qed.

(** The callbacks of a process that has not ended. *)
Local Ltac alive st :=
  unfold handle;
  let Hu := fresh "Hu" in
  destruct (uncaughtException st) eqn:Hu; [try reflexivity|].

(** Output chunks only grow the two buffers. *)
Lemma handle_output st ev :
  uncaughtException st = None -> isOutput ev = true ->
  promise (handle st ev) = promise st
  /\ timeout (handle st ev) = timeout st
  /\ killSignals (handle st ev) = killSignals st
  /\ stdout (handle st ev) = stdout st ++ stdoutOf [ev]
  /\ stderr (handle st ev) = stderr st ++ stderrOf [ev]
  /\ uncaughtException (handle st ev) = None.
Proof.
  intros Hu Hev. unfold handle. rewrite Hu.
  destruct ev; try discriminate Hev; cbn; rewrite ?app_nil_r; auto 10.
Qed.

Lemma runEvents_output_state evs : forall st,
  uncaughtException st = None ->
  Forall (fun ev => isOutput ev = true) evs ->
  promise (runEvents st evs) = promise st
  /\ timeout (runEvents st evs) = timeout st
  /\ killSignals (runEvents st evs) = killSignals st
  /\ stdout (runEvents st evs) = stdout st ++ stdoutOf evs
  /\ stderr (runEvents st evs) = stderr st ++ stderrOf evs
  /\ uncaughtException (runEvents st evs) = None.
Proof.
  induction evs as [|ev evs IH]; intros st Hu Hout.
  - cbn. rewrite !app_nil_r. auto 10.
  - inversion Hout as [|? ? Hev Hevs]; subst.
    rewrite runEvents_cons.
    destruct (handle_output st ev Hu Hev) as (Hp & Ht & Hk & Hs & He & Hu').
    destruct (IH (handle st ev) Hu' Hevs) as (Hp' & Ht' & Hk' & Hs' & He' & Hu'').
    repeat split; try congruence.
    + rewrite Hs', Hs, <- app_assoc. f_equal.
      destruct ev; try discriminate Hev; cbn; rewrite ?app_nil_r; reflexivity.
    + rewrite He', He, <- app_assoc. f_equal.
      destruct ev; try discriminate Hev; cbn; rewrite ?app_nil_r; reflexivity.
Qed.

Lemma runEvents_output evs : forall st,
  uncaughtException st = None ->
  Forall (fun ev => isOutput ev = true) evs ->
  promise (runEvents st evs) = promise st
  /\ timeout (runEvents st evs) = timeout st
  /\ killSignals (runEvents st evs) = killSignals st
  /\ stdout (runEvents st evs) = stdout st ++ stdoutOf evs.
Proof.
  intros st Hu Hout.
  destruct (runEvents_output_state evs st Hu Hout) as (Hp & Ht & Hk & Hs & _).
  auto.
Qed.

(** A settled promise stays as it is. *)
Lemma handle_settled st ev :
  promise st <> Pending -> promise (handle st ev) = promise st.
Proof.
  intros Hp. alive st.
  destruct ev as [d|d|c|m| |m]; cbn; try reflexivity.
  - destruct c as [[|q|q]|]; cbn; destruct (promise st); cbn; congruence.
  - destruct (promise st); cbn; congruence.
  - destruct (timeout st); cbn; try reflexivity.
    destruct (promise st); cbn; congruence.
Qed.

Lemma runEvents_settled evs : forall st,
  promise st <> Pending -> promise (runEvents st evs) = promise st.
Proof.
  induction evs as [|ev evs IH]; intros st Hp; [reflexivity|].
  rewrite runEvents_cons, IH; rewrite handle_settled; auto.
Qed.

(** Once the timer is cleared or has fired, no signal is sent any more. *)
Lemma handle_disarmed st ev :
  timeout st <> Armed ->
  timeout (handle st ev) = timeout st /\ killSignals (handle st ev) = killSignals st.
Proof.
  intros Ht. alive st; [auto|].
  destruct ev as [d|d|c|m| |m]; cbn; auto.
  - destruct c as [[|q|q]|]; cbn; destruct (timeout st); cbn;
      try (exfalso; apply Ht; reflexivity); split; reflexivity.
  - destruct (timeout st) eqn:E; try (exfalso; apply Ht; reflexivity);
      rewrite ?E; split; reflexivity.
Qed.

Lemma runEvents_disarmed evs : forall st,
  timeout st <> Armed ->
  timeout (runEvents st evs) = timeout st
  /\ killSignals (runEvents st evs) = killSignals st.
Proof.
  induction evs as [|ev evs IH]; intros st Ht; [auto|].
  rewrite runEvents_cons.
  destruct (handle_disarmed st ev Ht) as [Ht' Hk'].
  destruct (IH (handle st ev)) as [Ht'' Hk'']; [congruence|].
  split; congruence.
Qed.

Lemma handle_close_timer st exitCode :
  uncaughtException st = None ->
  timeout (handle st (Close exitCode)) = clearTimeout (timeout st)
  /\ killSignals (handle st (Close exitCode)) = killSignals st.
Proof.
  intros Hu. unfold handle. rewrite Hu.
  destruct exitCode as [[|q|q]|]; cbn; auto.
Qed.







(** *** The three failures *)

(** The first event of a running process that is no output decides the
    promise: a failure rejects it with its error. *)
Lemma promise_after_failure model systemPrompt userPrompt running ev later error :
  Forall (fun ev => isOutput ev = true) running ->
  failureOf ev (stderrOf running) = Some error ->
  promise (executeCodexCommand model systemPrompt userPrompt (running ++ ev :: later))
  = Rejected error.
Proof.
  intros Hrun Hfail. unfold executeCodexCommand.
  set (st0 := spawned model systemPrompt userPrompt).
  destruct (runEvents_output_state running st0 eq_refl Hrun)
    as (Hp & Ht & _ & _ & He & Hu).
  change (promise st0) with (@Pending jsstring CodexCLIError) in Hp.
  change (timeout st0) with Armed in Ht.
  change (stderr st0 ++ stderrOf running) with (stderrOf running) in He.
  rewrite runEvents_app, runEvents_cons.
  set (st1 := runEvents st0 running) in *.
  assert (H1 : promise (handle st1 ev) = Rejected error).
  { unfold handle. rewrite Hu.
    destruct ev as [d|d|c|m| |m]; try discriminate Hfail.
    - destruct c as [[|q|q]|]; try discriminate Hfail;
        injection Hfail as <-; cbn; rewrite Hp, He; reflexivity.
    - injection Hfail as <-. cbn. rewrite Hp. reflexivity.
    - injection Hfail as <-. rewrite Ht. cbn. rewrite Hp. reflexivity. }
  rewrite runEvents_settled; congruence.
Qed.

(** A close with exit code 0 resolves it with the trimmed output. *)
Lemma promise_after_exit_zero model systemPrompt userPrompt running later :
  Forall (fun ev => isOutput ev = true) running ->
  let st := executeCodexCommand model systemPrompt userPrompt
              (running ++ Close (Some 0%Z) :: later) in
  promise st = Resolved (trim (stdoutOf running))
  /\ timeout st = Cleared /\ killSignals st = [].
Proof.
  intros Hrun. cbv zeta. unfold executeCodexCommand.
  set (st0 := spawned model systemPrompt userPrompt).
  destruct (runEvents_output_state running st0 eq_refl Hrun)
    as (Hp & Ht & Hk & Hs & _ & Hu).
  rewrite runEvents_app, runEvents_cons.
  set (st1 := runEvents st0 running) in *.
  assert (H1 : promise (handle st1 (Close (Some 0%Z))) = Resolved (trim (stdoutOf running))
               /\ timeout (handle st1 (Close (Some 0%Z))) = Cleared
               /\ killSignals (handle st1 (Close (Some 0%Z))) = []).
  { unfold handle. rewrite Hu. cbn. rewrite Hp, Ht, Hk, Hs. cbn. auto. }
  destruct H1 as (H1 & H2 & H3).
  destruct (runEvents_disarmed later (handle st1 (Close (Some 0%Z)))) as [Ht' Hk'];
    [congruence|].
  rewrite runEvents_settled by congruence. repeat split; congruence.
Qed.

(** An error of the input stream of a running process ends the node process
    with the promise pending. *)
Lemma promise_after_stdin_error model systemPrompt userPrompt running
  errorMessage later :
  Forall (fun ev => isOutput ev = true) running ->
  let st := executeCodexCommand model systemPrompt userPrompt
              (running ++ StdinError errorMessage :: later) in
  promise st = Pending /\ uncaughtException st = Some errorMessage.
Proof.
  intros Hrun. cbv zeta. unfold executeCodexCommand.
  set (st0 := spawned model systemPrompt userPrompt).
  destruct (runEvents_output_state running st0 eq_refl Hrun)
    as (Hp & _ & _ & _ & _ & Hu).
  change (promise st0) with (@Pending jsstring CodexCLIError) in Hp.
  rewrite runEvents_app, runEvents_cons.
  set (st1 := runEvents st0 running) in *.
  assert (H1 : promise (handle st1 (StdinError errorMessage)) = Pending
               /\ uncaughtException (handle st1 (StdinError errorMessage))
                  = Some errorMessage).
  { unfold handle. rewrite Hu. cbn. auto. }
  destruct H1 as [H1 H2].
  rewrite (runEvents_dead later _ errorMessage H2). auto.
Qed.

(** X10. Each of the three failures of a running process rejects the
    promise with its own error: an [error] event with the spawn error that
    quotes its message, a close with an exit code other than 0 (or with
    none) with the exit error that quotes the code and everything the
    process wrote to its standard error, and the expiry of the timer with
    the timeout error. *)
Lemma executeCodexCommand_failures model systemPrompt userPrompt running later :
  Forall (fun ev => isOutput ev = true) running ->
  (forall errorMessage,
     promise (executeCodexCommand model systemPrompt userPrompt
                (running ++ ProcessError errorMessage :: later))
     = Rejected (spawnError errorMessage))
  /\ (forall exitCode, exitCode <> Some 0%Z ->
      promise (executeCodexCommand model systemPrompt userPrompt
                 (running ++ Close exitCode :: later))
      = Rejected (exitError exitCode (stderrOf running)))
  /\ promise (executeCodexCommand model systemPrompt userPrompt
                (running ++ TimeoutElapsed :: later))
     = Rejected timeoutError.
Proof.
  intros Hrun. repeat split.
  - intros errorMessage. apply promise_after_failure; [exact Hrun|reflexivity].
  - intros exitCode Hcode. apply promise_after_failure; [exact Hrun|].
    destruct exitCode as [[|q|q]|]; try reflexivity. congruence.
  - apply promise_after_failure; [exact Hrun|reflexivity].
Qed.

(** ** The other orchestrator has neither the timer nor the fallback *)

(** As the repository is, [refineWithAI] fails outside mock mode before it
    spawns anything, and [execute] throws the failure again. *)
Example refineWithAI_in_this_repository :
  AiProviders.refineWithAI true AiProviders.importedGetAIMasterPrompt AiProviders.codex None
    (js "prompt") None []
  = Resolved AiProviders.mockResponse
  /\ AiProviders.execute false AiProviders.importedGetAIMasterPrompt AiProviders.codex None
       (js "prompt") None [StdoutData (js "{}"); Close (Some 0%Z)]
     = Rejected (AiProviders.FailedToRefine AiProviders.NotAFunction).
Proof. split; reflexivity. Qed.

Example refineWithAI_fenced :
  AiProviders.parseOutput (js "codex")
    (jsq "Sure:
```json
{'improvedPrompt':'x','rationale':'y','risks':['r1'],'tags':['t1'],'metadata':{'sections':['s1'],'acceptanceCriteria':['a1'],'checklist':['c1']}}
```
")
  = inl resultB.
Proof. vm_compute. reflexivity. Qed.

(** ** Properties of the pipeline *)

Section Pipeline.

Variable tm : TemplateManager.


End Pipeline.



Example failure_messages :
  message (exitError (Some 2%Z) (js "boom")) = js "Codex CLI failed with exit code 2: boom"
  /\ message (exitError None []) = js "Codex CLI failed with exit code null: "
  /\ promise (executeCodexCommand [] [] [] [StderrData (js "boom"); Close (Some 2%Z)])
     = Rejected (exitError (Some 2%Z) (js "boom"))
  /\ promise (executeCodexCommand [] [] [] [TimeoutElapsed; Close None])
     = Rejected timeoutError.
Proof. vm_compute. repeat split; reflexivity. Qed.

(** *** Blank strings *)

Lemma trim_nil_of_nil (s : jsstring) : s = [] -> trim s = [].
Proof. intros ->. reflexivity. Qed.

(** The test [!s || s.trim() === ''] of [enrichOutput]. *)
Lemma blank_false_iff (s : jsstring) :
  negb (truthy s) || eqb (trim s) [] = false <-> trim s <> [].
Proof.
  unfold eqb. split.
  - intros H Ht. rewrite Ht in H. rewrite orb_true_r in H. discriminate.
  - intros H. destruct s as [|c s]; [exfalso; apply H; reflexivity|].
    cbn [truthy negb orb]. apply bool_decide_eq_false. exact H.
Qed.

(** *** The fallback path of the reconciler *)

Lemma nonBlankLines_truthy codexOutput line :
  In line (nonBlankLines codexOutput) ->
  truthy line = true /\ eqb (trim line) [] = false.
Proof.
  unfold nonBlankLines. rewrite filter_In. intros [_ Hline].
  destruct line as [|c line]; [discriminate Hline|].
  split; [reflexivity|].
  destruct (trim (c :: line)); [discriminate Hline|reflexivity].
Qed.

Lemma orElse_truthy line b : truthy line = true -> orElse (Some line) b = line.
Proof. intros H. cbn. rewrite H. reflexivity. Qed.

(** On all lengths up to 120 the comparison in doubles is the exact one. *)
Example substantial_is_exact :
  forallb
    (fun promptLength =>
       forallb
         (fun lineLength =>
            Bool.eqb (substantialDouble promptLength lineLength)
                     (4 * promptLength <? 5 * lineLength)%nat)
         (seq 0 121))
    (seq 0 121)
  = true.
Proof. vm_compute. reflexivity. Qed.

Section Fallback.

Variable tm : TemplateManager.

(** The choice [createFallbackOutput] makes among the non-blank lines. *)
Lemma createFallbackOutput_choice originalPrompt codexOutput context tags :
  improvedPrompt (createFallbackOutput tm originalPrompt codexOutput context tags)
  = match List.find (substantial originalPrompt) (nonBlankLines codexOutput) with
    | Some line => line
    | None =>
      match nonBlankLines codexOutput with
      | first :: _ => first
      | [] => originalPrompt
      end
    end.
Proof.
  cbn [createFallbackOutput improvedPrompt]. fold (nonBlankLines codexOutput).
  pose proof (nonBlankLines_truthy codexOutput) as Hlines.
  destruct (nonBlankLines codexOutput) as [|first rest] eqn:Hnb; [reflexivity|].
  cbn [length Nat.ltb Nat.leb head].
  destruct (List.find (substantial originalPrompt) (first :: rest)) as [line|] eqn:Hfind.
  - apply find_some in Hfind as [Hin _].
    apply orElse_truthy, Hlines, Hin.
  - cbn [orElse]. apply orElse_truthy, Hlines. left. reflexivity.
Qed.

(** C3 (as amended). In the fallback path the improved prompt is the first
    non-blank line of the output whose length is strictly greater than 80%
    of the length of the original prompt; when there is none it is the first
    non-blank line of the output; and it is the original prompt only when
    the output has no non-blank line.  Enrichment leaves that choice as it
    is. *)
Theorem createFallbackOutput_improvedPrompt (originalPrompt codexOutput : jsstring)
  (context : option jsstring) (tags : option (list jsstring)) :
  let chosen :=
    match List.find (substantial originalPrompt) (nonBlankLines codexOutput) with
    | Some line => line
    | None =>
      match nonBlankLines codexOutput with
      | first :: _ => first
      | [] => originalPrompt
      end
    end in
  improvedPrompt (createFallbackOutput tm originalPrompt codexOutput context tags)
  = chosen
  /\ improvedPrompt
       (enrichOutput tm
          (createFallbackOutput tm originalPrompt codexOutput context tags)
          originalPrompt)
     = chosen.
Proof.
  cbv zeta. split; [apply createFallbackOutput_choice|].
  cbn [enrichOutput improvedPrompt]. rewrite createFallbackOutput_choice.
  pose proof (nonBlankLines_truthy codexOutput) as Hlines.
  destruct (List.find (substantial originalPrompt) (nonBlankLines codexOutput))
    as [line|] eqn:Hfind.
  - apply find_some in Hfind as [Hin _].
    destruct (Hlines line Hin) as [-> ->]. reflexivity.
  - destruct (nonBlankLines codexOutput) as [|first rest].
    + destruct (_ || _); reflexivity.
    + destruct (Hlines first) as [-> ->]; [left; reflexivity|reflexivity].
Qed.

(** C7. In the fallback path the tags are the suggested tags followed by the
    caller's tags, cut after the eighth; when the two together are more than
    eight the result has exactly eight tags, also after enrichment. *)
Theorem createFallbackOutput_tags_capped (originalPrompt codexOutput : jsstring)
  (context : option jsstring) (callerTags : option (list jsstring))
  (Hmany : (8 < length (suggestTags tm originalPrompt ++ default [] callerTags))%nat) :
  let result :=
    createFallbackOutput tm originalPrompt codexOutput context callerTags in
  tags result = take 8 (suggestTags tm originalPrompt ++ default [] callerTags)
  /\ length (tags result) = 8%nat
  /\ tags (enrichOutput tm result originalPrompt) = tags result.
Proof.
  cbv zeta. cbn [createFallbackOutput tags].
  assert (Hlen : length (take 8 (suggestTags tm originalPrompt ++ default [] callerTags))
                 = 8%nat)
    by (apply length_take_le; lia).
  repeat split; [exact Hlen|].
  cbn [enrichOutput tags createFallbackOutput].
  rewrite Hlen. reflexivity.
Qed.

End Fallback.

Lemma createFallbackOutput_tags_capped_witness :
  let callerTags :=
    [js "etl"; js "postgres"; js "validação"; js "python"; js "csv";
     js "batch"; js "cli"; js "logs"] in
  let result :=
    createFallbackOutput managerV2 promptA (js "Sorry, I cannot help.") None
      (Some callerTags) in
  tags result = take 8 (suggestTags managerV2 promptA ++ default [] (Some callerTags))
  /\ length (tags result) = 8%nat
  /\ tags (enrichOutput managerV2 result promptA) = tags result.
Proof.
  apply (createFallbackOutput_tags_capped managerV2 promptA
           (js "Sorry, I cannot help.") None
           (Some [js "etl"; js "postgres"; js "validação"; js "python"; js "csv";
                  js "batch"; js "cli"; js "logs"])).
  vm_compute. lia.
Defined.

(** The error fallback counts its two markers in the eight. *)
Lemma createErrorFallbackOutput_tags tm originalPrompt error context callerTags :
  tags (createErrorFallbackOutput tm originalPrompt error context callerTags)
  = js "fallback" :: js "offline"
    :: take 6 (suggestTags tm originalPrompt ++ default [] callerTags).
Proof. reflexivity. Qed.

(** C3, the claim as worded, fails: a short first line is taken although it
    is not 80% as long as the prompt, and a line of exactly 80% is passed
    over for the first line. *)
Lemma specImprovedPrompt_differs :
  improvedPrompt (createFallbackOutput managerV2 (js "abcde") (js "ab") None None)
  = js "ab"
  /\ specImprovedPrompt (js "abcde") (js "ab") = js "abcde"
  /\ improvedPrompt
       (createFallbackOutput managerV2 (js "abcde") (js "ab
abcd") None None)
     = js "ab"
  /\ specImprovedPrompt (js "abcde") (js "ab
abcd") = js "abcd"
  /\ improvedPrompt (createFallbackOutput managerV2 (js "abcde") (js "ab") None None)
     <> specImprovedPrompt (js "abcde") (js "ab").
Proof. vm_compute. repeat split; try reflexivity. discriminate. Qed.

(** *** Tags as a set *)

Lemma eqb_refl_true a : eqb a a = true.
Proof. apply bool_decide_eq_true. reflexivity. Qed.

Lemma filter_filter_and (P Q : jsstring -> bool) l :
  List.filter P (List.filter Q l) = List.filter (fun y => Q y && P y) l.
Proof.
  induction l as [|x l IH]; [reflexivity|].
  cbn [List.filter]. destruct (Q x); cbn [List.filter andb]; rewrite IH; reflexivity.
Qed.

Lemma fold_Set_add l : forall acc,
  fold_left Set_add l acc
  = acc ++ List.filter (fun y => negb (existsb (eqb y) acc)) (firstOccurrences l).
Proof.
  induction l as [|x l IH]; intros acc; cbn [fold_left firstOccurrences List.filter].
  - rewrite app_nil_r. reflexivity.
  - rewrite IH. unfold Set_add.
    destruct (existsb (eqb x) acc) eqn:Hx; cbn [negb].
    + f_equal. rewrite filter_filter_and. apply filter_ext. intros y.
      destruct (existsb (eqb y) acc) eqn:Hy; cbn [negb];
        [rewrite andb_false_r; reflexivity|].
      rewrite andb_true_r.
      destruct (eqb y x) eqn:Hyx; [|reflexivity].
      apply bool_decide_eq_true in Hyx. subst y. congruence.
    + rewrite <- app_assoc. cbn [app]. do 2 f_equal.
      rewrite filter_filter_and. apply filter_ext. intros y.
      rewrite existsb_app. cbn [existsb]. rewrite orb_false_r, negb_orb.
      apply andb_comm.
Qed.

(** [Set_from] keeps every element where it is first seen. *)
Lemma Set_from_firstOccurrences l : Set_from l = firstOccurrences l.
Proof.
  unfold Set_from. rewrite fold_Set_add. cbn [app existsb negb].
  induction (firstOccurrences l) as [|x k IH]; [reflexivity|].
  cbn [List.filter]. rewrite IH. reflexivity.
Qed.

Lemma firstOccurrences_NoDup l : List.NoDup (firstOccurrences l).
Proof.
  induction l as [|x l IH]; cbn [firstOccurrences]; constructor.
  - rewrite filter_In. intros [_ H]. rewrite eqb_refl_true in H. discriminate.
  - apply List.NoDup_filter, IH.
Qed.

Lemma firstOccurrences_In l x : In x (firstOccurrences l) <-> In x l.
Proof.
  induction l as [|y l IH]; cbn [firstOccurrences In]; [tauto|].
  rewrite filter_In, IH. split.
  - tauto.
  - intros [->|Hin]; [tauto|].
    destruct (eqb x y) eqn:E.
    + apply bool_decide_eq_true in E. left. congruence.
    + right. split; [assumption|reflexivity].
Qed.

Lemma Set_from_NoDup l : List.NoDup (Set_from l).
Proof. rewrite Set_from_firstOccurrences. apply firstOccurrences_NoDup. Qed.

Lemma take_NoDup n (l : list jsstring) : List.NoDup l -> List.NoDup (take n l).
Proof.
  revert n. induction l as [|x l IH]; intros [|n] Hl; cbn; try constructor.
  - inversion Hl as [|? ? Hx _]; subst. intros Hin. apply Hx.
    clear -Hin. revert n Hin.
    induction l as [|y l IH]; intros [|n]; cbn; try tauto.
    intros [->|H]; [left; reflexivity|right; eapply IH, H].
  - inversion Hl; subst. auto.
Qed.

Lemma pushIf_app c x l : pushIf c x l = l ++ (if c then [x] else []).
Proof. destruct c; cbn [pushIf]; [reflexivity|rewrite app_nil_r; reflexivity]. Qed.

(** C8 (as amended). [suggestTags], in both copies, returns the sequence of
    the tags it pushes (the tags of the rule document that match, in the
    order of the document, then the tag of each keyword rule that matches,
    in the order of the source) with every tag kept where it is first seen
    and dropped afterwards; so it has no duplicates.  Nothing removes
    duplicates after that: the fallback path returns the first eight of
    the suggested tags followed by the caller's, the error path the first
    eight of the two markers, the suggested tags and the caller's, and
    enrichment returns tags that are not empty as they are.  So the tags of
    a result are free of duplicates on the fallback path when the caller
    supplies none. *)
Theorem suggestTags_set_like (toLowerCase : jsstring -> jsstring)
  (rules : PromptRules) (tm : TemplateManager) (prompt codexOutput : jsstring)
  (context : option jsstring) (callerTags : option (list jsstring))
  (error : CodexCLIError) (result : RefinedPromptOutput) :
  let lowerPrompt := toLowerCase prompt in
  let rule (keywords : list jsstring) (tag : jsstring) : list jsstring :=
    if existsb (includes lowerPrompt) keywords then [tag] else [] in
  let pushed :=
    List.filter (Templates.matchesCommonTag toLowerCase lowerPrompt)
                (common_tags rules)
    ++ rule [js "api"; js "rest"; js "endpoint"] (js "api")
    ++ rule [js "test"; js "unit"; js "integration"] (js "testes")
    ++ rule [js "performance"; js "otimiz"; js "speed"] (js "performance") in
  let pushedV2 :=
    List.filter (TemplatesV2.matchesCommonTag toLowerCase lowerPrompt)
                (common_tags rules)
    ++ rule [js "api"; js "rest"; js "endpoint"] (js "api")
    ++ rule [js "test"; js "unit"; js "integration"] (js "testes")
    ++ rule [js "performance"; js "otimiz"; js "speed"] (js "performance")
    ++ rule [js "script"; js "automat"] (js "automação")
    ++ rule [js "csv"; js "postgres"; js "database"] (js "dados")
    ++ rule [js "desenvolv"; js "criar"; js "implement"] (js "desenvolvimento") in
  (Templates.suggestTags toLowerCase rules prompt = firstOccurrences pushed
   /\ List.NoDup (Templates.suggestTags toLowerCase rules prompt))
  /\ (TemplatesV2.suggestTags toLowerCase rules prompt = firstOccurrences pushedV2
      /\ List.NoDup (TemplatesV2.suggestTags toLowerCase rules prompt))
  /\ tags (createFallbackOutput tm prompt codexOutput context callerTags)
     = take 8 (suggestTags tm prompt ++ default [] callerTags)
  /\ tags (createErrorFallbackOutput tm prompt error context callerTags)
     = take 8 (js "fallback" :: js "offline"
               :: suggestTags tm prompt ++ default [] callerTags)
  /\ (tags result <> [] -> tags (enrichOutput tm result prompt) = tags result)
  /\ List.NoDup
       (tags (createFallbackOutput (Templates.templateManager toLowerCase rules)
                prompt codexOutput context None))
  /\ List.NoDup
       (tags (createFallbackOutput (TemplatesV2.templateManager toLowerCase rules)
                prompt codexOutput context None)).
Proof.
  cbv zeta.
  split; [split; [|apply Set_from_NoDup]|].
  { unfold Templates.suggestTags. cbv zeta.
    rewrite Set_from_firstOccurrences, !pushIf_app. cbn [existsb].
    rewrite !orb_false_r, <- !app_assoc, !orb_assoc. reflexivity. }
  split; [split; [|apply Set_from_NoDup]|].
  { unfold TemplatesV2.suggestTags. cbv zeta.
    rewrite Set_from_firstOccurrences, !pushIf_app. cbn [existsb].
    rewrite !orb_false_r, <- !app_assoc, !orb_assoc. reflexivity. }
  split; [reflexivity|]. split; [reflexivity|].
  split.
  { intros Htags. cbn [enrichOutput tags].
    destruct (tags result); [contradiction|reflexivity]. }
  split.
  - cbn [createFallbackOutput tags default from_option]. rewrite app_nil_r.
    apply take_NoDup, Set_from_NoDup.
  - cbn [createFallbackOutput tags default from_option]. rewrite app_nil_r.
    apply take_NoDup, Set_from_NoDup.
Qed.

(** C8, the claim as worded, fails on the request of the manual test: the
    caller's "api" repeats the suggested one, on the fallback path and on the
    error path. *)
Lemma tags_not_set_like :
  option_map tags
    (runCodexCLI managerV2 requestApi [StdoutData (js "I cannot answer."); Close (Some 0%Z)])
  = Some [js "api"; js "desenvolvimento"; js "api"; js "rest"]
  /\ option_map tags
       (runCodexCLI managerV2 requestApi
          [ProcessError (js "spawn codex ENOENT"); Close (Some (-2)%Z)])
     = Some [js "fallback"; js "offline"; js "api"; js "desenvolvimento";
             js "api"; js "rest"]
  /\ ~ List.NoDup [js "api"; js "desenvolvimento"; js "api"; js "rest"].
Proof.
  split; [vm_compute; reflexivity|].
  split; [vm_compute; reflexivity|].
  intros H. inversion H as [|? ? Hnotin _]; subst.
  apply Hnotin. right. left. reflexivity.
Qed.

(** *** [JSON.parse] never runs out of fuel *)

Lemma skipSpace_length s : (length (JSON.skipSpace s) <= length s)%nat.
Proof.
  induction s as [|c s IH]; cbn [JSON.skipSpace]; [lia|].
  destruct (JSON.isSpace c); cbn [length]; lia.
Qed.

Lemma parseChars_length_upto n : forall s cs rest,
  (length s <= n)%nat ->
  JSON.parseChars s = Some (cs, rest) -> (length rest < length s)%nat.
Proof.
  induction n as [|n IHn]; intros s cs rest Hn H;
    (destruct s as [|c s1]; [discriminate|]); cbn [length] in Hn; [lia|].
  assert (IH : forall s' cs' rest', (length s' <= n)%nat ->
               JSON.parseChars s' = Some (cs', rest') ->
               (length rest' < length s')%nat) by exact IHn.
  clear IHn.
  cbn [JSON.parseChars] in H.
  destruct (c =? 34).
  { injection H as <- <-. cbn [length]. lia. }
  destruct (c =? 92).
  { destruct s1 as [|e s2]; [discriminate|].
    destruct (e =? 117).
    - destruct s2 as [|h1 [|h2 [|h3 [|h4 s3]]]]; try discriminate.
      destruct (JSON.hexDigit h1), (JSON.hexDigit h2), (JSON.hexDigit h3),
        (JSON.hexDigit h4); try discriminate.
      destruct (JSON.parseChars s3) as [[cs' rest']|] eqn:Hrec; [|discriminate].
      injection H as <- <-. apply IH in Hrec; cbn [length] in *; lia.
    - destruct (JSON.escape e); [|discriminate].
      destruct (JSON.parseChars s2) as [[cs' rest']|] eqn:Hrec; [|discriminate].
      injection H as <- <-. apply IH in Hrec; cbn [length] in *; lia. }
  destruct (c <? 32); [discriminate|].
  destruct (JSON.parseChars s1) as [[cs' rest']|] eqn:Hrec; [|discriminate].
  injection H as <- <-. apply IH in Hrec; cbn [length] in *; lia.
Qed.

Lemma parseChars_length s cs rest :
  JSON.parseChars s = Some (cs, rest) -> (length rest < length s)%nat.
Proof. apply (parseChars_length_upto (length s)). lia. Qed.

Lemma digits_length s : (length (snd (JSON.digits s)) <= length s)%nat.
Proof.
  induction s as [|c s IH]; cbn [JSON.digits]; [cbn; lia|].
  destruct (JSON.isDigit c); [|cbn; lia].
  destruct (JSON.digits s) as [ds rest]. cbn [snd length] in *. lia.
Qed.

Lemma digits1_length s ds rest :
  JSON.digits1 s = Some (ds, rest) -> (length rest <= length s)%nat.
Proof.
  unfold JSON.digits1. pose proof (digits_length s) as Hd.
  destruct (JSON.digits s) as [[|d ds'] rest']; [discriminate|].
  intros H. injection H as <- <-. exact Hd.
Qed.

Lemma parseNumber_length s lexeme rest :
  JSON.parseNumber s = Some (lexeme, rest) -> (length rest <= length s)%nat.
Proof.
  unfold JSON.parseNumber.
  set (signed := match s with
                 | [] => ([], s)
                 | c :: r => if c =? 45 then ([c], r) else ([], s)
                 end).
  assert (Hsigned : (length (snd signed) <= length s)%nat).
  { subst signed. destruct s as [|c r]; [cbn; lia|].
    destruct (c =? 45); cbn; lia. }
  destruct signed as [sign s1]. cbn [snd] in Hsigned.
  destruct s1 as [|d r]; [discriminate|].
  set (int := if d =? 48 then Some ([d], r)
              else if JSON.isDigit d
                   then let '(ds, r') := JSON.digits r in Some (d :: ds, r')
                   else None).
  assert (Hint : forall ip s2, int = Some (ip, s2) -> (length s2 <= length r)%nat).
  { subst int. intros ip s2. destruct (d =? 48).
    - intros H. injection H as <- <-. lia.
    - destruct (JSON.isDigit d); [|discriminate].
      pose proof (digits_length r) as Hd.
      destruct (JSON.digits r) as [ds r']. intros H. injection H as <- <-.
      exact Hd. }
  destruct int as [[ip s2]|]; [|discriminate].
  specialize (Hint ip s2 eq_refl).
  match goal with
  | |- context [match ?frac with Some _ => _ | None => None end] =>
    assert (Hfrac : forall fp s3, frac = Some (fp, s3) -> (length s3 <= length s2)%nat)
  end.
  { intros fp s3. destruct s2 as [|c r2].
    - intros H. injection H as <- <-. lia.
    - destruct (c =? 46).
      + destruct (JSON.digits1 r2) as [[fs r3]|] eqn:Hd; [|discriminate].
        apply digits1_length in Hd. intros H. injection H as <- <-.
        cbn [length]. lia.
      + intros H. injection H as <- <-. lia. }
  match goal with
  | |- context [match ?frac with Some _ => _ | None => None end] =>
    destruct frac as [[fp s3]|]; [|discriminate]
  end.
  specialize (Hfrac fp s3 eq_refl).
  match goal with
  | |- context [match ?exp with Some _ => _ | None => None end] =>
    assert (Hexp : forall ep s4, exp = Some (ep, s4) -> (length s4 <= length s3)%nat)
  end.
  { intros ep s4. destruct s3 as [|c r3].
    - intros H. injection H as <- <-. lia.
    - destruct ((c =? 101) || (c =? 69)).
      + set (sg := match r3 with
                   | [] => ([], r3)
                   | g :: r4 => if (g =? 43) || (g =? 45) then ([g], r4) else ([], r3)
                   end).
        assert (Hsg : (length (snd sg) <= length r3)%nat).
        { subst sg. destruct r3 as [|g r4]; [cbn; lia|].
          destruct ((g =? 43) || (g =? 45)); cbn; lia. }
        destruct sg as [sgn r4]. cbn [snd] in Hsg.
        destruct (JSON.digits1 r4) as [[es r5]|] eqn:Hd; [|discriminate].
        apply digits1_length in Hd. intros H. injection H as <- <-.
        cbn [length]. lia.
      + intros H. injection H as <- <-. lia. }
  match goal with
  | |- context [match ?exp with Some _ => _ | None => None end] =>
    destruct exp as [[ep s4]|]; [|discriminate]
  end.
  specialize (Hexp ep s4 eq_refl).
  intros H. injection H as <- <-. cbn [length] in *. lia.
Qed.

Lemma skipSpace_cons s c r :
  JSON.skipSpace s = c :: r -> (length r + 1 <= length s)%nat.
Proof.
  intros H. pose proof (skipSpace_length s) as Hl. rewrite H in Hl.
  cbn [length] in Hl. lia.
Qed.

Local Ltac step H := rewrite H; cbv beta iota.

Local Ltac refuel f' :=
  intros f' ?; destruct f' as [|f']; [lia|];
  cbn [JSON.parseValue JSON.parseElements JSON.parseMembers].

Lemma parse_fuel_enough (f : nat) :
  (forall s v r, JSON.parseValue f s = Some (v, r) ->
     (length r <= length s)%nat
     /\ forall f', (2 * (length s - length r) + 1 <= f')%nat ->
                   JSON.parseValue f' s = Some (v, r))
  /\ (forall s vs r, JSON.parseElements f s = Some (vs, r) ->
     (length r + 1 <= length s)%nat
     /\ forall f', (2 * (length s - length r) <= f')%nat ->
                   JSON.parseElements f' s = Some (vs, r))
  /\ (forall s ms r, JSON.parseMembers f s = Some (ms, r) ->
     (length r + 1 <= length s)%nat
     /\ forall f', (2 * (length s - length r) <= f')%nat ->
                   JSON.parseMembers f' s = Some (ms, r)).
Proof.
  induction f as [|f (IHv & IHe & IHm)]; [repeat split; discriminate|].
  split; [|split].
  - intros s v r H. cbn [JSON.parseValue] in H.
    destruct (JSON.skipSpace s) as [|c r0] eqn:Hs; [discriminate|].
    apply skipSpace_cons in Hs as Hls.
    destruct (c =? 123) eqn:E1.
    { destruct (JSON.skipSpace r0) as [|c' r'] eqn:Hs'; [discriminate|].
      apply skipSpace_cons in Hs' as Hls'.
      destruct (c' =? 125) eqn:E2.
      - injection H as <- <-. split; [lia|]. refuel f'.
        step Hs; step E1; step Hs'; step E2. reflexivity.
      - destruct (JSON.parseMembers f r0) as [[ms rest]|] eqn:Hm; [|discriminate].
        injection H as <- <-. destruct (IHm _ _ _ Hm) as [Hlen Hfuel].
        split; [lia|]. refuel f'.
        step Hs; step E1; step Hs'; step E2. rewrite Hfuel by lia. reflexivity. }
    destruct (c =? 91) eqn:E3.
    { destruct (JSON.skipSpace r0) as [|c' r'] eqn:Hs'; [discriminate|].
      apply skipSpace_cons in Hs' as Hls'.
      destruct (c' =? 93) eqn:E2.
      - injection H as <- <-. split; [lia|]. refuel f'.
        step Hs; step E1; step E3; step Hs'; step E2. reflexivity.
      - destruct (JSON.parseElements f r0) as [[vs rest]|] eqn:He; [|discriminate].
        injection H as <- <-. destruct (IHe _ _ _ He) as [Hlen Hfuel].
        split; [lia|]. refuel f'.
        step Hs; step E1; step E3; step Hs'; step E2. rewrite Hfuel by lia.
        reflexivity. }
    destruct (c =? 34) eqn:E4.
    { destruct (JSON.parseChars r0) as [[cs rest]|] eqn:Hc; [|discriminate].
      injection H as <- <-. apply parseChars_length in Hc as Hlc.
      split; [lia|]. refuel f'.
      step Hs; step E1; step E3; step E4; step Hc. reflexivity. }
    destruct (startsWith (c :: r0) (js "true")) eqn:E5.
    { injection H as <- <-.
      pose proof (length_skipn 3 r0) as Hsk.
      split; [lia|]. refuel f'.
      step Hs; step E1; step E3; step E4; step E5. reflexivity. }
    destruct (startsWith (c :: r0) (js "false")) eqn:E6.
    { injection H as <- <-.
      pose proof (length_skipn 4 r0) as Hsk.
      split; [lia|]. refuel f'.
      step Hs; step E1; step E3; step E4; step E5; step E6. reflexivity. }
    destruct (startsWith (c :: r0) (js "null")) eqn:E7.
    { injection H as <- <-.
      pose proof (length_skipn 3 r0) as Hsk.
      split; [lia|]. refuel f'.
      step Hs; step E1; step E3; step E4; step E5; step E6; step E7. reflexivity. }
    destruct (JSON.parseNumber (c :: r0)) as [[lexeme rest]|] eqn:Hn; [|discriminate].
    injection H as <- <-. apply parseNumber_length in Hn as Hln.
    cbn [length] in Hln. split; [lia|]. refuel f'.
    step Hs; step E1; step E3; step E4; step E5; step E6; step E7; step Hn.
    reflexivity.
  - intros s vs r H. cbn [JSON.parseElements] in H.
    destruct (JSON.parseValue f s) as [[v r1]|] eqn:Hv; [|discriminate].
    destruct (IHv _ _ _ Hv) as [Hlv Hfv].
    destruct (JSON.skipSpace r1) as [|c r'] eqn:Hs; [discriminate|].
    apply skipSpace_cons in Hs as Hls.
    destruct (c =? 93) eqn:E1.
    { injection H as <- <-. split; [lia|]. refuel f'.
      rewrite Hfv by lia. step Hs; step E1. reflexivity. }
    destruct (c =? 44) eqn:E2; [|discriminate].
    destruct (JSON.parseElements f r') as [[vs' rest]|] eqn:He; [|discriminate].
    injection H as <- <-. destruct (IHe _ _ _ He) as [Hle Hfe].
    split; [lia|]. refuel f'.
    rewrite Hfv by lia. step Hs; step E1; step E2. rewrite Hfe by lia. reflexivity.
  - intros s ms r H. cbn [JSON.parseMembers] in H.
    destruct (JSON.skipSpace s) as [|q r0] eqn:Hs0; [discriminate|].
    apply skipSpace_cons in Hs0 as Hls0.
    destruct (q =? 34) eqn:E0; [|discriminate].
    destruct (JSON.parseChars r0) as [[key r1]|] eqn:Hk; [|discriminate].
    apply parseChars_length in Hk as Hlk.
    destruct (JSON.skipSpace r1) as [|colon r2] eqn:Hs1; [discriminate|].
    apply skipSpace_cons in Hs1 as Hls1.
    destruct (colon =? 58) eqn:E1; [|discriminate].
    destruct (JSON.parseValue f r2) as [[v r3]|] eqn:Hv; [|discriminate].
    destruct (IHv _ _ _ Hv) as [Hlv Hfv].
    destruct (JSON.skipSpace r3) as [|c r4] eqn:Hs3; [discriminate|].
    apply skipSpace_cons in Hs3 as Hls3.
    destruct (c =? 125) eqn:E2.
    { injection H as <- <-. split; [lia|]. refuel f'.
      step Hs0; step E0; step Hk; step Hs1; step E1. rewrite Hfv by lia.
      step Hs3; step E2. reflexivity. }
    destruct (c =? 44) eqn:E3; [|discriminate].
    destruct (JSON.parseMembers f r4) as [[ms' rest]|] eqn:Hm; [|discriminate].
    injection H as <- <-. destruct (IHm _ _ _ Hm) as [Hlm Hfm].
    split; [lia|]. refuel f'.
    step Hs0; step E0; step Hk; step Hs1; step E1. rewrite Hfv by lia.
    step Hs3; step E2; step E3. rewrite Hfm by lia. reflexivity.
Qed.

(** Whatever fuel a parse succeeds with, [JSON.parse] succeeds with its
    own: its [None] is a syntax error, never a lack of fuel. *)
Lemma JSON_parse_complete fuel text v rest :
  JSON.parseValue fuel text = Some (v, rest) ->
  JSON.skipSpace rest = [] ->
  JSON.parse text = Some v.
Proof.
  intros Hv Hrest. unfold JSON.parse.
  destruct (parse_fuel_enough fuel) as (Hf & _ & _).
  destruct (Hf _ _ _ Hv) as [Hlen Hfuel].
  rewrite Hfuel by lia. rewrite Hrest. reflexivity.
Qed.

(** *** The validated path *)

Lemma Zod_parse_strings l :
  Zod.parse (Zod.z_array Zod.z_string) (JArray (map JString l))
  = Some (JArray (map JString l)).
Proof.
  cbn [Zod.parse]. induction l as [|x l IH]; [reflexivity|].
  cbn [map option_map] in *.
  match type of IH with
  | option_map _ ?e = _ => destruct e eqn:He; [|discriminate IH]
  end.
  cbn [option_map] in IH. injection IH as ->. reflexivity.
Qed.

Lemma Zod_parse_object_nil members :
  Zod.parse (Zod.z_object []) (JObject members) = Some (JObject []).
Proof. reflexivity. Qed.

Lemma Zod_parse_object_cons key sc shape members v y ys :
  JSON.getProperty members key = Some v ->
  Zod.parse sc v = Some y ->
  Zod.parse (Zod.z_object shape) (JObject members) = Some (JObject ys) ->
  Zod.parse (Zod.z_object ((key, sc) :: shape)) (JObject members)
  = Some (JObject ((key, y) :: ys)).
Proof.
  intros Hget Hv Hrest. cbn [Zod.parse] in *. rewrite Hget, Hv.
  match type of Hrest with
  | option_map _ ?e = _ => destruct e eqn:He; [|discriminate Hrest]
  end.
  cbn [option_map] in *. injection Hrest as ->. reflexivity.
Qed.

Lemma strings_map l : strings (map JString l) = Some l.
Proof.
  induction l as [|x l IH]; [reflexivity|].
  cbn [map strings]. rewrite IH. reflexivity.
Qed.

(** Reading a validated value back gives the record. *)
Lemma asRefinedPromptOutput_refinedJson r :
  asRefinedPromptOutput (refinedJson r) = Some r.
Proof.
  destruct r as [ip ra ri ta [se ac ch]].
  unfold asRefinedPromptOutput, refinedJson.
  cbn [improvedPrompt rationale risks tags metadata sections acceptanceCriteria
       checklist].
  replace (getString _ (js "improvedPrompt")) with (Some ip)
    by (vm_compute; reflexivity).
  replace (getString _ (js "rationale")) with (Some ra)
    by (vm_compute; reflexivity).
  replace (getStrings _ (js "risks")) with (strings (map JString ri))
    by (vm_compute; reflexivity).
  replace (getStrings _ (js "tags")) with (strings (map JString ta))
    by (vm_compute; reflexivity).
  replace (getObject _ (js "metadata")) with
    (Some (JObject
       [(js "sections", JArray (map JString se));
        (js "acceptanceCriteria", JArray (map JString ac));
        (js "checklist", JArray (map JString ch))]))
    by (vm_compute; reflexivity).
  rewrite !strings_map.
  replace (getStrings _ (js "sections")) with (strings (map JString se))
    by (vm_compute; reflexivity).
  replace (getStrings _ (js "acceptanceCriteria")) with (strings (map JString ac))
    by (vm_compute; reflexivity).
  replace (getStrings _ (js "checklist")) with (strings (map JString ch))
    by (vm_compute; reflexivity).
  rewrite !strings_map. reflexivity.
Qed.

Lemma Zod_parse_string_inv v y :
  Zod.parse Zod.z_string v = Some y -> exists s, y = JString s.
Proof. destruct v; cbn; intros H; inversion H; eauto. Qed.

Lemma Zod_parse_strings_inv v y :
  Zod.parse (Zod.z_array Zod.z_string) v = Some y ->
  exists l, y = JArray (map JString l).
Proof.
  destruct v as [| | | |items|]; cbn [Zod.parse]; try discriminate.
  revert y. induction items as [|x items IH]; intros y H.
  - cbn in H. injection H as <-. exists []. reflexivity.
  - destruct x as [| | |s| |]; try discriminate H.
    match type of H with
    | option_map _ (match ?e with _ => _ end) = _ =>
      destruct e as [ys|] eqn:Hys
    end; [|discriminate H].
    destruct (IH (JArray ys)) as [l Hl]; [reflexivity|].
    injection Hl as ->. injection H as <-. exists (s :: l). reflexivity.
Qed.

Lemma Zod_parse_object_cons_inv key sc shape data validated :
  Zod.parse (Zod.z_object ((key, sc) :: shape)) data = Some validated ->
  exists members v y ys,
    data = JObject members
    /\ JSON.getProperty members key = Some v
    /\ Zod.parse sc v = Some y
    /\ Zod.parse (Zod.z_object shape) data = Some (JObject ys)
    /\ validated = JObject ((key, y) :: ys).
Proof.
  intros H. destruct data as [| | | | |members]; try discriminate H.
  cbn [Zod.parse] in H.
  destruct (JSON.getProperty members key) as [v|] eqn:Hv; [|discriminate H].
  destruct (Zod.parse sc v) as [y|] eqn:Hy; [|discriminate H].
  match type of H with
  | context [match ?e with _ => _ end] => destruct e as [ys|] eqn:Hys
  end; [|discriminate H].
  cbn [option_map] in H. injection H as <-.
  exists members, v, y, ys. repeat split; try assumption.
  exact (f_equal (option_map JObject) Hys).
Qed.

Lemma Zod_parse_object_nil_inv data validated :
  Zod.parse (Zod.z_object []) data = Some validated -> validated = JObject [].
Proof.
  destruct data; cbn; try discriminate. intros H. injection H as <-. reflexivity.
Qed.

(** X21. A value [CodexOutputSchema] lets through is a record: the cast of
    [tryParseJSONOutput] cannot fail. *)
Lemma validatedOutput_refinedJson output validated :
  validatedOutput output = Some validated ->
  exists r, validated = refinedJson r /\ tryParseJSONOutput output = Some r.
Proof.
  intros Hvalid. unfold tryParseJSONOutput. rewrite Hvalid.
  unfold validatedOutput in Hvalid.
  destruct (jsonMatch output) as [matched|]; [|discriminate].
  destruct (JSON.parse matched) as [parsedOutput|]; [|discriminate].
  unfold CodexOutputSchema in Hvalid.
  apply Zod_parse_object_cons_inv in Hvalid
    as (ms & v1 & y1 & ys1 & -> & _ & H1 & Hvalid & ->).
  apply Zod_parse_object_cons_inv in Hvalid
    as (? & v2 & y2 & ys2 & _ & _ & H2 & Hvalid & E); injection E as ->.
  apply Zod_parse_object_cons_inv in Hvalid
    as (? & v3 & y3 & ys3 & _ & _ & H3 & Hvalid & E); injection E as ->.
  apply Zod_parse_object_cons_inv in Hvalid
    as (? & v4 & y4 & ys4 & _ & _ & H4 & Hvalid & E); injection E as ->.
  apply Zod_parse_object_cons_inv in Hvalid
    as (? & v5 & y5 & ys5 & _ & _ & H5 & Hvalid & E); injection E as ->.
  apply Zod_parse_object_nil_inv in Hvalid. injection Hvalid as ->.
  apply Zod_parse_string_inv in H1 as [ip ->].
  apply Zod_parse_string_inv in H2 as [ra ->].
  apply Zod_parse_strings_inv in H3 as [ri ->].
  apply Zod_parse_strings_inv in H4 as [ta ->].
  apply Zod_parse_object_cons_inv in H5
    as (mm & w1 & z1 & zs1 & -> & _ & M1 & H5 & ->).
  apply Zod_parse_object_cons_inv in H5
    as (? & w2 & z2 & zs2 & _ & _ & M2 & H5 & E); injection E as ->.
  apply Zod_parse_object_cons_inv in H5
    as (? & w3 & z3 & zs3 & _ & _ & M3 & H5 & E); injection E as ->.
  apply Zod_parse_object_nil_inv in H5. injection H5 as ->.
  apply Zod_parse_strings_inv in M1 as [se ->].
  apply Zod_parse_strings_inv in M2 as [ac ->].
  apply Zod_parse_strings_inv in M3 as [ch ->].
  exists {| improvedPrompt := ip; rationale := ra; risks := ri; tags := ta;
            metadata := {| sections := se; acceptanceCriteria := ac;
                           checklist := ch |} |}.
  split; [reflexivity|].
  apply (asRefinedPromptOutput_refinedJson
           {| improvedPrompt := ip; rationale := ra; risks := ri; tags := ta;
              metadata := {| sections := se; acceptanceCriteria := ac;
                             checklist := ch |} |}).
Qed.



(** The members that are dropped in the witness. *)
Example chattyOutput_members :
  option_map
    (fun v => match v with JObject ms => map fst ms | _ => [] end)
    (match jsonMatch chattyOutput with
     | Some matched => JSON.parse matched
     | None => None
     end)
  = Some [js "confidence"; js "improvedPrompt"; js "rationale"; js "risks";
          js "tags"; js "notes"; js "metadata"].
Proof. vm_compute. reflexivity. Qed.

(** A required property of the wrong type is a validation failure: the
    fallback path is taken. *)
Example tryParseJSONOutput_wrong_type :
  tryParseJSONOutput
    (jsq "{'improvedPrompt':'x','rationale':'y','risks':'r1','tags':['t1'],'metadata':{'sections':['s1'],'acceptanceCriteria':['a1'],'checklist':['c1']}}")
  = None.
Proof. vm_compute. reflexivity. Qed.




(** *** The invariant of the result *)

(** X3. What enrichment restores: every field but the tags, which stay empty
    when the prompt suggests none. *)
Lemma enrichOutput_fields (tm : TemplateManager) (result : RefinedPromptOutput)
  (originalPrompt : jsstring) :
  originalPrompt <> [] ->
  let enriched := enrichOutput tm result originalPrompt in
  improvedPrompt enriched <> []
  /\ rationale enriched <> []
  /\ risks enriched <> []
  /\ sections (metadata enriched) <> []
  /\ acceptanceCriteria (metadata enriched) <> []
  /\ checklist (metadata enriched) <> []
  /\ (tags enriched = [] <->
      tags result = [] /\ suggestTags tm originalPrompt = []).
Proof.
  intros Hprompt. cbv zeta.
  destruct result as [ip ra ri ta [se ac ch]].
  cbn [enrichOutput improvedPrompt rationale risks tags metadata sections
       acceptanceCriteria checklist].
  repeat split.
  - destruct ip; cbn [truthy negb orb]; [assumption|].
    destruct (eqb _ _); [assumption|discriminate].
  - destruct ra; cbn [truthy negb orb]; [vm_compute; discriminate|].
    destruct (eqb _ _); [vm_compute; discriminate|discriminate].
  - destruct ri; cbn; [vm_compute|]; discriminate.
  - destruct se; cbn; [vm_compute|]; discriminate.
  - destruct ac; cbn; [vm_compute|]; discriminate.
  - destruct ch; cbn; [vm_compute|]; discriminate.
  - destruct ta; cbn in *; [reflexivity|discriminate].
  - destruct ta; cbn in *; [assumption|discriminate].
  - intros [-> Hs]. cbn. exact Hs.
Qed.

(** The error fallback is returned as it is built, without enrichment; its
    strings, risks and tags are never empty. *)
Lemma createErrorFallbackOutput_fields (tm : TemplateManager)
  (originalPrompt : jsstring) (error : CodexCLIError)
  (context : option jsstring) (callerTags : option (list jsstring)) :
  let result :=
    createErrorFallbackOutput tm originalPrompt error context callerTags in
  improvedPrompt result <> [] /\ rationale result <> []
  /\ risks result <> [] /\ tags result <> []
  /\ metadata result
     = getTemplateMetadata tm (detectTemplate tm originalPrompt).
Proof.
  cbv zeta. cbn [createErrorFallbackOutput improvedPrompt rationale risks tags metadata].
  repeat split; try discriminate.
  intros H. apply app_eq_nil in H as [_ H]. vm_compute in H. discriminate.
Qed.


(** The error fallback keeps the sections of the rule document, also an
    empty list, which a result that went through [enrichOutput] would not
    have. *)
Example createErrorFallbackOutput_empty_sections :
  option_map (fun r => sections (metadata r))
    (runCodexCLI (TemplatesV2.templateManager toLowerCaseLatin1 rulesWithoutSections)
       (request (js "hello") None)
       [ProcessError (js "spawn codex ENOENT"); Close (Some (-2)%Z)])
  = Some []
  /\ option_map (fun r => sections (metadata r))
       (runCodexCLI (TemplatesV2.templateManager toLowerCaseLatin1 rulesWithoutSections)
          (request (js "hello") None)
          [StdoutData (js "I cannot answer."); Close (Some 0%Z)])
     = Some [js "Plan"; js "Risks"; js "Next actions"; js "Tests"].
Proof. vm_compute. split; reflexivity. Qed.

(** C1 fails on the tags.  For a prompt none of whose words is a tag
    keyword, an answer without JSON gives a result whose tags are empty:
    [enrichOutput] fills empty tags with [suggestTags], which is empty too.
    The same happens when the subprocess answers with an empty tags array. *)
Theorem runCodexCLI_empty_tags :
  option_map tags
    (runCodexCLI managerV2 (request (js "hello") None)
       [StdoutData (js "I cannot answer."); Close (Some 0%Z)])
  = Some []
  /\ option_map tags
       (runCodexCLI managerV1 (request (js "hello") None)
          [StdoutData (js "I cannot answer."); Close (Some 0%Z)])
     = Some []
  /\ option_map tags
       (runCodexCLI managerV2 (request (js "hello") None)
          [StdoutData (jsq "{'improvedPrompt':'x','rationale':'y','risks':['r1'],'tags':[],'metadata':{'sections':['s1'],'acceptanceCriteria':['a1'],'checklist':['c1']}}");
           Close (Some 0%Z)])
     = Some [].
Proof. vm_compute. repeat split; reflexivity. Qed.

(** * Further properties *)

(** ** Further properties of enrichment *)

(** X1. Enrichment is idempotent: enriching a result a second time, for the
    same prompt, changes nothing. *)
Theorem enrichOutput_idempotent (tm : TemplateManager)
  (result : RefinedPromptOutput) (originalPrompt : jsstring) :
  enrichOutput tm (enrichOutput tm result originalPrompt) originalPrompt
  = enrichOutput tm result originalPrompt.
Proof.
  destruct result as [ip ra ri ta [se ac ch]].
  unfold enrichOutput.
  cbn [improvedPrompt rationale risks tags metadata sections
       acceptanceCriteria checklist].
  assert (Hdefault :
    negb (truthy (js "Prompt processado com refinamento automático."))
    || eqb (trim (js "Prompt processado com refinamento automático.")) [] = false)
    by (vm_compute; reflexivity).
  destruct (negb (truthy ip) || eqb (trim ip) []) eqn:E1;
    destruct (negb (truthy ra) || eqb (trim ra) []) eqn:E2;
    rewrite ?E1, ?E2, ?Hdefault;
    destruct ri, ta, se, ac, ch; cbn [length Nat.eqb];
    try destruct (negb (truthy originalPrompt) || eqb (trim originalPrompt) []);
    try destruct (suggestTags tm originalPrompt); reflexivity.
Qed.

(** X2. Enrichment leaves a complete result as it is: when the two strings
    are not blank and the five sequences are not empty, the result comes
    back unchanged, whatever the prompt. *)
Theorem enrichOutput_complete (tm : TemplateManager)
  (result : RefinedPromptOutput) (originalPrompt : jsstring)
  (HimprovedPrompt : trim (improvedPrompt result) <> [])
  (Hrationale : trim (rationale result) <> [])
  (Hrisks : risks result <> [])
  (Htags : tags result <> [])
  (Hsections : sections (metadata result) <> [])
  (HacceptanceCriteria : acceptanceCriteria (metadata result) <> [])
  (Hchecklist : checklist (metadata result) <> []) :
  enrichOutput tm result originalPrompt = result.
Proof.
  destruct result as [ip ra ri ta [se ac ch]].
  cbn [improvedPrompt rationale risks tags metadata sections acceptanceCriteria
       checklist] in *.
  unfold enrichOutput.
  cbn [improvedPrompt rationale risks tags metadata sections acceptanceCriteria
       checklist].
  apply blank_false_iff in HimprovedPrompt, Hrationale.
  rewrite HimprovedPrompt, Hrationale.
  destruct ri; [contradiction|]. destruct ta; [contradiction|].
  destruct se; [contradiction|]. destruct ac; [contradiction|].
  destruct ch; [contradiction|]. reflexivity.
Qed.

Lemma enrichOutput_complete_witness :
  enrichOutput managerV1 AiProviders.mockResponse (js "hello")
  = AiProviders.mockResponse.
Proof.
  apply (enrichOutput_complete managerV1 AiProviders.mockResponse (js "hello"));
    vm_compute; discriminate.
Defined.

(** ** Further properties of the extraction of the JSON text *)

Lemma throughLast_spec c s :
  match throughLast c s with
  | Some body =>
    exists inner post, body = inner ++ [c] /\ s = body ++ post /\ ~ In c post
  | None => ~ In c s
  end.
Proof.
  induction s as [|x s IH]; cbn [throughLast]; [intros []|].
  destruct (throughLast c s) as [body|].
  - destruct IH as (inner & post & -> & -> & Hpost).
    exists (x :: inner), post. auto.
  - destruct (x =? c) eqn:E.
    + apply N.eqb_eq in E as ->. exists [], s. auto.
    + apply N.eqb_neq in E. intros [H|H]; [congruence|contradiction].
Qed.

Lemma throughLast_absent c s : ~ In c s -> throughLast c s = None.
Proof.
  intros H. pose proof (throughLast_spec c s) as Hs.
  destruct (throughLast c s) as [body|]; [|reflexivity].
  destruct Hs as (inner & post & -> & -> & _). exfalso. apply H.
  rewrite !in_app_iff. left. right. left. reflexivity.
Qed.

Lemma throughLast_last c inner post :
  ~ In c post -> throughLast c (inner ++ c :: post) = Some (inner ++ [c]).
Proof.
  intros H. induction inner as [|x inner IH]; cbn [app throughLast].
  - rewrite (throughLast_absent c post H), N.eqb_refl. reflexivity.
  - rewrite IH. reflexivity.
Qed.

Lemma jsonMatch_inv output : forall matched,
  jsonMatch output = Some matched ->
  exists before inner after,
    output = before ++ 123 :: inner ++ 125 :: after
    /\ ~ In 123 before /\ ~ In 125 after
    /\ matched = 123 :: inner ++ [125].
Proof.
  induction output as [|c rest IH]; intros matched H; [discriminate|].
  cbn [jsonMatch] in H. destruct (c =? 123) eqn:E.
  - apply N.eqb_eq in E as ->.
    pose proof (throughLast_spec 125 rest) as Hs.
    destruct (throughLast 125 rest) as [body|]; [|discriminate].
    injection H as <-. destruct Hs as (inner & post & -> & -> & Hpost).
    exists [], inner, post. rewrite <- app_assoc. cbn [app]. auto.
  - apply N.eqb_neq in E.
    destruct (IH _ H) as (before & inner & after & -> & Hb & Ha & ->).
    exists (c :: before), inner, after. repeat split; auto.
    intros [Hc|Hc]; [congruence|contradiction].
Qed.

Lemma jsonMatch_intro before inner after :
  ~ In 123 before -> ~ In 125 after ->
  jsonMatch (before ++ 123 :: inner ++ 125 :: after) = Some (123 :: inner ++ [125]).
Proof.
  intros Hb Ha. induction before as [|x before IH]; cbn [app jsonMatch].
  - rewrite N.eqb_refl, (throughLast_last 125 inner after Ha). reflexivity.
  - destruct (x =? 123) eqn:E.
    + apply N.eqb_eq in E. exfalso. apply Hb. left. exact E.
    + apply IH. intros H. apply Hb. right. exact H.
Qed.

Lemma jsonMatch_no_brace output : ~ In 123 output -> jsonMatch output = None.
Proof.
  intros H. destruct (jsonMatch output) as [m|] eqn:E; [|reflexivity].
  apply jsonMatch_inv in E as (before & inner & after & -> & _).
  exfalso. apply H. rewrite in_app_iff. right. left. reflexivity.
Qed.

(** X4. The regular expression of [tryParseJSONOutput] matches exactly the
    text from the first opening brace of the output to its last closing
    brace, when one follows the other: every brace between them is part of
    the match, so an output with two objects is matched as one text. *)
Theorem jsonMatch_first_to_last (output matched : jsstring) :
  jsonMatch output = Some matched
  <-> exists before inner after,
        output = before ++ 123 :: inner ++ 125 :: after
        /\ ~ In 123 before /\ ~ In 125 after
        /\ matched = 123 :: inner ++ [125].
Proof.
  split; [apply jsonMatch_inv|].
  intros (before & inner & after & -> & Hb & Ha & ->).
  apply jsonMatch_intro; assumption.
Qed.

Example jsonMatch_two_objects :
  jsonMatch (jsq "{'a': 1} and {'b': 2}") = Some (jsq "{'a': 1} and {'b': 2}")
  /\ tryParseJSONOutput (scenarioB ++ js " or " ++ scenarioB) = None.
Proof. vm_compute. split; reflexivity. Qed.

(** ** Further properties of [executeCodexCommand] *)

(** X9. When a running process closes with exit code 0 the promise
    resolves with everything it wrote to standard output, concatenated and
    trimmed; what it wrote to standard error plays no part, the timer is
    cleared and no signal is sent, whatever happens afterwards. *)
Theorem executeCodexCommand_resolves (model systemPrompt userPrompt : jsstring)
  (running later : list Event)
  (Hrunning : Forall (fun ev => isOutput ev = true) running) :
  let st := executeCodexCommand model systemPrompt userPrompt
              (running ++ Close (Some 0%Z) :: later) in
  promise st = Resolved (trim (stdoutOf running))
  /\ timeout st = Cleared
  /\ killSignals st = [].
Proof. apply promise_after_exit_zero, Hrunning. Qed.

Lemma executeCodexCommand_resolves_witness :
  let st := executeCodexCommand (js "gpt-5") (js "system") (js "user")
              ([StdoutData (js "  {}"); StderrData (js "warning");
                StdoutData (js "
")] ++ Close (Some 0%Z) :: [TimeoutElapsed]) in
  promise st
  = Resolved (trim (stdoutOf [StdoutData (js "  {}"); StderrData (js "warning");
                              StdoutData (js "
")]))
  /\ timeout st = Cleared
  /\ killSignals st = [].
Proof.
  apply (executeCodexCommand_resolves (js "gpt-5") (js "system") (js "user")).
  repeat constructor.
Defined.

(** X7. The promise is settled once: whatever the first close, error or
    timer expiry decided stays, whichever events follow. *)
Theorem executeCodexCommand_settles_once (model systemPrompt userPrompt : jsstring)
  (events later : list Event)
  (Hsettled :
     promise (executeCodexCommand model systemPrompt userPrompt events) <> Pending) :
  promise (executeCodexCommand model systemPrompt userPrompt (events ++ later))
  = promise (executeCodexCommand model systemPrompt userPrompt events).
Proof.
  unfold executeCodexCommand in *. rewrite runEvents_app.
  apply runEvents_settled, Hsettled.
Qed.

Lemma executeCodexCommand_settles_once_witness :
  promise (executeCodexCommand (js "gpt-5") [] []
             ([TimeoutElapsed] ++ [StdoutData (js "{}"); Close (Some 0%Z)]))
  = promise (executeCodexCommand (js "gpt-5") [] [] [TimeoutElapsed]).
Proof.
  apply (executeCodexCommand_settles_once (js "gpt-5") [] [] [TimeoutElapsed]).
  vm_compute. discriminate.
Defined.

Lemma handle_signal_invariant st ev :
  (killSignals st = [] /\ (timeout st = Armed \/ timeout st = Cleared))
  \/ (killSignals st = [SIGTERM] /\ timeout st = Fired /\ promise st <> Pending) ->
  (killSignals (handle st ev) = []
   /\ (timeout (handle st ev) = Armed \/ timeout (handle st ev) = Cleared))
  \/ (killSignals (handle st ev) = [SIGTERM] /\ timeout (handle st ev) = Fired
      /\ promise (handle st ev) <> Pending).
Proof.
  intros Hst.
  destruct (uncaughtException st) as [m|] eqn:Hu;
    [rewrite (handle_dead st ev m Hu); exact Hst|].
  destruct Hst as [[Hk Ht]|(Hk & Ht & Hp)].
  - destruct ev as [d|d|c|m| |m].
    + left. unfold handle. rewrite Hu. cbn. auto.
    + left. unfold handle. rewrite Hu. cbn. auto.
    + left. destruct (handle_close_timer st c Hu) as [Hc Hkc].
      rewrite Hkc, Hc, Hk. split; [reflexivity|].
      destruct Ht as [-> | ->]; cbn; auto.
    + left. unfold handle. rewrite Hu. cbn. auto.
    + unfold handle. rewrite Hu. destruct Ht as [Ht|Ht]; rewrite Ht.
      * right. cbn. rewrite Hk. repeat split.
        destruct (promise st); cbn; discriminate.
      * left. rewrite Hk, Ht. auto.
    + left. unfold handle. rewrite Hu. cbn. auto.
  - right. destruct (handle_disarmed st ev) as [Ht' Hk']; [congruence|].
    rewrite Ht', Hk', handle_settled by assumption. auto.
Qed.

(** After the [close] event of the child nothing sends a signal. *)
Lemma killSignals_after_close st exitCode later :
  killSignals (runEvents st (Close exitCode :: later)) = killSignals st.
Proof.
  rewrite runEvents_cons.
  destruct (uncaughtException st) as [m|] eqn:Hu.
  - rewrite (handle_dead st _ m Hu), (runEvents_dead later st m Hu). reflexivity.
  - destruct (handle_close_timer st exitCode Hu) as [Hc Hkc].
    destruct (runEvents_disarmed later (handle st (Close exitCode))) as [_ Hk].
    + rewrite Hc. destruct (timeout st); discriminate.
    + rewrite Hk, Hkc. reflexivity.
Qed.

(** X8. At most one signal is ever sent: either none was sent and the timer
    is set or cleared, or exactly one SIGTERM was sent, the timer has fired
    and the promise is settled.  And no signal is sent to a child that has
    closed: from its [close] event on, whatever follows, the signals are
    those sent before. *)
Theorem executeCodexCommand_one_signal (model systemPrompt userPrompt : jsstring)
  (events : list Event) :
  let st := executeCodexCommand model systemPrompt userPrompt events in
  ((killSignals st = [] /\ (timeout st = Armed \/ timeout st = Cleared))
   \/ (killSignals st = [SIGTERM] /\ timeout st = Fired /\ promise st <> Pending))
  /\ forall exitCode later,
       killSignals (executeCodexCommand model systemPrompt userPrompt
                      (events ++ Close exitCode :: later))
       = killSignals st.
Proof.
  cbv zeta. unfold executeCodexCommand. split.
  - assert (H0 : let st := spawned model systemPrompt userPrompt in
      (killSignals st = [] /\ (timeout st = Armed \/ timeout st = Cleared))
      \/ (killSignals st = [SIGTERM] /\ timeout st = Fired /\ promise st <> Pending))
      by (left; cbn; auto).
    cbv zeta in H0. revert H0.
    generalize (spawned model systemPrompt userPrompt) as st.
    induction events as [|ev events IH]; intros st Hst; [exact Hst|].
    rewrite runEvents_cons. apply IH, handle_signal_invariant, Hst.
  - intros exitCode later. rewrite runEvents_app.
    apply killSignals_after_close.
Qed.

(** X11. The availability probe answers true exactly when its invocation
    resolves: exit code 0 is enough, whatever the process printed, and each
    of the three failures gives false; it has no answer while the process
    only prints, and it never has one when the write to the input of the
    child raises an error first, since nothing listens for it and the node
    process ends. *)
Theorem testCodexAvailability_outcomes (running later : list Event)
  (Hrunning : Forall (fun ev => isOutput ev = true) running) :
  testCodexAvailability running = None
  /\ testCodexAvailability (running ++ Close (Some 0%Z) :: later) = Some true
  /\ (forall exitCode, exitCode <> Some 0%Z ->
      testCodexAvailability (running ++ Close exitCode :: later) = Some false)
  /\ (forall errorMessage,
      testCodexAvailability (running ++ ProcessError errorMessage :: later)
      = Some false)
  /\ testCodexAvailability (running ++ TimeoutElapsed :: later) = Some false
  /\ (forall errorMessage,
      testCodexAvailability (running ++ StdinError errorMessage :: later) = None).
Proof.
  unfold testCodexAvailability.
  split.
  { unfold executeCodexCommand.
    destruct (runEvents_output running (spawned (js "gpt-5")
                (js "Test system availability.") (js "Hello")) eq_refl Hrunning)
      as (Hp & _). rewrite Hp. reflexivity. }
  split.
  { destruct (promise_after_exit_zero (js "gpt-5") (js "Test system availability.")
                (js "Hello") running later Hrunning) as (Hp & _).
    rewrite Hp. reflexivity. }
  split.
  { intros exitCode Hcode.
    rewrite (promise_after_failure _ _ _ running (Close exitCode) later
               (exitError exitCode (stderrOf running)) Hrunning); [reflexivity|].
    destruct exitCode as [[|q|q]|]; try reflexivity. congruence. }
  split.
  { intros errorMessage.
    rewrite (promise_after_failure _ _ _ running (ProcessError errorMessage) later
               (spawnError errorMessage) Hrunning); reflexivity. }
  split.
  { rewrite (promise_after_failure _ _ _ running TimeoutElapsed later
               timeoutError Hrunning); reflexivity. }
  intros errorMessage.
  destruct (promise_after_stdin_error (js "gpt-5") (js "Test system availability.")
              (js "Hello") running errorMessage later Hrunning) as (Hp & _).
  rewrite Hp. reflexivity.
Qed.

Lemma testCodexAvailability_outcomes_witness :
  testCodexAvailability [StderrData (js "warming up")] = None
  /\ testCodexAvailability ([StderrData (js "warming up")] ++ Close (Some 0%Z) :: [])
     = Some true
  /\ (forall exitCode, exitCode <> Some 0%Z ->
      testCodexAvailability ([StderrData (js "warming up")] ++ Close exitCode :: [])
      = Some false)
  /\ (forall errorMessage,
      testCodexAvailability
        ([StderrData (js "warming up")] ++ ProcessError errorMessage :: [])
      = Some false)
  /\ testCodexAvailability ([StderrData (js "warming up")] ++ TimeoutElapsed :: [])
     = Some false
  /\ (forall errorMessage,
      testCodexAvailability
        ([StderrData (js "warming up")] ++ StdinError errorMessage :: [])
      = None).
Proof.
  apply (testCodexAvailability_outcomes [StderrData (js "warming up")] []).
  repeat constructor.
Defined.

Lemma jsonMatch_no_closing s : ~ In 125 s -> jsonMatch s = None.
Proof.
  intros H. destruct (jsonMatch s) as [m|] eqn:E; [|reflexivity].
  apply jsonMatch_inv in E as (before & inner & after & -> & _).
  exfalso. apply H. rewrite in_app_iff. right. right.
  rewrite in_app_iff. right. left. reflexivity.
Qed.

(** ** Further properties of the fallback path *)

Lemma trimStart_In x s : In x (trimStart s) -> In x s.
Proof.
  induction s as [|c s IH]; cbn [trimStart]; [tauto|].
  destruct (isWhiteSpace c); [|tauto]. intros H. right. apply IH, H.
Qed.

Lemma trim_In x s : In x (trim s) -> In x s.
Proof.
  unfold trim, trimEnd. intros H.
  apply in_rev, trimStart_In, in_rev, trimStart_In in H. exact H.
Qed.

Lemma fallbackRationale_not_blank :
  negb (truthy fallbackRationale) || eqb (trim fallbackRationale) [] = false.
Proof. vm_compute. reflexivity. Qed.

Section FallbackPath.

Variable tm : TemplateManager.

(** X5. An answer without an opening brace takes the fallback path: when a
    running process prints such a text and closes with exit code 0, the
    result is the enriched heuristic reconstruction, its rationale is the
    fixed fallback message and its risks are not empty. *)
Theorem runCodexCLI_narrative (request : CodexRequest.t)
  (running later : list Event)
  (Hrunning : Forall (fun ev => isOutput ev = true) running)
  (Hnarrative : ~ In 123 (stdoutOf running)) :
  exists result,
    runCodexCLI tm request (running ++ Close (Some 0%Z) :: later) = Some result
    /\ result
       = enrichOutput tm
           (createFallbackOutput tm (CodexRequest.prompt request)
              (trim (stdoutOf running)) (CodexRequest.context request)
              (CodexRequest.tags request))
           (CodexRequest.prompt request)
    /\ rationale result = fallbackRationale
    /\ (0 < length (risks result))%nat.
Proof.
  unfold runCodexCLI, awaited.
  match goal with
  | |- context [executeCodexCommand ?m ?s ?u _] =>
    destruct (promise_after_exit_zero m s u running later Hrunning) as (Hp & _)
  end.
  rewrite Hp. cbn [afterCodex].
  assert (Hnone : tryParseJSONOutput (trim (stdoutOf running)) = None).
  { unfold tryParseJSONOutput, validatedOutput.
    rewrite jsonMatch_no_brace; [reflexivity|].
    intros H. apply Hnarrative, trim_In, H. }
  rewrite Hnone. eexists. split; [reflexivity|]. split; [reflexivity|].
  cbn [enrichOutput rationale risks createFallbackOutput].
  rewrite fallbackRationale_not_blank. split; [reflexivity|].
  destruct (identifyRisks tm (CodexRequest.prompt request)); cbn; lia.
Qed.

(** X6. On the fallback path enrichment changes neither the improved
    prompt nor the rationale nor the risks, and the tags only when there are
    none: the reconstruction has at most eight tags and at least one risk
    whatever the template manager returns. *)
Theorem createFallbackOutput_enriched (originalPrompt codexOutput : jsstring)
  (context : option jsstring) (callerTags : option (list jsstring)) :
  let result :=
    createFallbackOutput tm originalPrompt codexOutput context callerTags in
  let enriched := enrichOutput tm result originalPrompt in
  (0 < length (risks result))%nat
  /\ (length (tags result) <= 8)%nat
  /\ improvedPrompt enriched = improvedPrompt result
  /\ rationale enriched = rationale result
  /\ risks enriched = risks result
  /\ tags enriched
     = match tags result with
       | [] => suggestTags tm originalPrompt
       | _ => tags result
       end.
Proof.
  cbv zeta.
  pose proof (createFallbackOutput_choice tm originalPrompt codexOutput context
                callerTags) as Hchoice.
  pose proof (nonBlankLines_truthy codexOutput) as Hlines.
  split; [cbn [createFallbackOutput risks];
          destruct (identifyRisks tm originalPrompt); cbn; lia|].
  split; [cbn [createFallbackOutput tags]; rewrite length_take; lia|].
  split.
  { cbn [enrichOutput improvedPrompt]. rewrite Hchoice.
    destruct (List.find (substantial originalPrompt) (nonBlankLines codexOutput))
      as [line|] eqn:Hfind.
    - apply find_some in Hfind as [Hin _].
      destruct (Hlines line Hin) as [-> ->]. reflexivity.
    - destruct (nonBlankLines codexOutput) as [|first rest].
      + destruct (_ || _); reflexivity.
      + destruct (Hlines first) as [-> ->]; [left; reflexivity|reflexivity]. }
  split.
  { cbn [enrichOutput rationale createFallbackOutput].
    rewrite fallbackRationale_not_blank. reflexivity. }
  split.
  { cbn [enrichOutput risks createFallbackOutput].
    destruct (identifyRisks tm originalPrompt); reflexivity. }
  cbn [enrichOutput tags createFallbackOutput].
  destruct (take 8 _); reflexivity.
Qed.

End FallbackPath.

Lemma runCodexCLI_narrative_witness :
  exists result,
    runCodexCLI managerV1 requestApi
      ([StdoutData (js "I am sorry, "); StdoutData (js "I cannot help.")]
       ++ Close (Some 0%Z) :: [])
    = Some result
    /\ result
       = enrichOutput managerV1
           (createFallbackOutput managerV1 (CodexRequest.prompt requestApi)
              (trim (stdoutOf [StdoutData (js "I am sorry, ");
                               StdoutData (js "I cannot help.")]))
              (CodexRequest.context requestApi) (CodexRequest.tags requestApi))
           (CodexRequest.prompt requestApi)
    /\ rationale result = fallbackRationale
    /\ (0 < length (risks result))%nat.
Proof.
  apply (runCodexCLI_narrative managerV1 requestApi
           [StdoutData (js "I am sorry, "); StdoutData (js "I cannot help.")] []).
  - repeat constructor.
  - vm_compute. intuition discriminate.
Defined.

(** ** Further properties of the template engine *)

Lemma In_pushIf c y l x : In x (pushIf c y l) <-> In x l \/ (c = true /\ x = y).
Proof.
  unfold pushIf. destruct c.
  - rewrite in_app_iff. cbn [In]. intuition congruence.
  - intuition congruence.
Qed.

Lemma In_Set_from l x : In x (Set_from l) <-> In x l.
Proof. rewrite Set_from_firstOccurrences. apply firstOccurrences_In. Qed.

Section TwoCopies.

Variable toLowerCase : jsstring -> jsstring.
Variable rules : PromptRules.

(** X12. The second copy of [suggestTags] suggests every tag the first copy
    suggests. *)
Theorem suggestTags_V1_in_V2 (prompt tag : jsstring)
  (Hfirst : In tag (Templates.suggestTags toLowerCase rules prompt)) :
  In tag (TemplatesV2.suggestTags toLowerCase rules prompt).
Proof.
  unfold Templates.suggestTags, TemplatesV2.suggestTags in *.
  rewrite In_Set_from in *. rewrite !In_pushIf in *.
  rewrite filter_In in *.
  destruct Hfirst as [[[[Hin Hm]|H]|H]|H]; auto 10.
  left. left. left. left. left. left. split; [exact Hin|].
  unfold Templates.matchesCommonTag in Hm.
  unfold TemplatesV2.matchesCommonTag. cbv zeta. rewrite Hm. reflexivity.
Qed.

Lemma identifyRisks_V2_nonempty_In prompt risk :
  In risk
    (pushIf (includes (toLowerCase prompt) (js "backup")
             || includes (toLowerCase prompt) (js "recovery")
             || includes (toLowerCase prompt) (js "restore")
             || includes (toLowerCase prompt) (js "recuper"))
       (js "Implementar estratégia de recuperação em caso de falha")
    (pushIf (includes (toLowerCase prompt) (js "arquivo")
             || includes (toLowerCase prompt) (js "file")
             || includes (toLowerCase prompt) (js "salvar")
             || includes (toLowerCase prompt) (js "gravar"))
       (js "Verificar permissões de acesso a arquivos")
    (pushIf (includes (toLowerCase prompt) (js "api")
             || includes (toLowerCase prompt) (js "external")
             || includes (toLowerCase prompt) (js "terceiro")
             || includes (toLowerCase prompt) (js "http")
             || includes (toLowerCase prompt) (js "rest")
             || includes (toLowerCase prompt) (js "endpoint"))
       (js "Dependência de serviços externos pode falhar")
    (pushIf (includes (toLowerCase prompt) (js "database")
             || includes (toLowerCase prompt) (js "sql")
             || includes (toLowerCase prompt) (js "dados")
             || includes (toLowerCase prompt) (js "csv")
             || includes (toLowerCase prompt) (js "postgres")
             || includes (toLowerCase prompt) (js "validação"))
       (js "Validação de dados de entrada necessária")
    (pushIf (includes (toLowerCase prompt) (js "loop")
             || includes (toLowerCase prompt) (js "recursão")
             || includes (toLowerCase prompt) (js "grande volume")
             || includes (toLowerCase prompt) (js "many")
             || includes (toLowerCase prompt) (js "milhões")
             || includes (toLowerCase prompt) (js "lote"))
       (js "Possível impacto na performance com grandes volumes")
    (pushIf (includes (toLowerCase prompt) (js "password")
             || includes (toLowerCase prompt) (js "secret")
             || includes (toLowerCase prompt) (js "token")
             || includes (toLowerCase prompt) (js "auth")
             || includes (toLowerCase prompt) (js "login")
             || includes (toLowerCase prompt) (js "senha"))
       (js "Dados sensíveis podem estar expostos") [])))))) ->
  In risk (TemplatesV2.identifyRisks toLowerCase prompt).
Proof.
  unfold TemplatesV2.identifyRisks. cbv zeta.
  match goal with
  | |- In _ ?l -> _ => generalize l
  end.
  intros l Hin. destruct l; [destruct Hin|exact Hin].
Qed.

(** X13. The second copy of [identifyRisks] reports every risk the first
    copy reports: its keyword sets contain those of the first copy. *)
Theorem identifyRisks_V1_in_V2 (prompt risk : jsstring)
  (Hfirst : In risk (Templates.identifyRisks toLowerCase prompt)) :
  In risk (TemplatesV2.identifyRisks toLowerCase prompt).
Proof.
  apply identifyRisks_V2_nonempty_In.
  unfold Templates.identifyRisks in Hfirst. cbv zeta in Hfirst.
  rewrite !In_pushIf in *. cbn [In] in *.
  destruct Hfirst as [[[[[]|[Hc ->]]|[Hc ->]]|[Hc ->]]|[Hc ->]].
  - left. left. left. left. left. right. rewrite Hc. auto.
  - left. left. left. left. right. rewrite Hc. auto.
  - left. left. left. right. rewrite Hc. auto.
  - left. left. right. rewrite Hc. auto.
Qed.

End TwoCopies.

Lemma suggestTags_V1_in_V2_witness :
  In (js "api") (suggestTags managerV2 (CodexRequest.prompt requestApi)).
Proof.
  apply (suggestTags_V1_in_V2 toLowerCaseLatin1 getDefaultRules
           (CodexRequest.prompt requestApi) (js "api")).
  vm_compute. left. reflexivity.
Defined.

Lemma identifyRisks_V1_in_V2_witness :
  In (js "Dependência de serviços externos pode falhar")
     (identifyRisks managerV2 (CodexRequest.prompt requestApi)).
Proof.
  apply (identifyRisks_V1_in_V2 toLowerCaseLatin1
           (CodexRequest.prompt requestApi)
           (js "Dependência de serviços externos pode falhar")).
  vm_compute. left. reflexivity.
Defined.

(** The second copy says more: it finds risks and tags where the first
    finds none. *)
Example second_copy_says_more :
  identifyRisks managerV1 promptA = []
  /\ suggestTags managerV1 promptA = []
  /\ identifyRisks managerV2 promptA = [js "Validação de dados de entrada necessária"]
  /\ suggestTags managerV2 promptA = [js "automação"; js "dados"].
Proof. vm_compute. repeat split; reflexivity. Qed.

Lemma identifyRisks_V2_triggered (toLowerCase : jsstring -> jsstring)
  (prompt : jsstring) :
  TemplatesV2.identifyRisks toLowerCase prompt
  = match triggeredAdvisories (toLowerCase prompt) with
    | [] => [TemplatesV2.genericRisk]
    | advisories => advisories
    end.
Proof.
  unfold TemplatesV2.identifyRisks, triggeredAdvisories, riskCategories.
  cbn [List.filter map fst snd existsb].
  rewrite !orb_false_r, !orb_assoc.
  set (lp := toLowerCase prompt).
  repeat match goal with
         | |- context [pushIf ?c _ _] =>
           lazymatch c with
           | orb _ _ => generalize c; intro
           end
         end.
  clearbody lp.
  generalize TemplatesV2.genericRisk; intros g.
  repeat match goal with
         | |- context [js ?lit] => generalize (js lit); intro
         end.
  repeat match goal with
         | b : bool |- _ => destruct b
         end; reflexivity.
Qed.

Lemma riskAdvisories_NoDup : List.NoDup (map snd riskCategories).
Proof.
  unfold riskCategories. cbn [map snd].
  repeat (constructor;
          [cbn [In]; intros H;
           repeat (destruct H as [H|H]; [vm_compute in H; discriminate H|]);
           exact H|]).
  constructor.
Qed.

Lemma map_filter_NoDup {A B} (f : A -> B) (p : A -> bool) l :
  List.NoDup (map f l) -> List.NoDup (map f (List.filter p l)).
Proof.
  induction l as [|x l IH]; cbn [map List.filter]; [auto|].
  intros H. inversion H as [|? ? Hx Hl]; subst.
  destruct (p x); [|auto]. cbn [map]. constructor; [|auto].
  intros Hin. apply Hx. apply in_map_iff in Hin as (y & Hy & Hin).
  apply filter_In in Hin as [Hin _]. apply in_map_iff. eauto.
Qed.

Lemma filter_length_le {A} (p : A -> bool) l :
  (length (List.filter p l) <= length l)%nat.
Proof.
  induction l as [|x l IH]; cbn [List.filter length]; [lia|].
  destruct (p x); cbn [length]; lia.
Qed.

(** X14. The second [identifyRisks] never repeats an advisory and never
    returns more than six. *)
Theorem identifyRisks_distinct (toLowerCase : jsstring -> jsstring)
  (prompt : jsstring) :
  List.NoDup (TemplatesV2.identifyRisks toLowerCase prompt)
  /\ (length (TemplatesV2.identifyRisks toLowerCase prompt) <= 6)%nat.
Proof.
  rewrite identifyRisks_V2_triggered.
  assert (Hnodup : List.NoDup (triggeredAdvisories (toLowerCase prompt)))
    by (apply map_filter_NoDup, riskAdvisories_NoDup).
  assert (Hlen : (length (triggeredAdvisories (toLowerCase prompt)) <= 6)%nat).
  { unfold triggeredAdvisories. rewrite length_map.
    etransitivity; [apply filter_length_le|]. cbn. lia. }
  destruct (triggeredAdvisories (toLowerCase prompt)) as [|a l].
  - split; [repeat constructor; intros []|cbn; lia].
  - split; assumption.
Qed.

(** X15. Every tag [suggestTags] returns is a tag of the rule document or
    one of the fixed tags of the keyword rules: three in the first copy, six
    in the second. *)
Theorem suggestTags_origin (toLowerCase : jsstring -> jsstring)
  (rules : PromptRules) (prompt tag : jsstring) :
  (In tag (Templates.suggestTags toLowerCase rules prompt) ->
   In tag (common_tags rules)
   \/ In tag [js "api"; js "testes"; js "performance"])
  /\ (In tag (TemplatesV2.suggestTags toLowerCase rules prompt) ->
      In tag (common_tags rules)
      \/ In tag [js "api"; js "testes"; js "performance"; js "automação";
                 js "dados"; js "desenvolvimento"]).
Proof.
  unfold Templates.suggestTags, TemplatesV2.suggestTags.
  rewrite !In_Set_from, !In_pushIf, !filter_In. cbn [In].
  split; intros H; repeat (destruct H as [H|H]); intuition auto.
Qed.

(** X16. [getTemplateMetadata] always gives acceptance criteria and a
    checklist; its sections are empty only when the rule document has the
    template and lists no section for it. *)
Theorem getTemplateMetadata_empty_sections (rules : PromptRules)
  (templateName : jsstring) :
  let md := Templates.getTemplateMetadata rules templateName in
  (0 < length (acceptanceCriteria md))%nat
  /\ (0 < length (checklist md))%nat
  /\ (sections md = []
      <-> exists template,
            templates rules !! templateName = Some template
            /\ template_sections template = Some []).
Proof.
  cbv zeta. unfold Templates.getTemplateMetadata.
  destruct (templates rules !! templateName) as [template|].
  - cbn [acceptanceCriteria checklist sections length].
    split; [lia|]. split; [lia|]. split.
    + intros H. exists template. split; [reflexivity|].
      destruct (template_sections template) as [s|]; [congruence|].
      vm_compute in H. discriminate H.
    + intros (t & Ht & Hs). injection Ht as <-. rewrite Hs. reflexivity.
  - cbn [acceptanceCriteria checklist sections length].
    split; [lia|]. split; [lia|]. split.
    + intros H. vm_compute in H. discriminate H.
    + intros (t & Ht & _). discriminate Ht.
Qed.

(** X17. Under the built-in rule document [detectTemplate] names one of two
    templates, and only the development one is defined: a development prompt
    gets the five development sections, a data prompt the four default
    ones. *)
Theorem detectTemplate_default_metadata (toLowerCase : jsstring -> jsstring)
  (prompt : jsstring) :
  let name := Templates.detectTemplate toLowerCase prompt in
  (name = js "software_development"
   /\ sections (Templates.getTemplateMetadata getDefaultRules name)
      = [js "Análise de Requisitos"; js "Arquitetura Proposta";
         js "Implementação"; js "Testes"; js "Documentação"])
  \/ (name = js "data_processing"
      /\ Templates.getTemplateMetadata getDefaultRules name
         = {| sections := [js "Plan"; js "Risks"; js "Next actions"; js "Tests"];
              acceptanceCriteria :=
                [js "Funcionalidade implementada corretamente";
                 js "Testes passando"; js "Documentação atualizada"];
              checklist :=
                [js "Revisar código"; js "Executar testes";
                 js "Validar requisitos"] |}).
Proof.
  cbv zeta. unfold Templates.detectTemplate.
  destruct (_ || _); [left; split; [reflexivity|vm_compute; reflexivity]|].
  destruct (_ || _).
  - right. split; [reflexivity|vm_compute; reflexivity].
  - left. split; [reflexivity|vm_compute; reflexivity].
Qed.

(** ** The two orchestrators read the same answers *)

Lemma AiProviders_jsonMatch_no_fence s :
  includes s (js "```json
") = false ->
  AiProviders.jsonMatch s = option_map inr (jsonMatch s).
Proof.
  induction s as [|c rest IH]; intros Hfence; [reflexivity|].
  cbn [includes] in Hfence. apply orb_false_iff in Hfence as [Hhere Hrest].
  cbn [AiProviders.jsonMatch jsonMatch]. rewrite Hhere.
  specialize (IH Hrest).
  destruct (c =? 123).
  - pose proof (throughLast_spec 125 rest) as Hs.
    destruct (throughLast 125 rest) as [body|]; [reflexivity|].
    cbn [option_map]. rewrite IH.
    rewrite jsonMatch_no_closing; [reflexivity|exact Hs].
  - exact IH.
Qed.

(** X20. On an answer without a fenced [json] block the two orchestrators
    agree: [refineWithAI] accepts it exactly when [tryParseJSONOutput] does,
    and both read the same record. *)
Theorem parseOutput_agrees (command output : jsstring) (r : RefinedPromptOutput)
  (Hfence : includes output (js "```json
") = false) :
  AiProviders.parseOutput command output = inl r
  <-> tryParseJSONOutput output = Some r.
Proof.
  unfold AiProviders.parseOutput, tryParseJSONOutput, validatedOutput.
  rewrite (AiProviders_jsonMatch_no_fence output Hfence).
  change AiProviders.RefinedPromptSchema with CodexOutputSchema.
  destruct (jsonMatch output) as [matched|]; cbn [option_map];
    [|split; discriminate].
  destruct (JSON.parse matched) as [parsedJson|]; [|split; discriminate].
  destruct (Zod.parse CodexOutputSchema parsedJson) as [data|];
    [|split; discriminate].
  destruct (asRefinedPromptOutput data) as [r'|]; [|split; discriminate].
  split; intros H; injection H as <-; reflexivity.
Qed.

Lemma parseOutput_agrees_witness :
  AiProviders.parseOutput (js "gemini") chattyOutput = inl resultB
  <-> tryParseJSONOutput chattyOutput = Some resultB.
Proof.
  apply (parseOutput_agrees (js "gemini") chattyOutput resultB).
  vm_compute. reflexivity.
Defined.

(** With a fenced block they differ: [refineWithAI] reads the block, the
    other the text between the outermost braces of the whole answer. *)
Example fenced_block_with_braces_around :
  let output := jsq "{see below}
```json
{'improvedPrompt':'x','rationale':'y','risks':['r1'],'tags':['t1'],'metadata':{'sections':['s1'],'acceptanceCriteria':['a1'],'checklist':['c1']}}
```
" in
  tryParseJSONOutput output = None
  /\ AiProviders.parseOutput (js "codex") output
     = inr (AiProviders.FailedToParse (js "codex") output).
Proof. vm_compute. split; reflexivity. Qed.

(** ** Witnesses *)

Lemma enrichOutput_fields_witness :
  let enriched := enrichOutput managerV2 AiProviders.mockResponse (js "hello") in
  improvedPrompt enriched <> []
  /\ rationale enriched <> []
  /\ risks enriched <> []
  /\ sections (metadata enriched) <> []
  /\ acceptanceCriteria (metadata enriched) <> []
  /\ checklist (metadata enriched) <> []
  /\ (tags enriched = [] <->
      tags AiProviders.mockResponse = []
      /\ suggestTags managerV2 (js "hello") = []).
Proof.
  apply (enrichOutput_fields managerV2 AiProviders.mockResponse (js "hello")).
  vm_compute. discriminate.
Defined.

(** The standard error arrives in two chunks around a chunk of standard
    output. *)
Lemma executeCodexCommand_failures_witness :
  (forall errorMessage,
     promise (executeCodexCommand (js "gpt-5") [] []
                ([StderrData (js "bo"); StdoutData (js "{"); StderrData (js "om")]
                 ++ ProcessError errorMessage :: []))
     = Rejected (spawnError errorMessage))
  /\ (forall exitCode, exitCode <> Some 0%Z ->
      promise (executeCodexCommand (js "gpt-5") [] []
                 ([StderrData (js "bo"); StdoutData (js "{"); StderrData (js "om")]
                  ++ Close exitCode :: []))
      = Rejected
          (exitError exitCode
             (stderrOf [StderrData (js "bo"); StdoutData (js "{");
                        StderrData (js "om")])))
  /\ promise (executeCodexCommand (js "gpt-5") [] []
                ([StderrData (js "bo"); StdoutData (js "{"); StderrData (js "om")]
                 ++ TimeoutElapsed :: []))
     = Rejected timeoutError.
Proof.
  apply (executeCodexCommand_failures (js "gpt-5") [] []
           [StderrData (js "bo"); StdoutData (js "{"); StderrData (js "om")] []).
  repeat constructor.
Defined.

Lemma validatedOutput_refinedJson_witness :
  exists r,
    refinedJson resultB = refinedJson r
    /\ tryParseJSONOutput chattyOutput = Some r.
Proof.
  apply (validatedOutput_refinedJson chattyOutput (refinedJson resultB)).
  vm_compute. reflexivity.
Defined.

(** ** [JSON.stringify] *)

Example stringify_example :
  Stringify.stringify (fun lexeme => lexeme) 0
    (JObject [(js "a", JArray [JString (js "x
y"); JBool true; JNull; JArray []]);
              (js "b", JObject [(js "c", JString ([34; 55357; 56832; 55357; 7]))])])
  = jsq "{
  'a': [
    'x\ny',
    true,
    null,
    []
  ],
  'b': {
    'c': '\'" ++ [55357; 56832] ++ jsq "\ud83d\u0007'
  }
}".
Proof. vm_compute. reflexivity. Qed.

(** ** [JSON.parse] reads back what [JSON.stringify] prints *)

Lemma json_induction (P : json -> Prop) :
  P JNull -> (forall b, P (JBool b)) -> (forall lexeme, P (JNumber lexeme)) ->
  (forall s, P (JString s)) ->
  (forall items, Forall P items -> P (JArray items)) ->
  (forall members, Forall (fun m => P (snd m)) members -> P (JObject members)) ->
  forall v, P v.
Proof.
  intros Hnull Hbool Hnumber Hstring Harray Hobject.
  fix IH 1. intros [| b | lexeme | s | items | members].
  - exact Hnull.
  - apply Hbool.
  - apply Hnumber.
  - apply Hstring.
  - apply Harray. induction items as [|x items IHitems]; constructor.
    + apply IH.
    + exact IHitems.
  - apply Hobject. induction members as [|[k x] members IHmembers]; constructor.
    + apply IH.
    + exact IHmembers.
Qed.

Lemma hexDigit_hexChar d : d < 16 -> JSON.hexDigit (Stringify.hexChar d) = Some d.
Proof.
  intros Hd.
  assert (H : In d [0; 1; 2; 3; 4; 5; 6; 7; 8; 9; 10; 11; 12; 13; 14; 15]).
  { cbn [In].
    destruct d as [|p]; [tauto|].
    do 4 (destruct p as [p|p|]; try lia); tauto. }
  cbn [In] in H.
  repeat (destruct H as [<-|H]; [reflexivity|]). contradiction.
Qed.

Lemma hex_digits c :
  c < 65536 ->
  c / 4096 mod 16 * 4096 + c / 256 mod 16 * 256 + c / 16 mod 16 * 16 + c mod 16 = c.
Proof.
  intros Hc.
  pose proof (N.div_mod' c 16) as H1.
  pose proof (N.div_mod' (c / 16) 16) as H2.
  pose proof (N.div_mod' (c / 256) 16) as H3.
  replace (c / 16 / 16) with (c / 256) in H2
    by (rewrite N.Div0.div_div; reflexivity).
  replace (c / 256 / 16) with (c / 4096) in H3
    by (rewrite N.Div0.div_div; reflexivity).
  assert (H4 : c / 4096 < 16) by (apply N.Div0.div_lt_upper_bound; exact Hc).
  rewrite (N.mod_small (c / 4096) 16) by exact H4.
  lia.
Qed.

Lemma parseChars_unicodeEscape c t cs r :
  c < 65536 ->
  JSON.parseChars t = Some (cs, r) ->
  JSON.parseChars (Stringify.unicodeEscape c ++ t) = Some (c :: cs, r).
Proof.
  intros Hc Ht. unfold Stringify.unicodeEscape.
  cbn [app JSON.parseChars].
  change (92 =? 34) with false. change (92 =? 92) with true.
  change (117 =? 117) with true. cbv beta iota.
  rewrite !hexDigit_hexChar by (apply N.mod_lt; discriminate).
  rewrite Ht, hex_digits by exact Hc. reflexivity.
Qed.

Lemma parseChars_escapeUnit c t cs r :
  c < 65536 ->
  JSON.parseChars t = Some (cs, r) ->
  JSON.parseChars (Stringify.escapeUnit c ++ t) = Some (c :: cs, r).
Proof.
  intros Hc Ht. unfold Stringify.escapeUnit.
  repeat match goal with
  | |- context [if ?x =? ?k then _ else _] =>
    destruct (N.eqb_spec x k) as [->|?];
      [cbn [app JSON.parseChars]; vm_compute (JSON.escape _);
       cbn; rewrite Ht; reflexivity|]
  end.
  destruct ((c <? 32) || Stringify.isLowSurrogate c || Stringify.isHighSurrogate c)
    eqn:E.
  - apply parseChars_unicodeEscape; assumption.
  - apply orb_false_iff in E as [E _]. apply orb_false_iff in E as [E _].
    cbn [app JSON.parseChars].
    destruct (N.eqb_spec c 34); [contradiction|].
    destruct (N.eqb_spec c 92); [contradiction|].
    rewrite E, Ht. reflexivity.
Qed.

Lemma parseChars_unit c t cs r :
  32 <= c -> c <> 34 -> c <> 92 ->
  JSON.parseChars t = Some (cs, r) ->
  JSON.parseChars (c :: t) = Some (c :: cs, r).
Proof.
  intros H32 H34 H92 Ht. cbn [JSON.parseChars].
  destruct (N.eqb_spec c 34); [contradiction|].
  destruct (N.eqb_spec c 92); [contradiction|].
  destruct (N.ltb_spec c 32); [lia|].
  rewrite Ht. reflexivity.
Qed.

Lemma parseChars_quoteBody_upto n s rest :
  (length s <= n)%nat ->
  forallb (fun c => c <? 65536) s = true ->
  JSON.parseChars (Stringify.quoteBody s ++ 34 :: rest) = Some (s, rest).
Proof.
  revert s. induction n as [|n IH]; intros s Hn Hs.
  - destruct s; [reflexivity|cbn in Hn; lia].
  - destruct s as [|c s']; [reflexivity|].
    cbn [forallb] in Hs. apply andb_true_iff in Hs as [Hc Hs'].
    apply N.ltb_lt in Hc. cbn [length] in Hn.
    cbn [Stringify.quoteBody].
    destruct (Stringify.isHighSurrogate c) eqn:Ehigh.
    + destruct s' as [|d s''].
      * apply parseChars_escapeUnit; [exact Hc|reflexivity].
      * destruct (Stringify.isLowSurrogate d) eqn:Elow.
        -- cbn [forallb] in Hs'. apply andb_true_iff in Hs' as [Hd Hs''].
           cbn [length] in Hn. cbn [app].
           unfold Stringify.isHighSurrogate in Ehigh.
           unfold Stringify.isLowSurrogate in Elow.
           apply andb_true_iff in Ehigh as [Eh1 Eh2].
           apply andb_true_iff in Elow as [El1 El2].
           apply N.leb_le in Eh1, Eh2, El1, El2.
           apply parseChars_unit; [lia..|].
           apply parseChars_unit; [lia..|].
           apply IH; [lia|exact Hs''].
        -- rewrite <- app_assoc. apply parseChars_escapeUnit; [exact Hc|].
           apply IH; [lia|exact Hs'].
    + rewrite <- app_assoc. apply parseChars_escapeUnit; [exact Hc|].
      apply IH; [lia|exact Hs'].
Qed.

Lemma parseChars_quote s rest :
  forallb (fun c => c <? 65536) s = true ->
  JSON.parseChars (Stringify.quoteBody s ++ [34] ++ rest) = Some (s, rest).
Proof. apply (parseChars_quoteBody_upto (length s)). lia. Qed.

Lemma skipSpace_blank ws s :
  Forall (fun c => JSON.isSpace c = true) ws ->
  JSON.skipSpace (ws ++ s) = JSON.skipSpace s.
Proof.
  induction 1 as [|c ws Hc _ IH]; [reflexivity|].
  cbn [app JSON.skipSpace]. rewrite Hc. exact IH.
Qed.

Lemma spaces_blank n : Forall (fun c => JSON.isSpace c = true) (Stringify.spaces n).
Proof. induction n; constructor; [reflexivity|assumption]. Qed.

Lemma newline_spaces_blank n :
  Forall (fun c => JSON.isSpace c = true) (10 :: Stringify.spaces n).
Proof. constructor; [reflexivity|apply spaces_blank]. Qed.

Local Ltac literals :=
  change (js "null") with [110; 117; 108; 108] in *;
  change (js "true") with [116; 114; 117; 101] in *;
  change (js "false") with [102; 97; 108; 115; 101] in *;
  change (js "[]") with [91; 93] in *;
  change (js "{}") with [123; 125] in *.

Local Ltac flatten := repeat (progress (cbn [app]; rewrite <- ?app_assoc)).

Lemma startsWith_nil s : startsWith s [] = true.
Proof. destruct s; reflexivity. Qed.

Lemma stringify_head Number_toString indent v :
  Stringify.plain v = true ->
  exists c t, Stringify.stringify Number_toString indent v = c :: t
              /\ JSON.isSpace c = false /\ (c =? 93) = false.
Proof.
  intros Hv.
  destruct v as [| [|] | lexeme | s | [|x items] | [|[k x] members]];
    cbn [Stringify.stringify Stringify.quote app]; literals;
    try discriminate; eauto.
Qed.

Section RoundTrip.

Variable Number_toString : jsstring -> jsstring.

Lemma parseElements_join indent outer items rest :
  items <> [] ->
  Forall (readsBack Number_toString) items ->
  forall ws, Forall (fun c => JSON.isSpace c = true) ws ->
  exists b, forall f, (b <= f)%nat ->
    JSON.parseElements f
      (ws ++ Stringify.join ([44; 10] ++ Stringify.spaces indent)
               (map (Stringify.stringify Number_toString indent) items)
          ++ [10] ++ Stringify.spaces outer ++ 93 :: rest)
    = Some (items, rest).
Proof.
  intros Hne Hitems. induction Hitems as [|x l Hx _ IH]; [contradiction|].
  intros ws Hws. destruct l as [|y l'].
  - cbn [map Stringify.join].
    destruct (Hx indent ws ([10] ++ Stringify.spaces outer ++ 93 :: rest) Hws)
      as [b1 Hb1].
    exists (S b1). intros [|f] Hf; [lia|].
    cbn [JSON.parseElements]. rewrite Hb1 by lia.
    change ([10] ++ Stringify.spaces outer ++ 93 :: rest)
      with ((10 :: Stringify.spaces outer) ++ 93 :: rest).
    rewrite (skipSpace_blank (10 :: Stringify.spaces outer))
      by apply newline_spaces_blank.
    reflexivity.
  - destruct (IH ltac:(discriminate) (10 :: Stringify.spaces indent)
                (newline_spaces_blank indent)) as [b2 Hb2].
    set (tail := Stringify.join _ (map _ (y :: l')) ++ _) in Hb2.
    destruct (Hx indent ws (44 :: (10 :: Stringify.spaces indent) ++ tail) Hws)
      as [b1 Hb1].
    exists (S (Nat.max b1 b2)). intros [|f] Hf; [lia|].
    change (map (Stringify.stringify Number_toString indent) (x :: y :: l'))
      with (Stringify.stringify Number_toString indent x
            :: map (Stringify.stringify Number_toString indent) (y :: l')).
    change (Stringify.join ?sep (?sx :: map ?g (y :: l')))
      with (sx ++ sep ++ Stringify.join sep (map g (y :: l'))).
    rewrite <- !app_assoc.
    cbn [JSON.parseElements].
    change ([44; 10] ++ ?t) with (44 :: (10 :: t)).
    cbn [app] in Hb1 |- *.
    rewrite Hb1 by lia.
    cbn [JSON.skipSpace]. change (JSON.isSpace 44) with false.
    change (44 =? 93) with false. change (44 =? 44) with true. cbv beta iota.
    subst tail. cbn [app] in Hb2. rewrite Hb2 by lia. reflexivity.
Qed.

Lemma parseMembers_member f ws key x indent rest' :
  Forall (fun c => JSON.isSpace c = true) ws ->
  forallb (fun c => c <? 65536) key = true ->
  JSON.parseValue f ([32] ++ Stringify.stringify Number_toString indent x ++ rest')
  = Some (x, rest') ->
  JSON.parseMembers (S f)
    (ws ++ (Stringify.quote key ++ [58; 32]
            ++ Stringify.stringify Number_toString indent x) ++ rest')
  = match JSON.skipSpace rest' with
    | [] => None
    | c :: r4 =>
      if c =? 125 then Some ([(key, x)], r4)
      else if c =? 44 then
        match JSON.parseMembers f r4 with
        | Some (ms, rest) => Some ((key, x) :: ms, rest)
        | None => None
        end
      else None
    end.
Proof.
  intros Hws Hkey Hx.
  replace (ws ++ (Stringify.quote key ++ [58; 32]
                  ++ Stringify.stringify Number_toString indent x) ++ rest')
    with (ws ++ 34 :: Stringify.quoteBody key ++ [34]
             ++ 58 :: [32] ++ Stringify.stringify Number_toString indent x ++ rest')
    by (unfold Stringify.quote; cbn [app]; rewrite <- !app_assoc; reflexivity).
  cbn [JSON.parseMembers].
  rewrite skipSpace_blank by exact Hws.
  cbn [JSON.skipSpace]. change (JSON.isSpace 34) with false. cbv beta iota.
  rewrite N.eqb_refl, parseChars_quote by exact Hkey.
  cbn [JSON.skipSpace]. change (JSON.isSpace 58) with false. cbv beta iota.
  rewrite N.eqb_refl, Hx. reflexivity.
Qed.

Lemma parseMembers_join indent outer members rest :
  members <> [] ->
  Forall (fun m => forallb (fun c => c <? 65536) (fst m) = true /\ readsBack Number_toString (snd m))
         members ->
  forall ws, Forall (fun c => JSON.isSpace c = true) ws ->
  exists b, forall f, (b <= f)%nat ->
    JSON.parseMembers f
      (ws ++ Stringify.join ([44; 10] ++ Stringify.spaces indent)
               (map (fun '(key, x) =>
                       Stringify.quote key ++ [58; 32]
                       ++ Stringify.stringify Number_toString indent x) members)
          ++ [10] ++ Stringify.spaces outer ++ 125 :: rest)
    = Some (members, rest).
Proof.
  intros Hne Hmembers.
  induction Hmembers as [|[k x] l [Hk Hx] _ IH]; [contradiction|].
  cbn [fst snd] in Hk, Hx.
  intros ws Hws. destruct l as [|m l'].
  - cbn [map Stringify.join].
    destruct (Hx indent [32] ([10] ++ Stringify.spaces outer ++ 125 :: rest)
                ltac:(repeat constructor)) as [b1 Hb1].
    exists (S b1). intros [|f] Hf; [lia|].
    rewrite parseMembers_member by (try apply Hb1; try assumption; lia).
    change ([10] ++ Stringify.spaces outer ++ 125 :: rest)
      with ((10 :: Stringify.spaces outer) ++ 125 :: rest).
    rewrite (skipSpace_blank (10 :: Stringify.spaces outer))
      by apply newline_spaces_blank.
    reflexivity.
  - destruct (IH ltac:(discriminate) (10 :: Stringify.spaces indent)
                (newline_spaces_blank indent)) as [b2 Hb2].
    set (tail := Stringify.join _ (map _ (m :: l')) ++ _) in Hb2.
    destruct (Hx indent [32] (44 :: (10 :: Stringify.spaces indent) ++ tail)
                ltac:(repeat constructor)) as [b1 Hb1].
    exists (S (Nat.max b1 b2)). intros [|f] Hf; [lia|].
    change (map ?g ((k, x) :: m :: l')) with (g (k, x) :: map g (m :: l')).
    change (Stringify.join ?sep (?sx :: map ?g (m :: l')))
      with (sx ++ sep ++ Stringify.join sep (map g (m :: l'))).
    cbv beta iota.
    rewrite <- (app_assoc _ _ ([10] ++ Stringify.spaces outer ++ 125 :: rest)).
    rewrite <- (app_assoc ([44; 10] ++ Stringify.spaces indent)).
    rewrite <- (app_assoc [44; 10]).
    change ([44; 10] ++ ?t) with (44 :: (10 :: t)).
    fold tail.
    rewrite parseMembers_member by (try apply Hb1; try assumption; lia).
    cbn [JSON.skipSpace]. change (JSON.isSpace 44) with false.
    change (44 =? 125) with false. change (44 =? 44) with true. cbv beta iota.
    rewrite Hb2 by lia. reflexivity.
Qed.

Lemma join_head (sep first : jsstring) others tail c t :
  first = c :: t ->
  exists t', Stringify.join sep (first :: others) ++ tail = c :: t'.
Proof.
  intros ->. destruct others; cbn [Stringify.join app]; eauto.
Qed.

Lemma parseValue_stringify v : Stringify.plain v = true -> readsBack Number_toString v.
Proof.
  induction v as [| b | lexeme | s | items IH | members IH] using json_induction;
    intros Hplain indent ws rest Hws.
  - exists 1%nat. intros [|f] Hf; [lia|].
    cbn [JSON.parseValue Stringify.stringify].
    rewrite skipSpace_blank by exact Hws. literals. cbn.
    rewrite ?startsWith_nil. reflexivity.
  - exists 1%nat. intros [|f] Hf; [lia|].
    cbn [JSON.parseValue Stringify.stringify].
    rewrite skipSpace_blank by exact Hws. literals.
    destruct b; cbn; rewrite ?startsWith_nil; reflexivity.
  - discriminate Hplain.
  - exists 1%nat. intros [|f] Hf; [lia|].
    cbn [JSON.parseValue Stringify.stringify Stringify.plain] in Hplain |- *.
    rewrite skipSpace_blank by exact Hws.
    unfold Stringify.quote. cbn [app]. rewrite <- app_assoc.
    cbn [JSON.skipSpace].
    change (JSON.isSpace 34) with false. cbv beta iota.
    change (34 =? 123) with false. change (34 =? 91) with false.
    rewrite N.eqb_refl. cbv beta iota.
    rewrite parseChars_quote by exact Hplain. reflexivity.
  - destruct items as [|x l].
    + exists 1%nat. intros [|f] Hf; [lia|].
      cbn [JSON.parseValue Stringify.stringify].
      rewrite skipSpace_blank by exact Hws. literals. cbn.
    rewrite ?startsWith_nil. reflexivity.
    + cbn [Stringify.plain] in Hplain.
      assert (Hreads : Forall (readsBack Number_toString) (x :: l)).
      { clear -IH Hplain. induction IH as [|y l' Hy _ IHl]; constructor;
          cbn [forallb] in Hplain; apply andb_true_iff in Hplain as [H1 H2]; auto. }
      destruct (parseElements_join (indent + 2) indent (x :: l) rest
                  ltac:(discriminate) Hreads (10 :: Stringify.spaces (indent + 2))
                  (newline_spaces_blank _)) as [b Hb].
      exists (S b). intros [|f] Hf; [lia|].
      cbn [forallb] in Hplain. apply andb_true_iff in Hplain as [Hx _].
      destruct (stringify_head Number_toString (indent + 2) x Hx)
        as (c & t & Ex & Hc & Hc93).
      set (tail := [10] ++ Stringify.spaces indent ++ 93 :: rest) in *.
      destruct (join_head ([44; 10] ++ Stringify.spaces (indent + 2)) _
                  (map (Stringify.stringify Number_toString (indent + 2)) l)
                  tail c t Ex) as [t' Et'].
      replace (ws ++ Stringify.stringify Number_toString indent (JArray (x :: l))
                 ++ rest)
        with (ws ++ 91 :: (10 :: Stringify.spaces (indent + 2))
                 ++ Stringify.join ([44; 10] ++ Stringify.spaces (indent + 2))
                      (map (Stringify.stringify Number_toString (indent + 2)) (x :: l))
                 ++ tail)
        by (cbn [Stringify.stringify]; subst tail; flatten; reflexivity).
      cbn [JSON.parseValue].
      rewrite skipSpace_blank by exact Hws.
      cbn [JSON.skipSpace]. change (JSON.isSpace 91) with false. cbv beta iota.
      change (91 =? 123) with false. rewrite N.eqb_refl. cbv beta iota.
      rewrite (skipSpace_blank (10 :: Stringify.spaces (indent + 2)))
        by apply newline_spaces_blank.
      cbn [map]. rewrite Et'. cbn [JSON.skipSpace]. rewrite Hc, Hc93.
      rewrite <- Et'. change (?g x :: map ?g l) with (map g (x :: l)).
      rewrite Hb by lia. reflexivity.
  - destruct members as [|[k x] l].
    + exists 1%nat. intros [|f] Hf; [lia|].
      cbn [JSON.parseValue Stringify.stringify].
      rewrite skipSpace_blank by exact Hws. literals. cbn.
    rewrite ?startsWith_nil. reflexivity.
    + cbn [Stringify.plain] in Hplain.
      assert (Hreads :
        Forall (fun m => forallb (fun c => c <? 65536) (fst m) = true
                         /\ readsBack Number_toString (snd m)) ((k, x) :: l)).
      { clear -IH Hplain. induction IH as [|[k' y] l' Hy _ IHl]; constructor;
          cbn [forallb] in Hplain; apply andb_true_iff in Hplain as [H1 H2];
          [apply andb_true_iff in H1 as [H0 H1]; split; auto|auto]. }
      destruct (parseMembers_join (indent + 2) indent ((k, x) :: l) rest
                  ltac:(discriminate) Hreads (10 :: Stringify.spaces (indent + 2))
                  (newline_spaces_blank _)) as [b Hb].
      exists (S b). intros [|f] Hf; [lia|].
      set (tail := [10] ++ Stringify.spaces indent ++ 125 :: rest) in *.
      set (member := fun '(key, x) =>
             Stringify.quote key ++ [58; 32]
             ++ Stringify.stringify Number_toString (indent + 2) x) in *.
      destruct (join_head ([44; 10] ++ Stringify.spaces (indent + 2))
                  (member (k, x)) (map member l) tail 34
                  (Stringify.quoteBody k ++ [34] ++ [58; 32]
                   ++ Stringify.stringify Number_toString (indent + 2) x))
        as [t' Et'].
      { subst member. unfold Stringify.quote. cbn [app].
        rewrite <- app_assoc. reflexivity. }
      replace (ws ++ Stringify.stringify Number_toString indent (JObject ((k, x) :: l))
                 ++ rest)
        with (ws ++ 123 :: (10 :: Stringify.spaces (indent + 2))
                 ++ Stringify.join ([44; 10] ++ Stringify.spaces (indent + 2))
                      (map member ((k, x) :: l))
                 ++ tail)
        by (cbn [Stringify.stringify]; subst tail member; flatten; reflexivity).
      cbn [JSON.parseValue].
      rewrite skipSpace_blank by exact Hws.
      cbn [JSON.skipSpace]. change (JSON.isSpace 123) with false. cbv beta iota.
      rewrite N.eqb_refl. cbv beta iota.
      rewrite (skipSpace_blank (10 :: Stringify.spaces (indent + 2)))
        by apply newline_spaces_blank.
      cbn [map]. rewrite Et'. cbn [JSON.skipSpace].
      change (JSON.isSpace 34) with false. cbv beta iota.
      change (34 =? 125) with false. cbv beta iota.
      rewrite <- Et'. change (member (k, x) :: map member l)
        with (map member ((k, x) :: l)).
      rewrite Hb by lia. reflexivity.
Qed.

End RoundTrip.

(** X22. [JSON.parse] reads back the value [JSON.stringify(value, null, 2)]
    printed, at any indentation: for every value without a number whose
    strings are strings of 16-bit code units, lone surrogates included. *)
Theorem JSON_parse_stringify Number_toString (indent : nat) (v : json)
  (Hplain : Stringify.plain v = true) :
  JSON.parse (Stringify.stringify Number_toString indent v) = Some v.
Proof.
  destruct (parseValue_stringify Number_toString v Hplain indent [] []
              ltac:(constructor)) as [b Hb].
  apply (JSON_parse_complete b _ _ []); [|reflexivity].
  specialize (Hb b ltac:(lia)). cbn [app] in Hb. rewrite app_nil_r in Hb.
  exact Hb.
Qed.


Lemma JSON_parse_stringify_witness :
  JSON.parse
    (Stringify.stringify (fun lexeme => lexeme) 4
       (JObject [(jsq "a 'key'", JArray [JString [9; 92; 55357; 56832; 56832; 0];
                                         JBool false; JNull; JObject []]);
                 (js "b", JObject [(js "c", JArray [])])]))
  = Some (JObject [(jsq "a 'key'", JArray [JString [9; 92; 55357; 56832; 56832; 0];
                                           JBool false; JNull; JObject []]);
                   (js "b", JObject [(js "c", JArray [])])]).
Proof.
  apply (JSON_parse_stringify (fun lexeme => lexeme) 4).
  vm_compute. reflexivity.
Defined.

(** ** A printed result is read back by the pipeline *)

Lemma Zod_parse_refinedJson r :
  Zod.parse CodexOutputSchema (refinedJson r) = Some (refinedJson r).
Proof.
  unfold CodexOutputSchema, refinedJson.
  repeat (eapply Zod_parse_object_cons;
          [reflexivity
          |first [reflexivity | apply Zod_parse_strings | idtac]
          |]);
    apply Zod_parse_object_nil.
Qed.

Lemma stringify_object_braces Number_toString indent member members :
  JObject (member :: members) <> JObject [] ->
  exists inner,
    Stringify.stringify Number_toString indent (JObject (member :: members))
    = 123 :: inner ++ [125].
Proof.
  intros _. cbn [Stringify.stringify]. destruct member as [key x].
  match goal with
  | |- exists inner, [123; 10] ++ ?a ++ ?b ++ [10] ++ ?c ++ [125] = _ =>
    exists (10 :: a ++ b ++ [10] ++ c)
  end.
  cbn [app]. rewrite <- !app_assoc. reflexivity.
Qed.

Lemma validatedOutput_stringify Number_toString r before after :
  Stringify.plain (refinedJson r) = true ->
  ~ In 123 before -> ~ In 125 after ->
  validatedOutput
    (before ++ Stringify.stringify Number_toString 0 (refinedJson r) ++ after)
  = Some (refinedJson r).
Proof.
  intros Hplain Hbefore Hafter. unfold validatedOutput.
  destruct (parseValue_stringify Number_toString (refinedJson r) Hplain 0%nat [] []
              ltac:(constructor)) as [b Hb].
  specialize (Hb b ltac:(lia)). cbn [app] in Hb. rewrite app_nil_r in Hb.
  apply JSON_parse_complete in Hb; [|reflexivity].
  set (text := Stringify.stringify Number_toString 0 (refinedJson r)) in *.
  assert (Htext : exists inner, text = 123 :: inner ++ [125]).
  { subst text. apply stringify_object_braces. discriminate. }
  destruct Htext as [inner Htext].
  replace (before ++ text ++ after) with (before ++ 123 :: inner ++ 125 :: after)
    by (rewrite Htext; cbn [app]; rewrite <- app_assoc; reflexivity).
  rewrite jsonMatch_intro by assumption.
  rewrite <- Htext, Hb. apply Zod_parse_refinedJson.
Qed.

(** X23. [tryParseJSONOutput] reads back a result printed by
    [JSON.stringify(result, null, 2)], also inside narrative text, provided
    the text before it has no opening brace and the text after it no closing
    brace. *)
Theorem tryParseJSONOutput_stringify (Number_toString : jsstring -> jsstring)
  (r : RefinedPromptOutput) (before after : jsstring)
  (Hplain : Stringify.plain (refinedJson r) = true)
  (Hbefore : ~ In 123 before) (Hafter : ~ In 125 after) :
  tryParseJSONOutput
    (before ++ Stringify.stringify Number_toString 0 (refinedJson r) ++ after)
  = Some r.
Proof.
  unfold tryParseJSONOutput.
  rewrite validatedOutput_stringify by assumption.
  apply asRefinedPromptOutput_refinedJson.
Qed.

Lemma tryParseJSONOutput_stringify_witness :
  tryParseJSONOutput
    (js "Here it is: "
     ++ Stringify.stringify (fun lexeme => lexeme) 0 (refinedJson AiProviders.mockResponse)
     ++ js " Done.")
  = Some AiProviders.mockResponse.
Proof.
  apply (tryParseJSONOutput_stringify (fun lexeme => lexeme) AiProviders.mockResponse
           (js "Here it is: ") (js " Done.")).
  - vm_compute. reflexivity.
  - vm_compute. intuition discriminate.
  - vm_compute. intuition discriminate.
Defined.

(** X24. When a running process prints such a text and closes with exit code
    0, [runCodexCLI] returns the printed result, enriched: no fallback is
    built. *)
Theorem runCodexCLI_structured (tm : TemplateManager)
  (Number_toString : jsstring -> jsstring) (request : CodexRequest.t)
  (running later : list Event) (r : RefinedPromptOutput) (before after : jsstring)
  (Hrunning : Forall (fun ev => isOutput ev = true) running)
  (Hstdout :
     trim (stdoutOf running)
     = before ++ Stringify.stringify Number_toString 0 (refinedJson r) ++ after)
  (Hplain : Stringify.plain (refinedJson r) = true)
  (Hbefore : ~ In 123 before) (Hafter : ~ In 125 after) :
  runCodexCLI tm request (running ++ Close (Some 0%Z) :: later)
  = Some (enrichOutput tm r (CodexRequest.prompt request)).
Proof.
  unfold runCodexCLI, awaited.
  match goal with
  | |- context [executeCodexCommand ?m ?s ?u _] =>
    destruct (promise_after_exit_zero m s u running later Hrunning) as (Hp & _)
  end.
  rewrite Hp. cbn [afterCodex]. rewrite Hstdout.
  unfold tryParseJSONOutput.
  rewrite validatedOutput_stringify by assumption.
  rewrite asRefinedPromptOutput_refinedJson. reflexivity.
Qed.

Lemma runCodexCLI_structured_witness :
  runCodexCLI managerV1 requestApi
    ([StdoutData (js "Result:
"); StderrData (js "warning");
      StdoutData (Stringify.stringify (fun lexeme => lexeme) 0
                    (refinedJson AiProviders.mockResponse));
      StdoutData (js "
")] ++ Close (Some 0%Z) :: [])
  = Some (enrichOutput managerV1 AiProviders.mockResponse
            (CodexRequest.prompt requestApi)).
Proof.
  apply (runCodexCLI_structured managerV1 (fun lexeme => lexeme) requestApi _ []
           AiProviders.mockResponse (js "Result:
") []).
  - repeat constructor.
  - vm_compute. reflexivity.
  - vm_compute. reflexivity.
  - vm_compute. intuition discriminate.
  - intros [].
Defined.

(** ** The handler of the server *)

(** [runCodexCLI] returns as soon as the promise of the child settles, and
    never when the node process has ended before. *)
Lemma runCodexCLI_settles tm request running ev later :
  Forall (fun ev => isOutput ev = true) running ->
  settles ev = true ->
  exists result, runCodexCLI tm request (running ++ ev :: later) = Some result.
Proof.
  intros Hrun Hev. unfold runCodexCLI, awaited.
  assert (Hcases :
    ev = Close (Some 0%Z)
    \/ exists error, failureOf ev (stderrOf running) = Some error).
  { destruct ev as [d|d|c|m| |m]; try discriminate Hev.
    - destruct c as [[|q|q]|]; [left; reflexivity|right; eexists; reflexivity..].
    - right. eexists. reflexivity.
    - right. eexists. reflexivity. }
  destruct Hcases as [-> | [error Hfail]].
  - match goal with
    | |- context [executeCodexCommand ?m ?s ?u _] =>
      destruct (promise_after_exit_zero m s u running later Hrun) as (Hp & _)
    end.
    rewrite Hp. cbn [afterCodex]. eauto.
  - rewrite (promise_after_failure _ _ _ running ev later error Hrun Hfail).
    cbn [afterCodex]. eauto.
Qed.

Lemma runCodexCLI_stdin_error tm request running errorMessage later :
  Forall (fun ev => isOutput ev = true) running ->
  runCodexCLI tm request (running ++ StdinError errorMessage :: later) = None.
Proof.
  intros Hrun. unfold runCodexCLI, awaited.
  match goal with
  | |- context [executeCodexCommand ?m ?s ?u _] =>
    destruct (promise_after_stdin_error m s u running errorMessage later Hrun)
      as (Hp & _)
  end.
  rewrite Hp. reflexivity.
Qed.

Lemma RefinePromptInputSchema_parse_inv input validatedInput :
  Server.RefinePromptInputSchema_parse input = Some validatedInput ->
  Server.inputPrompt input = Some (RefinePromptInput.prompt validatedInput)
  /\ RefinePromptInput.prompt validatedInput <> []
  /\ (Server.inputTags input = None
      \/ exists items, Server.inputTags input = Some (JArray items)).
Proof.
  unfold Server.RefinePromptInputSchema_parse, Server.inputPrompt, Server.inputTags.
  destruct input as [[| | | | |members]|]; try discriminate.
  destruct (JSON.getProperty members (js "prompt")) as [[| | |prompt| |]|];
    try discriminate.
  destruct (Server.optionalString members (js "context")) as [context|];
    [|discriminate].
  unfold Server.optionalStrings.
  destruct (JSON.getProperty members (js "tags")) as [[| | | |items|]|];
    try discriminate.
  - destruct (strings items) as [l|]; [|discriminate]. cbn [option_map].
    destruct prompt as [|c prompt]; [discriminate|].
    cbn. intros H. injection H as <-. cbn. repeat split; eauto; discriminate.
  - destruct prompt as [|c prompt]; [discriminate|].
    cbn. intros H. injection H as <-. cbn. repeat split; eauto; discriminate.
Qed.

Section ServerHandler.

Variable tm : TemplateManager.
Variable isCodexAvailable : bool.
Variable timestamp : jsstring.
Variable zodMessage : option json -> jsstring.
Variable Number_isZero : jsstring -> bool.
Variable Number_toString : jsstring -> jsstring.

(** X25. A valid input is answered with [success: true] whenever the child
    settles: when the first event of the running child that is no output is
    its close, its failure to start or the expiry of the timer, the handler
    resolves with the printed response for the result of [runCodexCLI],
    whose [success] is [true] and whose [original_prompt] is the prompt, also
    when the subprocess failed.  When the write to the input of the child
    raises an error first, the handler never answers: nothing listens for
    the error and the node process ends. *)
Theorem handleRefinePrompt_valid (input : option json)
  (validatedInput : RefinePromptInput.t) (running later : list Event) (ev : Event)
  (Hvalid : Server.RefinePromptInputSchema_parse input = Some validatedInput)
  (Hrunning : Forall (fun ev => isOutput ev = true) running)
  (Hsettles : settles ev = true) :
  (exists refinedOutput members,
     runCodexCLI tm (Server.codexRequest validatedInput) (running ++ ev :: later)
     = Some refinedOutput
     /\ Server.handleRefinePrompt tm isCodexAvailable timestamp zodMessage
          Number_isZero Number_toString input (running ++ ev :: later)
        = Resolved (Stringify.stringify Number_toString 0 (JObject members))
     /\ JSON.getProperty members (js "success") = Some (JBool true)
     /\ JSON.getProperty members (js "original_prompt")
        = Some (JString (RefinePromptInput.prompt validatedInput))
     /\ JSON.getProperty members (js "improved_prompt")
        = Some (JString (improvedPrompt refinedOutput))
     /\ JSON.getProperty members (js "error") = None)
  /\ forall errorMessage,
       Server.handleRefinePrompt tm isCodexAvailable timestamp zodMessage
         Number_isZero Number_toString input
         (running ++ StdinError errorMessage :: later)
       = Pending.
Proof.
  split.
  - destruct (runCodexCLI_settles tm (Server.codexRequest validatedInput)
                running ev later Hrunning Hsettles) as [refinedOutput Hrun].
    exists refinedOutput. eexists. split; [exact Hrun|].
    unfold Server.handleRefinePrompt.
    rewrite Hvalid, Hrun. unfold Server.formatMCPResponse.
    split; [reflexivity|]. repeat split; reflexivity.
  - intros errorMessage. unfold Server.handleRefinePrompt.
    rewrite Hvalid, runCodexCLI_stdin_error by exact Hrunning. reflexivity.
Qed.

(** X26. The handler rejects exactly when its own error fallback throws:
    when the input has no string under [prompt], or when what it has under
    [tags] is [true], a number other than zero or an object.  Every other
    input is answered, valid or not. *)
Theorem handleRefinePrompt_rejects (input : option json) (events : list Event) :
  Server.handleRefinePrompt tm isCodexAvailable timestamp zodMessage Number_isZero
    Number_toString input events
  = Rejected Server.TypeError
  <-> Server.inputPrompt input = None
      \/ Server.spreadTags Number_isZero (Server.inputTags input) = None.
Proof.
  unfold Server.handleRefinePrompt.
  destruct (Server.RefinePromptInputSchema_parse input) as [validatedInput|] eqn:Hparse.
  - apply RefinePromptInputSchema_parse_inv in Hparse as (Hprompt & _ & Htags).
    split.
    + destruct (runCodexCLI _ _ _); discriminate.
    + intros [H|H]; [congruence|].
      destruct Htags as [Htags|[items Htags]]; rewrite Htags in H; discriminate H.
  - unfold Server.createErrorFallback.
    destruct (Server.inputPrompt input) as [prompt|].
    + destruct (Server.spreadTags Number_isZero (Server.inputTags input)).
      * split; [discriminate|]. intros [H|H]; discriminate H.
      * split; [auto|reflexivity].
    + split; [auto|reflexivity].
Qed.

End ServerHandler.

(** A child that prints and then hangs until the timer expires. *)
Lemma handleRefinePrompt_valid_witness :
  (exists refinedOutput members,
     runCodexCLI managerV1
       (Server.codexRequest
          {| RefinePromptInput.prompt := js "Criar API";
             RefinePromptInput.context := Some [];
             RefinePromptInput.tags := Some [] |})
       ([StdoutData (js "thinking")] ++ TimeoutElapsed :: [Close None])
     = Some refinedOutput
     /\ Server.handleRefinePrompt managerV1 false (js "2025-01-01T00:00:00.000Z")
          (fun _ => js "invalid") (fun _ => false) (fun lexeme => lexeme)
          (Some (JObject [(js "prompt", JString (js "Criar API"));
                          (js "context", JString []);
                          (js "tags", JArray []);
                          (js "extra", JNull)]))
          ([StdoutData (js "thinking")] ++ TimeoutElapsed :: [Close None])
        = Resolved (Stringify.stringify (fun lexeme => lexeme) 0 (JObject members))
     /\ JSON.getProperty members (js "success") = Some (JBool true)
     /\ JSON.getProperty members (js "original_prompt")
        = Some (JString (js "Criar API"))
     /\ JSON.getProperty members (js "improved_prompt")
        = Some (JString (improvedPrompt refinedOutput))
     /\ JSON.getProperty members (js "error") = None)
  /\ forall errorMessage,
       Server.handleRefinePrompt managerV1 false (js "2025-01-01T00:00:00.000Z")
         (fun _ => js "invalid") (fun _ => false) (fun lexeme => lexeme)
         (Some (JObject [(js "prompt", JString (js "Criar API"));
                         (js "context", JString []);
                         (js "tags", JArray []);
                         (js "extra", JNull)]))
         ([StdoutData (js "thinking")] ++ StdinError errorMessage :: [Close None])
       = Pending.
Proof.
  apply (handleRefinePrompt_valid managerV1 false (js "2025-01-01T00:00:00.000Z")
           (fun _ => js "invalid") (fun _ => false) (fun lexeme => lexeme)
           (Some (JObject [(js "prompt", JString (js "Criar API"));
                           (js "context", JString []);
                           (js "tags", JArray []);
                           (js "extra", JNull)]))
           {| RefinePromptInput.prompt := js "Criar API";
              RefinePromptInput.context := Some [];
              RefinePromptInput.tags := Some [] |}
           [StdoutData (js "thinking")] [Close None] TimeoutElapsed).
  - vm_compute. reflexivity.
  - repeat constructor.
  - reflexivity.
Defined.

Example handleRefinePrompt_empty_prompt :
  exists text,
    Server.handleRefinePrompt managerV1 true (js "2025-01-01T00:00:00.000Z")
      (fun _ => js "invalid") (fun _ => false) (fun lexeme => lexeme)
      (Some (JObject [(js "prompt", JString []); (js "tags", JString (js "ab"))]))
      []
    = Resolved text
    /\ includes text (jsq "'tags': [
      'fallback',
      'a',
      'b'
    ]") = true.
Proof. eexists. split; [reflexivity|]. vm_compute. reflexivity. Qed.

Example handleRefinePrompt_no_arguments :
  Server.handleRefinePrompt managerV1 true (js "2025-01-01T00:00:00.000Z")
    (fun _ => js "invalid") (fun _ => false) (fun lexeme => lexeme) None []
  = Rejected Server.TypeError.
Proof. reflexivity. Qed.

(** ** What reaches only the child process *)



